(** * Forest client: response normalisation, caches and the event stream

    A shallow embedding of [src/client/forestClient.ts] (class
    [ForestClient]) and the properties of its normalisers, its two
    id-keyed caches and its reconnecting event subscription. *)

From Stdlib Require Import ZArith QArith Ascii String List Bool Lia.
From stdpp Require Import base option list strings gmap pretty.

Local Open Scope string_scope.
Local Open Scope list_scope.

(** ** JavaScript values *)

(** A JavaScript number: a finite value (kept as the rational it denotes)
    or one of the three non-finite ones. [JSON.parse] can deliver
    [Infinity] (for a literal such as [1e999]), so the non-finite cases
    are inputs the normalisers really see. *)
Inductive number : Type :=
| Finite (q : Q)
| NaN
| PosInfinity
| NegInfinity.

(** [Number.isFinite] on a value already known to be a number. *)
Definition isFinite (n : number) : bool :=
  match n with
  | Finite _ => true
  | _ => false
  end.

(** ToBoolean on numbers: zero and NaN are falsy. *)
Definition numberTruthy (n : number) : bool :=
  match n with
  | Finite q => negb (Qnum q =? 0)%Z
  | NaN => false
  | PosInfinity | NegInfinity => true
  end.

(** The number an array's [length] is. *)
Definition ofNat (n : nat) : number := Finite (inject_Z (Z.of_nat n)).

(** A value as the client sees it once a response body or a frame has
    been decoded: the JSON constructors plus [undefined], which is what a
    missing property reads as. An object is kept as its list of
    properties; the first binding of a key is the property's value. *)
#[local] Unset Elimination Schemes.
Inductive value : Type :=
| VUndefined
| VNull
| VBool (b : bool)
| VNum (n : number)
| VStr (s : string)
| VArr (elems : list value)
| VObj (fields : list (string * value)).
#[local] Set Elimination Schemes.

Inductive jstype : Type :=
| TUndefined | TObject | TBoolean | TNumber | TString.

(** [typeof v]; note [typeof null === 'object']. *)
Definition typeof (v : value) : jstype :=
  match v with
  | VUndefined => TUndefined
  | VNull => TObject
  | VBool _ => TBoolean
  | VNum _ => TNumber
  | VStr _ => TString
  | VArr _ | VObj _ => TObject
  end.

Definition typeofObject (v : value) : bool :=
  match typeof v with TObject => true | _ => false end.

Definition typeofString (v : value) : bool :=
  match typeof v with TString => true | _ => false end.

(** ToBoolean. *)
Definition truthy (v : value) : bool :=
  match v with
  | VUndefined | VNull => false
  | VBool b => b
  | VNum n => numberTruthy n
  | VStr s => negb (String.eqb s "")
  | VArr _ | VObj _ => true
  end.

(** A non-null object (an array is one): [v && typeof v === 'object']. *)
Definition isObject (v : value) : bool := truthy v && typeofObject v.

Definition isArray (v : value) : bool :=
  match v with VArr _ => true | _ => false end.

(** [v == null]: the values on which [??] and [?.] give way. *)
Definition nullish (v : value) : bool :=
  match v with VUndefined | VNull => true | _ => false end.

Fixpoint field (k : string) (fs : list (string * value)) : value :=
  match fs with
  | [] => VUndefined
  | (k', v) :: rest => if String.eqb k k' then v else field k rest
  end.

Fixpoint hasField (k : string) (fs : list (string * value)) : bool :=
  match fs with
  | [] => false
  | (k', _) :: rest => String.eqb k k' || hasField k rest
  end.

(** Property read [v.k]. The client reads objects by name and arrays only
    through [length], [Array.isArray], [map] and [filter]; none of the
    names it reads is an array index or a prototype method, so on an
    array only [length] is defined, and a primitive has none of the
    properties read. A plain read on [null] or [undefined] would raise a
    TypeError: every plain read embedded below is on a value the code has
    already tested, and optional reads ([?.]) give [undefined] there. *)
Definition get (v : value) (k : string) : value :=
  match v with
  | VObj fs => field k fs
  | VArr xs => if String.eqb k "length" then VNum (ofNat (length xs)) else VUndefined
  | _ => VUndefined
  end.

(** Optional read [v?.k]. *)
Definition getOpt (v : value) (k : string) : value :=
  if nullish v then VUndefined else get v k.

(** [k in v] for an object or an array. *)
Definition hasProperty (k : string) (v : value) : bool :=
  match v with
  | VObj fs => hasField k fs
  | VArr _ => String.eqb k "length"
  | _ => false
  end.

(** The nullish-coalescing operator [a ?? b], on values and on results
    typed [T | undefined] (an [option]). *)
Class Coalesce (A : Type) := coalesce : A -> A -> A.

#[global] Instance coalesce_value : Coalesce value :=
  fun a b => if nullish a then b else a.

#[global] Instance coalesce_option {A : Type} : Coalesce (option A) :=
  fun a b => match a with Some _ => a | None => b end.

Infix "??" := coalesce (at level 65, right associativity).

(** [a || b] on a [string | undefined] left operand and a string right
    operand, as in [coerceString(x) || nodeId]. *)
Definition orString (a : option string) (b : string) : string :=
  match a with
  | Some s => if String.eqb s "" then b else s
  | None => b
  end.

(** A thrown exception: [new Error(arg)] keeps the argument it was built
    from (its message is [String(arg)], which is [arg] itself when [arg]
    is a string); a SyntaxError is what [JSON.parse] raises. *)
Inductive exn : Type :=
| Error (arg : value)
| SyntaxError (detail : string).

Inductive result (A : Type) : Type :=
| Ok (a : A)
| Throw (e : exn).
Arguments Ok {A} a.
Arguments Throw {A} e.

(** ** Canonical records (types.ts) *)

Module StatsSection.
Record t : Type := mk {
  total : option number;
  accepted : option number;
  suggested : option number
}.
(** The object literal [{}]: all three properties read [undefined]. *)
Definition empty : t := mk None None None.
End StatsSection.

Module RecentNode.
Record t : Type := mk {
  id : string;
  title : option string;
  createdAt : option string
}.
End RecentNode.

Module TopTag.
Record t : Type := mk {
  name : string;
  count : option number
}.
End TopTag.

Module TopSuggestion.
Record t : Type := mk {
  ref : option string;
  sourceId : option string;
  targetId : option string;
  score : option number
}.
End TopSuggestion.

Module HighDegreeNode.
Record t : Type := mk {
  id : string;
  title : option string;
  edgeCount : option number
}.
End HighDegreeNode.

Module Stats.
Record t : Type := mk {
  nodes : option number;
  edges : option number;
  suggestedEdges : option number;
  tags : option number;
  recentCount : option number;
  highScoreSuggestionCount : option number;
  recentNodes : list RecentNode.t;
  topTags : list TopTag.t;
  topSuggestions : list TopSuggestion.t;
  highDegreeNodes : list HighDegreeNode.t
}.
End Stats.

Inductive direction : Type := In_ | Out | Bidirectional.

Module Edge.
Record t : Type := mk {
  id : option string;
  sourceId : option string;
  targetId : option string;
  direction : option direction;
  score : option number;
  status : option string;
  label : option string;
  description : option string;
  toTitle : option string;
  fromTitle : option string
}.
End Edge.

Module EdgeCollection.
Record t : Type := mk {
  items : list Edge.t;
  total : option number
}.
End EdgeCollection.

Module NodeDetail.
Record t : Type := mk {
  id : string;
  title : option string;
  body : option string;
  tags : list string;
  bodyLength : option number;
  edges : list Edge.t;
  edgesTotal : number;
  suggestions : list Edge.t;
  suggestionsTotal : number
}.
End NodeDetail.

Module Health.
Record t : Type := mk {
  ok : bool;
  status : option string;
  version : option string;
  databasePath : option string;
  message : option string;
  uptimeSeconds : option number
}.
End Health.

(** [TagFavoriteRecord] of storage/tagFavorites.ts. *)
Module Favorite.
Record t : Type := mk {
  tags : list string;
  lastUsedAt : string;
  usageCount : number
}.
End Favorite.

(** ** Built-ins left open

    Two library functions are not part of the client: [String(n)] on a
    finite number and [String.prototype.trim]. The client is embedded for
    an arbitrary pair of them, so nothing proved below depends on how
    numbers print or on which characters count as white space. The two
    functions here are the ones the worked examples run with: decimal
    digits for an integer (as JavaScript prints it below 1e21, numerator
    and denominator otherwise) and trimming of the ASCII white space. *)

Definition showNumber (n : number) : string :=
  match n with
  | Finite q =>
      if Pos.eqb (Qden q) 1 then pretty (Qnum q)
      else pretty (Qnum q) ++ "/" ++ pretty (Zpos (Qden q))
  | NaN => "NaN"
  | PosInfinity => "Infinity"
  | NegInfinity => "-Infinity"
  end.

Definition isSpace (a : ascii) : bool :=
  let n := nat_of_ascii a in
  ((9 <=? n) && (n <=? 13))%nat || (n =? 32)%nat.

Fixpoint trimStart (s : string) : string :=
  match s with
  | String a rest => if isSpace a then trimStart rest else s
  | EmptyString => EmptyString
  end.

Definition trimAscii (s : string) : string :=
  String.rev (trimStart (String.rev (trimStart s))).

(** ** Strings

    The string operations the client and the tag helpers use, on strings
    as byte sequences: [startsWith], [slice(1)], [replace(/^#/, '')],
    [replace(/\/+$/, '')], [split(',')] and the test
    [/^https?:\/\//i]. Each of them only looks at ASCII characters, which
    are single bytes that occur nowhere inside a longer UTF-8 sequence. *)

(** [s.startsWith(p)]. *)
Definition startsWith (s p : string) : bool := String.prefix p s.

(** [s.slice(1)]. *)
Definition dropFirst (s : string) : string :=
  match s with
  | String _ rest => rest
  | EmptyString => EmptyString
  end.

(** [s.replace(/^#/, '')]. *)
Definition stripLeadingHash (s : string) : string :=
  match s with
  | String c rest => if Ascii.eqb c "#" then rest else s
  | EmptyString => EmptyString
  end.

(** [s.replace(/\/+$/, '')]: the string without its trailing slashes. *)
Fixpoint stripTrailingSlashes (s : string) : string :=
  match s with
  | EmptyString => EmptyString
  | String c rest =>
      match stripTrailingSlashes rest with
      | EmptyString => if Ascii.eqb c "/" then EmptyString else String c EmptyString
      | kept => String c kept
      end
  end.

(** [s.split(sep)] for a one-character separator: never empty, and one
    piece more than there are separators. *)
Fixpoint split (sep : ascii) (s : string) : list string :=
  match s with
  | EmptyString => [EmptyString]
  | String c rest =>
      if Ascii.eqb c sep then EmptyString :: split sep rest
      else
        match split sep rest with
        | piece :: pieces => String c piece :: pieces
        | [] => [String c EmptyString]
        end
  end.

(** How many times [c] occurs in [s]. *)
Fixpoint countChar (c : ascii) (s : string) : nat :=
  match s with
  | EmptyString => 0%nat
  | String a rest => (if Ascii.eqb a c then 1 else 0)%nat + countChar c rest
  end.

(** ASCII lower case of one character. A regular expression with the
    [i] flag (and without [u]) never lets a non-ASCII character match an
    ASCII one, so this is all the flag does to the pattern below. *)
Definition asciiLower (c : ascii) : ascii :=
  let n := nat_of_ascii c in
  if ((65 <=? n) && (n <=? 90))%nat then ascii_of_nat (n + 32) else c.

(** [s] starts with the lower-case pattern [p], ignoring ASCII case. *)
Fixpoint startsWithIgnoreCase (s p : string) : bool :=
  match p, s with
  | EmptyString, _ => true
  | String a p', String b s' => Ascii.eqb a (asciiLower b) && startsWithIgnoreCase s' p'
  | String _ _, EmptyString => false
  end.

(** [/^https?:\/\//i.test(path)]. *)
Definition isAbsoluteUrl (path : string) : bool :=
  startsWithIgnoreCase path "http://" || startsWithIgnoreCase path "https://".

(** Further built-ins the helpers below are embedded over
    ([String.prototype.toLowerCase], [+] on numbers, [Date.parse] and
    [Number] on a string), and what the worked examples run them with:
    ASCII lower case, the exact sum (which is the double sum on the small
    integers used), a table holding the one date the examples use, and
    decimal digits. *)
Fixpoint lowerAscii (s : string) : string :=
  match s with
  | String c rest => String (asciiLower c) (lowerAscii rest)
  | EmptyString => EmptyString
  end.

Definition exactAdd (a b : number) : number :=
  match a, b with
  | Finite x, Finite y => Finite (Qred (x + y))
  | NaN, _ | _, NaN => NaN
  | PosInfinity, NegInfinity | NegInfinity, PosInfinity => NaN
  | PosInfinity, _ | _, PosInfinity => PosInfinity
  | NegInfinity, _ | _, NegInfinity => NegInfinity
  end.

Definition exampleDateParse (s : string) : number :=
  if String.eqb s "2025-10-18T10:00:00.000Z" then Finite 1760781600000 else NaN.

Fixpoint digitsValue (s : string) (acc : Z) : option Z :=
  match s with
  | EmptyString => Some acc
  | String c rest =>
      let n := nat_of_ascii c in
      if ((48 <=? n) && (n <=? 57))%nat
      then digitsValue rest (10 * acc + Z.of_nat (n - 48))%Z
      else None
  end.

Definition digitsToNumber (s : string) : number :=
  match digitsValue s 0%Z with
  | Some z => Finite (inject_Z z)
  | None => NaN
  end.

(** ** The normalisers of [ForestClient] *)

Section Client.

#[local] Set Default Proof Using "Type".

Variable numberToString : number -> string.
Variable trim : string -> string.
Variable toLowerCase : string -> string.
Variable numberAdd : number -> number -> number.
Variable dateParse : string -> number.
Variable stringToNumber : string -> number.

(** The elements of an array (nothing for any other value; used only
    behind an [Array.isArray] test). *)
Definition elements (v : value) : list value :=
  match v with VArr xs => xs | _ => [] end.

(** A [number | undefined] result read back as a value. *)
Definition ofOption (o : option number) : value :=
  match o with Some n => VNum n | None => VUndefined end.

(** Truthiness of a [string | undefined] result. *)
Definition truthyString (o : option string) : bool :=
  match o with Some s => negb (String.eqb s "") | None => false end.

Definition coerceString (v : value) : option string :=
  match v with
  | VStr s => Some s
  | VNum n => if isFinite n then Some (numberToString n) else None
  | _ => None
  end.

Definition coerceNumber (v : value) : option number :=
  match v with
  | VNum n => if isFinite n then Some n else None
  | _ => None
  end.

Definition toRecord (input : value) : value :=
  if truthy input && typeofObject input then input else VUndefined.

Definition extractSection (input : value) : StatsSection.t :=
  if negb (truthy input) || negb (typeofObject input) then StatsSection.empty
  else
    let record := input in
    StatsSection.mk
      (coerceNumber (get record "total" ?? get record "count" ?? get record "length"))
      (coerceNumber (get record "accepted"))
      (coerceNumber (get record "suggested" ?? get record "pending")).

Definition normalizeRecentNodes (section : value) : list RecentNode.t :=
  let record := toRecord section in
  if negb (truthy record) || negb (isArray (get record "recent")) then []
  else
    omap (fun entry =>
            if negb (truthy entry) || negb (typeofObject entry) then None
            else
              let id := coerceString (get entry "id") in
              match id with
              | Some i =>
                  if truthyString id then
                    Some (RecentNode.mk i
                            (coerceString (get entry "title"))
                            (coerceString (get entry "createdAt" ?? get entry "updatedAt")))
                  else None
              | None => None
              end)
         (elements (get record "recent")).

Definition normalizeTopTags (section : value) : list TopTag.t :=
  let record := toRecord section in
  if negb (truthy record) then []
  else
    let topTags := get record "topTags" ?? get record "tags" in
    if negb (isArray topTags) then []
    else
      omap (fun entry =>
              if negb (truthy entry) || negb (typeofObject entry) then None
              else
                let name := coerceString (get entry "name" ?? get entry "tag") in
                match name with
                | Some n =>
                    if truthyString name then
                      Some (TopTag.mk n (coerceNumber (get entry "count")))
                    else None
                | None => None
                end)
           (elements topTags).

Definition normalizeTopSuggestions (section : value) : list TopSuggestion.t :=
  let record := toRecord section in
  if negb (truthy record) then []
  else
    let topSuggestions := get record "topSuggestions" ?? get record "suggestions" in
    if negb (isArray topSuggestions) then []
    else
      omap (fun entry =>
              if negb (truthy entry) || negb (typeofObject entry) then None
              else
                Some (TopSuggestion.mk
                        (coerceString (get entry "ref" ?? get entry "id" ?? get entry "code"))
                        (coerceString (get entry "sourceId" ?? get entry "fromId"
                                         ?? get entry "sourceNodeId"))
                        (coerceString (get entry "targetId" ?? get entry "toId"
                                         ?? get entry "targetNodeId"))
                        (coerceNumber (get entry "score" ?? get entry "weight"
                                         ?? get entry "similarity"))))
           (elements topSuggestions).

Definition normalizeHighDegreeNodes (input : value) : list HighDegreeNode.t :=
  if negb (isArray input) then []
  else
    omap (fun entry =>
            if negb (truthy entry) || negb (typeofObject entry) then None
            else
              let id := coerceString (get entry "id") in
              match id with
              | Some i =>
                  if truthyString id then
                    Some (HighDegreeNode.mk i
                            (coerceString (get entry "title"))
                            (coerceNumber (get entry "edgeCount" ?? get entry "degree")))
                  else None
              | None => None
              end)
         (elements input).

(** [xs.length > 0 ? xs.length : undefined]. *)
Definition lengthIfPositive {A : Type} (xs : list A) : option number :=
  if (0 <? length xs)%nat then Some (ofNat (length xs)) else None.

Definition normalizeStats (source : value) : Stats.t :=
  let payload := toRecord source ?? VObj [] in
  let counts := toRecord (get payload "counts") in
  let nodesRaw := get payload "nodes" ?? getOpt counts "nodes" in
  let edgesRaw := get payload "edges" ?? getOpt counts "edges" in
  let tagsRaw := get payload "tags" ?? getOpt counts "tags" in
  let suggestionsRaw :=
    get payload "suggestions" ?? getOpt counts "suggestions"
      ?? get payload "suggestedEdges" ?? edgesRaw in
  let nodesSection := extractSection nodesRaw in
  let edgesSection := extractSection edgesRaw in
  let tagsSection := extractSection tagsRaw in
  let suggestionsSection := extractSection suggestionsRaw in
  let nodes :=
    coerceNumber (get payload "nodes") ?? coerceNumber (getOpt counts "nodes")
      ?? StatsSection.total nodesSection ?? StatsSection.accepted nodesSection in
  let edges :=
    coerceNumber (get payload "edges") ?? coerceNumber (getOpt counts "edges")
      ?? StatsSection.total edgesSection ?? StatsSection.accepted edgesSection in
  let tags :=
    coerceNumber (get payload "tags") ?? coerceNumber (getOpt counts "tags")
      ?? StatsSection.total tagsSection in
  let suggestedEdges :=
    coerceNumber (get payload "suggestedEdges") ?? coerceNumber (getOpt counts "suggested")
      ?? StatsSection.total suggestionsSection ?? StatsSection.suggested edgesSection in
  let nodesRecord := toRecord nodesRaw in
  let suggestionsRecord := toRecord suggestionsRaw in
  let recentNodes := normalizeRecentNodes nodesRaw in
  let topTags := normalizeTopTags tagsRaw in
  let topSuggestions := normalizeTopSuggestions suggestionsRaw in
  let highDegreeNodes := normalizeHighDegreeNodes (get payload "highDegreeNodes") in
  let recentCount :=
    coerceNumber (get payload "recentCount") ?? coerceNumber (getOpt nodesRecord "recentCount")
      ?? lengthIfPositive recentNodes in
  let highScoreSuggestionCount :=
    coerceNumber (get payload "highScoreCount")
      ?? coerceNumber (getOpt suggestionsRecord "highScoreCount")
      ?? lengthIfPositive topSuggestions in
  Stats.mk nodes edges suggestedEdges tags recentCount highScoreSuggestionCount
    recentNodes topTags topSuggestions highDegreeNodes.

(** *** Edges and node detail *)

Definition resolveDirection (sourceId targetId : option string) (nodeId : string)
  : option direction :=
  let normalizedNodeId := nodeId in
  let isNode (x : option string) : bool :=
    match x with
    | Some s => negb (String.eqb s "") && String.eqb s normalizedNodeId
    | None => false
    end in
  if isNode sourceId && isNode targetId then Some Bidirectional
  else if isNode sourceId then Some Out
  else if isNode targetId then Some In_
  else None.

(** [typeof v === 'string' && v.trim().length > 0 ? v : undefined], the
    test [extractTitle] applies to each candidate. *)
Definition titleCandidate (v : value) : option string :=
  match v with
  | VStr s => if (0 <? String.length (trim s))%nat then Some s else None
  | _ => None
  end.

Definition extractTitle (record : value) (key : string) : option string :=
  let direct := get record (key ++ "Title") in
  match titleCandidate direct with
  | Some s => Some s
  | None =>
      let value := get record key in
      if truthy value && typeofObject value then
        match titleCandidate (get value "title") with
        | Some s => Some s
        | None => titleCandidate (get value "name")
        end
      else None
  end.

Definition normalizeEdgeRecord (edge : value) (nodeId : string) : option Edge.t :=
  if negb (truthy edge) || negb (typeofObject edge) then None
  else
    let record := edge in
    let sourceId :=
      coerceString
        (get record "sourceId" ?? get record "fromId" ?? get record "fromNodeId"
           ?? (if typeofObject (get record "source") && truthy (get record "source")
               then get (get record "source") "id" else VUndefined)) in
    let targetId :=
      coerceString
        (get record "targetId" ?? get record "toId" ?? get record "toNodeId"
           ?? (if typeofObject (get record "target") && truthy (get record "target")
               then get (get record "target") "id" else VUndefined)) in
    let direction := resolveDirection sourceId targetId nodeId in
    let score :=
      coerceNumber (get record "score") ?? coerceNumber (get record "weight")
        ?? coerceNumber (get record "similarity") in
    let status := coerceString (get record "status" ?? get record "state" ?? get record "kind") in
    let label :=
      coerceString (get record "label" ?? get record "name" ?? get record "description") in
    let description := coerceString (get record "description") in
    let toTitle := extractTitle record "target" ?? extractTitle record "to" in
    let fromTitle := extractTitle record "source" ?? extractTitle record "from" in
    Some (Edge.mk (coerceString (get record "id")) sourceId targetId direction score
            status label description toTitle fromTitle).

(** [xs.map(e => normalizeEdgeRecord(e, nodeId)).filter(e => e !== null)]. *)
Definition normalizeEdges (xs : list value) (nodeId : string) : list Edge.t :=
  omap (fun edge => normalizeEdgeRecord edge nodeId) xs.

Definition normalizeEdgeCollection (input : value) (nodeId : string) : EdgeCollection.t :=
  if negb (truthy input) then EdgeCollection.mk [] None
  else if isArray input then
    let items := normalizeEdges (elements input) nodeId in
    EdgeCollection.mk items (Some (ofNat (length items)))
  else if typeofObject input then
    let obj := input in
    if isArray (get obj "items") then
      let items := normalizeEdges (elements (get obj "items")) nodeId in
      let total := coerceNumber (get obj "total") ?? Some (ofNat (length items)) in
      EdgeCollection.mk items total
    else if isArray (get obj "edges") then
      let items := normalizeEdges (elements (get obj "edges")) nodeId in
      EdgeCollection.mk items (Some (ofNat (length items)))
    else EdgeCollection.mk [] None
  else EdgeCollection.mk [] None.

(** The four variables [normalizeNodeDetail] declares with [let] and
    reassigns. *)
Record detailVars : Type := mkVars {
  v_edges : list Edge.t;
  v_edgesTotal : option number;
  v_suggestions : list Edge.t;
  v_suggestionsTotal : option number
}.

(** First conditional of [normalizeNodeDetail]: the nested
    [edges.accepted] / [edges.suggested] sections. *)
Definition nestedSections (source : value) (id : string) (vars : detailVars) : detailVars :=
  if (length (v_edges vars) =? 0)%nat && truthy (get source "edges")
     && typeofObject (get source "edges") then
    let accepted := get (get source "edges") "accepted" in
    let acceptedCollection := normalizeEdgeCollection accepted id in
    let edges := EdgeCollection.items acceptedCollection in
    let edgesTotal := v_edgesTotal vars ?? EdgeCollection.total acceptedCollection in
    if (length (v_suggestions vars) =? 0)%nat then
      let suggested := get (get source "edges") "suggested" in
      let suggestedCollection := normalizeEdgeCollection suggested id in
      mkVars edges edgesTotal
        (EdgeCollection.items suggestedCollection)
        (v_suggestionsTotal vars ?? EdgeCollection.total suggestedCollection)
    else mkVars edges edgesTotal (v_suggestions vars) (v_suggestionsTotal vars)
  else vars.

(** Second conditional: the legacy [suggestedEdges] field. *)
Definition legacySuggestions (source : value) (id : string) (vars : detailVars) : detailVars :=
  if (length (v_suggestions vars) =? 0)%nat then
    let fallback := normalizeEdgeCollection (get source "suggestedEdges") id in
    if (0 <? length (EdgeCollection.items fallback))%nat then
      mkVars (v_edges vars) (v_edgesTotal vars)
        (EdgeCollection.items fallback)
        (v_suggestionsTotal vars ?? EdgeCollection.total fallback)
    else vars
  else vars.

(** [typeof total !== 'number' ? xs.length : total]. *)
Definition totalOrLength {A : Type} (total : option number) (xs : list A) : number :=
  match total with Some n => n | None => ofNat (length xs) end.

Definition normalizeNodeDetail (payload : value) (nodeId : string) : NodeDetail.t :=
  let source := payload ?? VObj [] in
  let id := orString (coerceString (get source "id")) nodeId in
  let title := coerceString (get source "title") in
  let body := coerceString (get source "body") in
  let bodyLength := coerceNumber (get source "bodyLength" ?? get source "body_size") in
  let tagsRaw :=
    if isArray (get source "tags") then
      omap (fun tag => match tag with VStr s => Some s | _ => None end)
           (elements (get source "tags"))
    else [] in
  let edgesCollection := normalizeEdgeCollection (get source "edges") id in
  let edgesTotal :=
    coerceNumber
      (get source "edgesTotal" ?? getOpt (get source "edges") "total"
         ?? ofOption (EdgeCollection.total edgesCollection)) in
  let suggestionsCollection :=
    normalizeEdgeCollection
      (get source "suggestions" ?? getOpt (get source "edges") "suggested") id in
  let suggestionsTotal :=
    coerceNumber
      (get source "suggestionsTotal" ?? get source "suggestedEdgesTotal"
         ?? ofOption (EdgeCollection.total suggestionsCollection)) in
  let vars :=
    legacySuggestions source id
      (nestedSections source id
         (mkVars (EdgeCollection.items edgesCollection) edgesTotal
                 (EdgeCollection.items suggestionsCollection) suggestionsTotal)) in
  NodeDetail.mk id title body tagsRaw bodyLength
    (v_edges vars) (totalOrLength (v_edgesTotal vars) (v_edges vars))
    (v_suggestions vars) (totalOrLength (v_suggestionsTotal vars) (v_suggestions vars)).

(** The places [normalizeNodeDetail] looks for suggestions, each read as
    an edge collection relative to [id]: the top-level [suggestions]
    field, the nested [edges.suggested] section, the legacy
    [suggestedEdges] field; and the top-level [edges] field read as a
    list. *)
Definition topLevelSuggestions (source : value) (id : string) : list Edge.t :=
  EdgeCollection.items (normalizeEdgeCollection (get source "suggestions") id).

Definition nestedSuggestions (source : value) (id : string) : list Edge.t :=
  EdgeCollection.items
    (normalizeEdgeCollection (getOpt (get source "edges") "suggested") id).

Definition legacySuggestionItems (source : value) (id : string) : list Edge.t :=
  EdgeCollection.items (normalizeEdgeCollection (get source "suggestedEdges") id).

Definition topLevelEdges (source : value) (id : string) : list Edge.t :=
  EdgeCollection.items (normalizeEdgeCollection (get source "edges") id).

(** [xs.length > 0]. *)
Definition nonEmpty {A : Type} (xs : list A) : bool := (0 <? length xs)%nat.

(** *** Envelope unwrapping *)

Definition genericErrorMessage : string := "Forest API responded with an error.".

Definition unwrap (payload : value) : result value :=
  if truthy payload && typeofObject payload && hasProperty "data" payload then
    let envelope := payload in
    match get envelope "success" with
    | VBool false =>
        let message :=
          if typeofString (get envelope "error") then get envelope "error"
          else if truthy (get envelope "message") then get envelope "message"
          else VStr genericErrorMessage in
        Throw (Error message)
    | _ => Ok (get envelope "data")
    end
  else Ok payload.

(** *** Request methods

    A method awaits [this.request(path)], which either yields the
    unwrapped payload or throws; that outcome is the [response] argument
    below. Methods run in a state-and-exception monad over the two
    caches. *)

Record NodeList : Type := mkNodeList {
  nl_items : list value;
  nl_total : value;
  nl_limit : value;
  nl_offset : value
}.

(** What [listNodes] does with the payload once the request resolved. *)
Definition listNodes (payload : value) : result NodeList :=
  if isArray payload then
    Ok (mkNodeList (elements payload) VUndefined VUndefined VUndefined)
  else if truthy payload && isArray (get payload "items") then
    let typed := payload in
    Ok (mkNodeList (elements (get typed "items"))
          (get typed "total") (get typed "limit") (get typed "offset"))
  else if truthy payload && isArray (get payload "nodes") then
    let typed := payload in
    Ok (mkNodeList (elements (get typed "nodes"))
          (get typed "total") (get typed "limit") (get typed "offset"))
  else Throw (Error (VStr "Unexpected response shape from /nodes endpoint")).

(** What [listTags] does with the payload once the request resolved. *)
Definition listTags (payload : value) : result (list value) :=
  if isArray payload then Ok (elements payload)
  else if truthy payload && isArray (get payload "items") then
    Ok (elements (get payload "items"))
  else if truthy payload && isArray (get payload "tags") then
    Ok (elements (get payload "tags"))
  else Throw (Error (VStr "Unexpected response shape from /tags endpoint")).

Record client : Type := mkClient {
  contentCache : gmap string value;
  detailCache : gmap string NodeDetail.t
}.

(** [new ForestClient(options)]: both caches start empty. *)
Definition newClient : client := mkClient ∅ ∅.

Definition M (A : Type) : Type := client -> result A * client.

Definition ret {A : Type} (a : A) : M A := fun c => (Ok a, c).

Definition throw {A : Type} (e : exn) : M A := fun c => (Throw e, c).

Definition bind {A B : Type} (m : M A) (k : A -> M B) : M B :=
  fun c =>
    match m c with
    | (Ok a, c') => k a c'
    | (Throw e, c') => (Throw e, c')
    end.

Notation "x <- m ;; k" := (bind m (fun x => k))
  (at level 100, m at next level, right associativity).
Notation "m ;;; k" := (bind m (fun _ => k))
  (at level 100, right associativity).

(** [await] of an outcome that is already settled. *)
Definition await {A : Type} (r : result A) : M A := fun c => (r, c).

(** [this.contentCache.get(id)]: [undefined] on a miss. *)
Definition getCachedNodeContent (id : string) : M value :=
  fun c => (Ok (default VUndefined (contentCache c !! id)), c).

(** [this.contentCache.set(id, content)]. *)
Definition storeNodeContent (id : string) (content : value) : M unit :=
  fun c => (Ok tt, mkClient (<[id := content]> (contentCache c)) (detailCache c)).

Definition evictNodeContent (id : string) : M unit :=
  fun c => (Ok tt, mkClient (delete id (contentCache c)) (detailCache c)).

Definition clearNodeContentCache : M unit :=
  fun c => (Ok tt, mkClient ∅ (detailCache c)).

(** [this.detailCache.get(id)]: [None] is [undefined]. *)
Definition getCachedNodeDetail (id : string) : M (option NodeDetail.t) :=
  fun c => (Ok (detailCache c !! id), c).

(** [this.detailCache.set(id, detail)]. *)
Definition storeNodeDetail (id : string) (detail : NodeDetail.t) : M unit :=
  fun c => (Ok tt, mkClient (contentCache c) (<[id := detail]> (detailCache c))).

Definition evictNodeDetail (id : string) : M unit :=
  fun c => (Ok tt, mkClient (contentCache c) (delete id (detailCache c))).

Definition clearNodeDetailCache : M unit :=
  fun c => (Ok tt, mkClient (contentCache c) ∅).

Definition getStats (response : result value) : M Stats.t :=
  payload <- await response ;;
  ret (normalizeStats payload).

Definition nodeIdRequired : exn := Error (VStr "Node id is required").

Definition getNodeContent (id : string) (forceRefresh : bool) (response : result value)
  : M value :=
  if negb (truthy (VStr id)) then throw nodeIdRequired
  else
    cached <- (if negb forceRefresh then getCachedNodeContent id else ret VUndefined) ;;
    if truthy cached then ret cached
    else
      content <- await response ;;
      storeNodeContent id content ;;;
      ret content.

Definition getNodeDetail (id : string) (forceRefresh : bool) (response : result value)
  : M NodeDetail.t :=
  if negb (truthy (VStr id)) then throw nodeIdRequired
  else
    cached <- (if negb forceRefresh then getCachedNodeDetail id else ret None) ;;
    match cached with
    | Some detail => ret detail
    | None =>
        payload <- await response ;;
        let detail := normalizeNodeDetail payload id in
        storeNodeDetail id detail ;;;
        ret detail
    end.

(** *** The event subscription ([subscribeToEvents])

    The closure state of one subscription ([closed], [socket],
    [reconnectTimer]) together with what the platform holds for it: the
    ready state of every socket it created (numbered in creation order),
    the timers still pending with the time they are due, a clock in
    milliseconds, and the log of every call the subscription made.
    Callbacks of [options] are optional; a flag says whether one was
    supplied. The subscriber's [handler] may throw. Callbacks and handler
    are the caller's code and run synchronously inside the listeners and
    inside [connect]: once [subscribeToEvents] has returned, any of them
    may call the returned unsubscribe function before it returns. *)

Inductive readyState : Type := CONNECTING | OPEN | CLOSING | CLOSED.

Inductive streamStatus : Type := Connecting | Connected | Disconnected.

Record EventStreamOptions : Type := mkOptions {
  path : option string;
  retryDelayMs : option N;
  onOpen : bool;
  onClose : bool;
  onError : bool;
  onStatusChange : bool
}.

Inductive action : Type :=
| CallStatusChange (s : streamStatus)
| CallOnOpen
| CallOnClose
| CallOnError (e : exn)
| CallHandler (event : value)
| NewWebSocket (sock : nat) (wsPath : string)
| SetTimeout (timer : nat) (delay : N)
| ClearTimeout (timer : nat)
| SocketClose (sock : nat)
| SocketTerminate (sock : nat).

Record subscription : Type := mkSub {
  closed : bool;
  socket : option nat;
  reconnectTimer : option nat;
  sockets : list readyState;
  timers : list (nat * N);
  nextTimer : nat;
  now : N;
  log : list action
}.

(** What the platform can do to a subscription: an event on one of its
    sockets, a pending timer coming due, time passing, and the caller
    invoking the returned unsubscribe function. A frame is given by what
    [JSON.parse(this.decodeMessage(data))] makes of it: a value, or the
    SyntaxError it throws. *)
Inductive input : Type :=
| SocketOpened (k : nat)
| SocketMessage (k : nat) (frame : result value)
| SocketErrored (k : nat) (e : exn)
| SocketClosed (k : nat)
| TimerFired (t : nat)
| Elapse (ms : N)
| Unsubscribe.

Variable handler : value -> option exn.
Variable options : EventStreamOptions.

(** What the caller's code does with the unsubscribe function while one
    of its callbacks runs: [callbackUnsubscribes calls] holds when the
    callback entered by the last call of [calls], the subscription having
    made the calls before it, calls unsubscribe before it returns. *)
Variable callbackUnsubscribes : list action -> bool.

Definition retryDelay : N := default 5000%N (retryDelayMs options).

Definition wsPath : string := default "/ws" (path options).

(** [options.onX?.(...)]: the call is made when the callback exists. *)
Definition optionalCall (present : bool) (a : action) : list action :=
  if present then [a] else [].

Definition emit (acts : list action) (s : subscription) : subscription :=
  mkSub (closed s) (socket s) (reconnectTimer s) (sockets s) (timers s)
        (nextTimer s) (now s) (log s ++ acts).

Definition setReadyState (k : nat) (r : readyState) (s : subscription) : subscription :=
  mkSub (closed s) (socket s) (reconnectTimer s) (<[k := r]> (sockets s)) (timers s)
        (nextTimer s) (now s) (log s).

Definition cancelTimer (t : nat) (s : subscription) : subscription :=
  mkSub (closed s) (socket s) (reconnectTimer s) (sockets s)
        (List.filter (fun p => negb (Nat.eqb (fst p) t)) (timers s))
        (nextTimer s) (now s) (log s ++ [ClearTimeout t]).

(** The function [subscribeToEvents] returns. It acts on the closure
    variables as they are when it is called. *)
Definition unsubscribe (s : subscription) : subscription :=
  let s1 :=
    mkSub true (socket s) (reconnectTimer s) (sockets s) (timers s)
          (nextTimer s) (now s) (log s) in
  let s2 :=
    match reconnectTimer s1 with
    | Some t => cancelTimer t s1
    | None => s1
    end in
  match socket s2 with
  | Some k =>
      match sockets s2 !! k with
      | Some OPEN => setReadyState k CLOSING (emit [SocketClose k] s2)
      | Some CLOSED => emit [SocketTerminate k] s2
      | _ => setReadyState k CLOSING (emit [SocketTerminate k] s2)
      end
  | None => s2
  end.

(** One call to a callback of the caller. [returned] says whether
    [subscribeToEvents] has returned, so that the caller holds the
    unsubscribe function; the callback then runs it or not, as
    [callbackUnsubscribes] says, before control is back in the
    subscription. Unsubscribing makes no call to the caller: [close()]
    and [terminate()] report to the listeners later, as socket events. *)
Definition invoke (returned : bool) (a : action) (s : subscription) : subscription :=
  let s1 := emit [a] s in
  if returned && callbackUnsubscribes (log s1) then unsubscribe s1 else s1.

(** Calls made one after the other. *)
Definition invokeAll (returned : bool) (acts : list action) (s : subscription)
  : subscription :=
  fold_left (fun acc a => invoke returned a acc) acts s.

(** [connect]: the test of [closed], then the status callback, then the
    new socket, in this order. *)
Definition connect (returned : bool) (s : subscription) : subscription :=
  if closed s then s
  else
    let s1 :=
      invokeAll returned
        (optionalCall (onStatusChange options) (CallStatusChange Connecting)) s in
    let k := length (sockets s1) in
    mkSub (closed s1) (Some k) (reconnectTimer s1) (sockets s1 ++ [CONNECTING]) (timers s1)
          (nextTimer s1) (now s1) (log s1 ++ [NewWebSocket k wsPath]).

(** [event && typeof event === 'object' && typeof event.type === 'string']. *)
Definition isEvent (event : value) : bool :=
  truthy event && typeofObject event && typeofString (get event "type").

(** The body of the [try] block of the message listener: the outcome and
    the calls made before it. *)
Definition messageBody (frame : result value) : result unit * list action :=
  match frame with
  | Throw e => (Throw e, [])
  | Ok parsed =>
      match unwrap parsed with
      | Throw e => (Throw e, [])
      | Ok event =>
          if isEvent event then
            match handler event with
            | Some e => (Throw e, [CallHandler event])
            | None => (Ok tt, [CallHandler event])
            end
          else (Ok tt, [])
      end
  end.

(** The message listener: [try { ... } catch (error) { options.onError?.(...) }]. *)
Definition onMessage (frame : result value) : result unit * list action :=
  match messageBody frame with
  | (Throw e, acts) => (Ok tt, acts ++ optionalCall (onError options) (CallOnError e))
  | (Ok u, acts) => (Ok u, acts)
  end.

Definition onSocketOpen : list action :=
  optionalCall (onStatusChange options) (CallStatusChange Connected)
    ++ optionalCall (onOpen options) CallOnOpen.

Definition onSocketError (e : exn) : list action :=
  optionalCall (onError options) (CallOnError e).

(** [options.onClose?.(); options.onStatusChange?.('disconnected')]. *)
Definition closeCallbacks : list action :=
  optionalCall (onClose options) CallOnClose
    ++ optionalCall (onStatusChange options) (CallStatusChange Disconnected).

(** The close listener: the two callbacks, then the test of [closed].
    [setTimeout(connect, retryDelay)] registers a fresh timer due
    [retryDelay] ms from now. *)
Definition onSocketClose (s : subscription) : subscription :=
  let s1 := invokeAll true closeCallbacks s in
  if negb (closed s1) then
    let t := nextTimer s1 in
    mkSub (closed s1) (socket s1) (Some t) (sockets s1)
          (timers s1 ++ [(t, (now s1 + retryDelay)%N)])
          (S t) (now s1) (log s1 ++ [SetTimeout t retryDelay])
  else s1.

Definition isSocket (k : nat) (s : subscription) : bool :=
  bool_decide (k < length (sockets s))%nat.

(** A timer may fire once it is pending and due. *)
Definition dueTimer (t : nat) (s : subscription) : bool :=
  existsb (fun p => Nat.eqb (fst p) t && (snd p <=? now s)%N) (timers s).

(** The listeners make their calls through [invokeAll]: the caller holds
    the unsubscribe function by the time a socket event or a timer can
    arrive. *)
Definition step (i : input) (s : subscription) : subscription :=
  match i with
  | SocketOpened k =>
      if isSocket k s then invokeAll true onSocketOpen (setReadyState k OPEN s) else s
  | SocketMessage k frame =>
      if isSocket k s then invokeAll true (snd (onMessage frame)) s else s
  | SocketErrored k e =>
      if isSocket k s then invokeAll true (onSocketError e) s else s
  | SocketClosed k =>
      if isSocket k s then onSocketClose (setReadyState k CLOSED s) else s
  | TimerFired t =>
      if dueTimer t s then
        connect true (mkSub (closed s) (socket s) (reconnectTimer s) (sockets s)
                            (List.filter (fun p => negb (Nat.eqb (fst p) t)) (timers s))
                            (nextTimer s) (now s) (log s))
      else s
  | Elapse ms =>
      mkSub (closed s) (socket s) (reconnectTimer s) (sockets s) (timers s)
            (nextTimer s) (now s + ms)%N (log s)
  | Unsubscribe => unsubscribe s
  end.

Definition run (ins : list input) (s : subscription) : subscription :=
  fold_left (fun acc i => step i acc) ins s.

(** [subscribeToEvents(handler, options)] up to its [return]: fresh
    closure variables, then the first [connect()], during which the
    caller does not yet hold the unsubscribe function. *)
Definition subscribeToEvents : subscription :=
  connect false (mkSub false None None [] [] 0 0%N []).

(** None of the callbacks entered by [acts], called in this order after
    [calls], calls unsubscribe. *)
Fixpoint noneUnsubscribes (calls acts : list action) : bool :=
  match acts with
  | [] => true
  | a :: rest =>
      negb (callbackUnsubscribes (calls ++ [a])) && noneUnsubscribes (calls ++ [a]) rest
  end.

Definition isAttempt (a : action) : bool :=
  match a with NewWebSocket _ _ => true | _ => false end.

Definition isSchedule (a : action) : bool :=
  match a with SetTimeout _ _ => true | _ => false end.

(** A call to the subscriber: to its handler or to its error callback. *)
Definition isDelivery (a : action) : bool :=
  match a with CallHandler _ | CallOnError _ => true | _ => false end.

Definition isSocketShutdown (a : action) : bool :=
  match a with SocketClose _ | SocketTerminate _ => true | _ => false end.

(** Number of connection attempts made so far. *)
Definition attempts (s : subscription) : nat :=
  length (List.filter isAttempt (log s)).

(** Number of reconnect timers scheduled so far. *)
Definition schedules (s : subscription) : nat :=
  length (List.filter isSchedule (log s)).

(** Timer handles are handed out in increasing order: every pending
    timer was created before [nextTimer]. *)
Definition timersFresh (s : subscription) : Prop :=
  Forall (fun p => (fst p < nextTimer s)%nat) (timers s).

(** The states a subscription can be in: those the platform can drive it
    to from [subscribeToEvents]. *)
Definition reachable (s : subscription) : Prop :=
  exists ins, s = run ins subscribeToEvents.

(** A connection attempt or the scheduling of one. *)
Definition isReconnect (a : action) : bool := isAttempt a || isSchedule a.

(** [s'] comes from [s] by calls to the caller's callbacks and by the
    unsubscribing these may do: no socket is created and no timer set,
    pending timers can only be cancelled, and [closed] is never unset. *)
Definition callbacksOnly (s s' : subscription) : Prop :=
  (closed s = true -> closed s' = true) /\
  socket s' = socket s /\ reconnectTimer s' = reconnectTimer s /\
  length (sockets s') = length (sockets s) /\
  nextTimer s' = nextTimer s /\ now s' = now s /\
  sublist (timers s') (timers s) /\
  exists rest, log s' = log s ++ rest /\ Forall (fun a => isReconnect a = false) rest.

(** The [socket] variable holds the socket of the latest connection
    attempt, which is the last socket created. *)
Definition socketIsLatest (s : subscription) : Prop :=
  exists k, socket s = Some k /\ S k = length (sockets s) /\
            last (List.filter isAttempt (log s)) = Some (NewWebSocket k wsPath).

(** *** Health, paths and the request itself *)

Definition normalizeHealth (source : value) : Health.t :=
  let payload := if truthy source && typeofObject source then source else VObj [] in
  let status := coerceString (get payload "status") in
  let okValue := match get payload "ok" with VBool b => Some b | _ => None end in
  let ok :=
    match okValue with
    | Some b => b
    | None =>
        if truthyString status then
          String.eqb (toLowerCase (default "" status)) "healthy"
          || String.eqb (toLowerCase (default "" status)) "ok"
        else true
    end in
  let meta :=
    if truthy (get payload "meta") && typeofObject (get payload "meta")
    then get payload "meta" else VUndefined in
  let database :=
    if truthy (get payload "database") && typeofObject (get payload "database")
    then get payload "database" else VUndefined in
  let version := coerceString (get payload "version" ?? getOpt meta "version") in
  let databasePath := coerceString (get payload "databasePath" ?? getOpt database "path") in
  let message :=
    coerceString (get payload "message" ?? get payload "statusMessage"
                    ?? getOpt meta "message") in
  let uptimeSeconds :=
    coerceNumber (get payload "uptime" ?? get payload "uptimeSeconds"
                    ?? getOpt meta "uptimeSeconds") in
  Health.mk ok status version databasePath message uptimeSeconds.

Definition normalizeApiPrefix (prefix : string) : string :=
  if String.eqb prefix "" then ""
  else
    let trimmed := trim prefix in
    if String.eqb trimmed "/" || String.eqb trimmed "" then ""
    else
      let leading := if startsWith trimmed "/" then trimmed else ("/" ++ trimmed)%string in
      let withoutTrailing := stripTrailingSlashes leading in
      withoutTrailing.

(** [buildApiPath(path)], with [this.apiPrefix] as an argument. *)
Definition buildApiPath (apiPrefix path : string) : string :=
  if isAbsoluteUrl path then path
  else
    let normalized := if startsWith path "/" then dropFirst path else path in
    if String.eqb apiPrefix "" then normalized
    else stripTrailingSlashes (apiPrefix ++ "/" ++ normalized)%string.

(** What a promise of [fetch], or of reading a response body, is
    rejected with: the AbortError raised when the timeout aborted the
    call, or any other error. *)
Inductive rejection : Type :=
| AbortError
| OtherError (e : exn).

(** What [fetch] settles to: a rejection, or a response with its status
    line, the outcome of [response.text()] ([None] when that promise is
    rejected) and the outcome of [response.json()]. *)
Inductive fetchOutcome : Type :=
| FetchRejected (r : rejection)
| FetchResolved (status : Z) (statusText : string) (text : option string)
    (json : value + rejection).

(** [response.ok]: the status is in the range 200-299. *)
Definition responseOk (status : Z) : bool := ((200 <=? status) && (status <=? 299))%Z.

(** The [catch] clause of [request]. *)
Definition requestCatch (timeoutMs : number) (r : rejection) : result value :=
  match r with
  | AbortError =>
      Throw (Error (VStr ("Forest request timed out after "
                            ++ numberToString timeoutMs ++ "ms")%string))
  | OtherError e => Throw e
  end.

(** [request(path)] from the point where [fetch] settles, with
    [this.timeoutMs] as an argument. An error thrown inside the [try]
    block passes through the [catch] clause, which rethrows it unless it
    is an AbortError. *)
Definition request (timeoutMs : number) (outcome : fetchOutcome) : result value :=
  match outcome with
  | FetchRejected r => requestCatch timeoutMs r
  | FetchResolved status statusText text json =>
      if negb (responseOk status) then
        requestCatch timeoutMs
          (OtherError
             (Error (VStr ("Forest request failed ("
                             ++ numberToString (Finite (inject_Z status)) ++ " "
                             ++ statusText ++ "): " ++ default "" text)%string)))
      else if (status =? 204)%Z then Ok VUndefined
      else
        match json with
        | inl body =>
            match unwrap body with
            | Ok payload => Ok payload
            | Throw e => requestCatch timeoutMs (OtherError e)
            end
        | inr r => requestCatch timeoutMs r
        end
  end.

(** *** Event payloads (the subscriber in the application) *)

Definition normalizePossibleId (v : value) : option string :=
  match v with
  | VStr s => if negb (String.eqb s "") then Some s else None
  | _ => None
  end.

(** [ids.add(x)] on a [Set<string>] kept in insertion order. *)
Definition setAdd (x : string) (ids : list string) : list string :=
  if existsb (String.eqb x) ids then ids else ids ++ [x].

(** [if (x) ids.add(x)]. *)
Definition addIfDefined (x : option string) (ids : list string) : list string :=
  match x with Some s => setAdd s ids | None => ids end.

Definition extractEdgeNodeIds (event : value) : list string :=
  let ids := [] in
  let edgeCandidate := get event "edge" in
  let ids :=
    if truthy edgeCandidate && typeofObject edgeCandidate then
      let sourceId :=
        normalizePossibleId
          (get edgeCandidate "sourceId" ?? get edgeCandidate "fromId"
             ?? getOpt (get edgeCandidate "source") "id") in
      let targetId :=
        normalizePossibleId
          (get edgeCandidate "targetId" ?? get edgeCandidate "toId"
             ?? getOpt (get edgeCandidate "target") "id") in
      addIfDefined targetId (addIfDefined sourceId ids)
    else ids in
  let nodeId := normalizePossibleId (get event "nodeId") in
  addIfDefined nodeId ids.

(** *** Tags and favourites *)

Definition getDraftTagTokens (input : string) : list string :=
  if (String.length input =? 0)%nat then [""]
  else map (fun token => stripLeadingHash (trim token)) (split "," input).

Definition normalizeTagName (name : string) : string :=
  toLowerCase (stripLeadingHash (trim name)).

(** The loop of [dedupeTagsCaseInsensitive], from a given [seen] set and
    [result] array. *)
Fixpoint dedupeLoop (tags : list string) (seen : gset string) (result : list string)
  : list string :=
  match tags with
  | [] => result
  | tag :: rest =>
      let trimmed := trim tag in
      let normalized := normalizeTagName trimmed in
      if String.eqb normalized "" || bool_decide (normalized ∈ seen)
      then dedupeLoop rest seen result
      else dedupeLoop rest ({[normalized]} ∪ seen) (result ++ [trimmed])
  end.

Definition dedupeTagsCaseInsensitive (tags : list string) : list string :=
  dedupeLoop tags ∅ [].

Definition parseTags (input : string) : list string :=
  let tokens := getDraftTagTokens input in
  dedupeTagsCaseInsensitive tokens.

(** The [for] loop of [areTagArraysEqual], over two arrays of the same
    length. *)
Fixpoint tagsEqualLoop (a b : list string) : bool :=
  match a, b with
  | x :: a', y :: b' =>
      if negb (String.eqb (normalizeTagName x) (normalizeTagName y)) then false
      else tagsEqualLoop a' b'
  | _, _ => true
  end.

Definition areTagArraysEqual (a b : list string) : bool :=
  if negb (length a =? length b)%nat then false else tagsEqualLoop a b.

Definition MAX_FAVORITES : nat := 15.

Definition favoriteKey (tags : list string) : string :=
  String.concat "|" (map normalizeTagName tags).

Definition truncateFavorites (favorites : list Favorite.t) : list Favorite.t :=
  if (length favorites <=? MAX_FAVORITES)%nat then favorites
  else take MAX_FAVORITES favorites.

(** [xs.findIndex(f)]; [None] is -1. *)
Fixpoint findIndex {A : Type} (f : A -> bool) (xs : list A) : option nat :=
  match xs with
  | [] => None
  | x :: rest => if f x then Some 0%nat else S <$> findIndex f rest
  end.

(** [xs.slice(0, i).concat(xs.slice(i + 1))]. *)
Definition without {A : Type} (i : nat) (xs : list A) : list A :=
  take i xs ++ drop (S i) xs.

(** [upsertFavoriteRecords(current, tags, options)]; [now] is what
    [new Date().toISOString()] returns during the call and [onlyBump]
    is [options?.onlyBump]. [None] is [null]. *)
Definition upsertFavoriteRecords (now : string) (current : list Favorite.t)
    (tags : list string) (onlyBump : bool) : option (list Favorite.t) :=
  let key := favoriteKey tags in
  let existingIndex :=
    findIndex (fun favorite => String.eqb (favoriteKey (Favorite.tags favorite)) key)
              current in
  match existingIndex with
  | Some i =>
      match current !! i with
      | Some existing =>
          let updatedFavorite :=
            Favorite.mk tags now (numberAdd (Favorite.usageCount existing) (Finite 1)) in
          let updated := updatedFavorite :: without i current in
          Some (truncateFavorites updated)
      | None => None
      end
  | None =>
      if onlyBump then None
      else
        let newFavorite := Favorite.mk tags now (Finite 1) in
        Some (truncateFavorites (newFavorite :: current))
  end.

(** [removeFavoriteAtIndex(current, index)] for an integer [index]. *)
Definition removeFavoriteAtIndex (current : list Favorite.t) (index : Z)
  : option (list Favorite.t) :=
  if ((index <? 0) || (Z.of_nat (length current) <=? index))%Z then None
  else Some (without (Z.to_nat index) current).

(** *** Configuration and the favourites file *)

Definition DEFAULT_TIMEOUT_MS : number := Finite 5000.

(** [x > 0] and [x >= 0] on numbers. *)
Definition numberPositive (n : number) : bool :=
  match n with
  | Finite q => (0 <? Qnum q)%Z
  | PosInfinity => true
  | NaN | NegInfinity => false
  end.

Definition numberNonNegative (n : number) : bool :=
  match n with
  | Finite q => (0 <=? Qnum q)%Z
  | PosInfinity => true
  | NaN | NegInfinity => false
  end.

Definition isNaN (n : number) : bool :=
  match n with NaN => true | _ => false end.

(** [getRequestTimeoutMs()], with the value of the environment variable
    [CAMPER_REQUEST_TIMEOUT_MS] as an argument ([None] when unset). *)
Definition getRequestTimeoutMs (fromEnv : option string) : number :=
  if negb (truthyString fromEnv) then DEFAULT_TIMEOUT_MS
  else
    let parsed := stringToNumber (default "" fromEnv) in
    if isFinite parsed && numberPositive parsed then parsed else DEFAULT_TIMEOUT_MS.

(** [normalizeFavorite(entry)]; [now] is what [new Date().toISOString()]
    returns if it is called. *)
Definition normalizeFavorite (now : string) (entry : value) : option Favorite.t :=
  if negb (truthy entry) || negb (typeofObject entry) then None
  else
    let tagsValue := get entry "tags" in
    if negb (isArray tagsValue) then None
    else
      let tags :=
        omap (fun tag => match tag with VStr s => Some s | _ => None end)
             (elements tagsValue) in
      if (length tags =? 0)%nat then None
      else
        let lastUsedAtRaw := get entry "lastUsedAt" in
        let lastUsedAt :=
          match lastUsedAtRaw with
          | VStr s => if negb (isNaN (dateParse s)) then s else now
          | _ => now
          end in
        let usageCountRaw := get entry "usageCount" in
        let usageCount :=
          match usageCountRaw with
          | VNum n => if isFinite n && numberNonNegative n then n else Finite 1
          | _ => Finite 1
          end in
        Some (Favorite.mk tags lastUsedAt usageCount).

(** [loadTagFavorites()], from the outcome of reading and parsing the
    file: the parsed value, or whatever [readFile] or [JSON.parse]
    threw (the warning it logs in that case is not part of the result).
    [clock i] is the time read while entry [i] is normalised. *)
Definition loadTagFavorites (clock : nat -> string) (contents : result value)
  : list Favorite.t :=
  match contents with
  | Ok parsed =>
      if negb (isArray parsed) then []
      else
        omap (fun entry => entry)
             (imap (fun i entry => normalizeFavorite (clock i) entry) (elements parsed))
  | Throw _ => []
  end.

(** *** Predicates used in the statements below *)

(** A [number | undefined] that is finite when defined. *)
Definition finiteOpt (o : option number) : Prop :=
  match o with Some n => isFinite n = true | None => True end.

(** The direction of an edge record is the one [resolveDirection]
    computes from its own endpoints relative to [id]. *)
Definition directedFrom (id : string) (e : Edge.t) : Prop :=
  Edge.direction e = resolveDirection (Edge.sourceId e) (Edge.targetId e) id.

(** How many of the inputs are a socket closing. *)
Definition closes (ins : list input) : nat :=
  length (List.filter (fun i => match i with SocketClosed _ => true | _ => false end) ins).

(** The key under which a favourite is found. *)
Definition favoriteKeyOf (favorite : Favorite.t) : string :=
  favoriteKey (Favorite.tags favorite).

(** A favourite as [normalizeFavorite] leaves it alone: at least one
    tag, a date that parses, a usage count that is finite and not
    negative. *)
Definition wellFormedFavorite (favorite : Favorite.t) : Prop :=
  Favorite.tags favorite <> [] /\
  isNaN (dateParse (Favorite.lastUsedAt favorite)) = false /\
  isFinite (Favorite.usageCount favorite) = true /\
  numberNonNegative (Favorite.usageCount favorite) = true.

(** The JSON value of a favourite with a finite usage count: what
    [JSON.parse] reads back from what [JSON.stringify] wrote. *)
Definition favoriteToValue (favorite : Favorite.t) : value :=
  VObj [("tags", VArr (map VStr (Favorite.tags favorite)));
        ("lastUsedAt", VStr (Favorite.lastUsedAt favorite));
        ("usageCount", VNum (Favorite.usageCount favorite))].

(** ** Properties *)

(** *** Coercions and sections *)

Lemma coalesce_value_nullish (a b : value) : nullish a = true -> a ?? b = b.
Proof. unfold coalesce, coalesce_value. intros ->. reflexivity. Qed.

Lemma coalesce_value_defined (a b : value) : nullish a = false -> a ?? b = a.
Proof. unfold coalesce, coalesce_value. intros ->. reflexivity. Qed.

Lemma coerceNumber_finite (q : Q) : coerceNumber (VNum (Finite q)) = Some (Finite q).
Proof. reflexivity. Qed.

Lemma coerceNumber_Some (v : value) (n : number) :
  coerceNumber v = Some n <-> v = VNum n /\ isFinite n = true.
Proof.
  split.
  - destruct v as [| |b|m|s|xs|fs]; simpl; try discriminate.
    destruct (isFinite m) eqn:E; [|discriminate].
    intros [= <-]. auto.
  - intros [-> Hfin]. simpl. rewrite Hfin. reflexivity.
Qed.

Lemma extractSection_object (fs : list (string * value)) :
  extractSection (VObj fs) =
  StatsSection.mk
    (coerceNumber (field "total" fs ?? field "count" fs ?? field "length" fs))
    (coerceNumber (field "accepted" fs))
    (coerceNumber (field "suggested" fs ?? field "pending" fs)).
Proof. reflexivity. Qed.

(** A section with a finite [total]: that is the section's total. *)
Lemma extractSection_total (fs : list (string * value)) (q : Q) :
  field "total" fs = VNum (Finite q) ->
  StatsSection.total (extractSection (VObj fs)) = Some (Finite q).
Proof. intros H. rewrite extractSection_object. simpl. rewrite H. reflexivity. Qed.

(** What [normalizeStats] returns on every payload of the nested shape
    [{nodes:{total:T}, edges:{accepted:A, suggested:S, total:E}, tags:{total:G}}]
    that has no [counts], [suggestions] or [suggestedEdges] member: the
    three totals, and the total of the edges section again as
    [suggestedEdges], because [suggestionsRaw] falls back to the edges
    section and its [total] is consulted before [edgesSection.suggested]. *)
Lemma normalizeStats_nested (fs nfs efs tfs : list (string * value)) (T A S E G : Q) :
  field "counts" fs = VUndefined ->
  field "suggestions" fs = VUndefined ->
  field "suggestedEdges" fs = VUndefined ->
  field "nodes" fs = VObj nfs -> field "total" nfs = VNum (Finite T) ->
  field "edges" fs = VObj efs ->
  field "accepted" efs = VNum (Finite A) ->
  field "suggested" efs = VNum (Finite S) ->
  field "total" efs = VNum (Finite E) ->
  field "tags" fs = VObj tfs -> field "total" tfs = VNum (Finite G) ->
  let r := normalizeStats (VObj fs) in
  Stats.nodes r = Some (Finite T) /\ Stats.edges r = Some (Finite E) /\
  Stats.tags r = Some (Finite G) /\ Stats.suggestedEdges r = Some (Finite E).
Proof.
  intros Hc Hs Hse Hn Hnt He Hea Hes Het Ht Htt.
  unfold normalizeStats. cbn [toRecord truthy typeofObject typeof andb].
  rewrite (coalesce_value_defined (VObj fs)) by reflexivity.
  cbn [get Stats.nodes Stats.edges Stats.tags Stats.suggestedEdges].
  rewrite Hc, Hs, Hse, Hn, He, Ht.
  cbn [toRecord truthy typeofObject typeof andb getOpt nullish get].
  rewrite !(coalesce_value_nullish VUndefined) by reflexivity.
  rewrite !(coalesce_value_defined (VObj _)) by reflexivity.
  rewrite !extractSection_object.
  cbn [StatsSection.total StatsSection.accepted StatsSection.suggested coerceNumber].
  rewrite Hnt, Het, Htt.
  rewrite !(coalesce_value_defined (VNum _)) by reflexivity.
  cbn. auto.
Qed.

(** C1. On the nested stats payload
    [{nodes:{total:524}, edges:{accepted:1200, suggested:42, total:1242}, tags:{total:87}}]
    [normalizeStats] returns nodes 524, edges 1242 and tags 87, but its
    [suggestedEdges] is 1242, the total of the edges section, and not the
    section's [suggested] count 42. *)
Theorem normalizeStats_nested_suggestedEdges :
  let payload :=
    VObj [("nodes", VObj [("total", VNum (Finite 524))]);
          ("edges", VObj [("accepted", VNum (Finite 1200));
                          ("suggested", VNum (Finite 42));
                          ("total", VNum (Finite 1242))]);
          ("tags", VObj [("total", VNum (Finite 87))])] in
  let r := normalizeStats payload in
  Stats.nodes r = Some (Finite 524) /\ Stats.edges r = Some (Finite 1242) /\
  Stats.tags r = Some (Finite 87) /\
  Stats.suggestedEdges r = Some (Finite 1242) /\
  Stats.suggestedEdges r <> Some (Finite 42).
Proof.
  cbv zeta. repeat split; try reflexivity.
  vm_compute. discriminate.
Qed.

(** C10, as amended. For every section object whose [total] is absent
    or null, a finite [count] is the section's total, and when [count] is
    absent or null too the section's total is its [length] if that is a
    finite number; when [suggested] is absent or null, [pending] is the
    section's suggested count; and [normalizeStats] on [{nodes:{count:n}}]
    returns [nodes] equal to [n]. *)
Theorem extractSection_aliases (fs : list (string * value)) :
  (forall n, nullish (field "total" fs) = true ->
             coerceNumber (field "count" fs) = Some n ->
             StatsSection.total (extractSection (VObj fs)) = Some n) /\
  (nullish (field "total" fs) = true -> nullish (field "count" fs) = true ->
   StatsSection.total (extractSection (VObj fs)) = coerceNumber (field "length" fs)) /\
  (nullish (field "suggested" fs) = true ->
   StatsSection.suggested (extractSection (VObj fs)) = coerceNumber (field "pending" fs)) /\
  (forall q, Stats.nodes (normalizeStats (VObj [("nodes", VObj [("count", VNum (Finite q))])]))
             = Some (Finite q)).
Proof.
  rewrite extractSection_object. cbn [StatsSection.total StatsSection.suggested].
  repeat split.
  - intros n Ht Hc. rewrite (coalesce_value_nullish _ _ Ht).
    apply coerceNumber_Some in Hc as Hc'. destruct Hc' as [Hv _].
    rewrite Hv in *. rewrite coalesce_value_defined by reflexivity. exact Hc.
  - intros Ht Hc. rewrite (coalesce_value_nullish _ _ Ht), (coalesce_value_nullish _ _ Hc).
    reflexivity.
  - intros Hs. rewrite (coalesce_value_nullish _ _ Hs). reflexivity.
Qed.

(** *** Envelope unwrapping *)

(** C2, as amended. For every payload that is an object with a [data]
    key and [success === false], [unwrap] throws: with the envelope's
    [error] when that is a string, else with its [message] when that is
    truthy, else with the generic message. A payload without a [data] key
    is returned as it is, whatever its [success] member says. *)
Theorem unwrap_failure_envelope (fs : list (string * value)) :
  (hasField "data" fs = true -> field "success" fs = VBool false ->
   (forall s, field "error" fs = VStr s -> unwrap (VObj fs) = Throw (Error (VStr s))) /\
   (typeofString (field "error" fs) = false -> truthy (field "message" fs) = true ->
    unwrap (VObj fs) = Throw (Error (field "message" fs))) /\
   (typeofString (field "error" fs) = false -> truthy (field "message" fs) = false ->
    unwrap (VObj fs) = Throw (Error (VStr genericErrorMessage)))) /\
  (hasField "data" fs = false -> unwrap (VObj fs) = Ok (VObj fs)).
Proof.
  split.
  - intros Hd Hs. unfold unwrap. cbn [truthy typeofObject typeof andb hasProperty get].
    rewrite Hd, Hs. repeat split.
    + intros s He. rewrite He. reflexivity.
    + intros He Hm. rewrite He, Hm. reflexivity.
    + intros He Hm. rewrite He, Hm. reflexivity.
  - intros Hd. unfold unwrap. cbn [truthy typeofObject typeof andb hasProperty].
    rewrite Hd. reflexivity.
Qed.

(** A payload that is not an object, or has no [data] key, is returned
    unchanged. *)
Lemma unwrap_raw (payload : value) :
  hasProperty "data" payload = false -> unwrap payload = Ok payload.
Proof.
  intros H. unfold unwrap. rewrite H, andb_false_r. reflexivity.
Qed.

(** *** Edge direction *)

Lemma resolveDirection_cases (source target : option string) (nodeId : string) :
  nodeId <> "" ->
  resolveDirection source target nodeId =
  match bool_decide (source = Some nodeId), bool_decide (target = Some nodeId) with
  | true, true => Some Bidirectional
  | true, false => Some Out
  | false, true => Some In_
  | false, false => None
  end.
Proof.
  intros Hne. unfold resolveDirection.
  assert (Hnode : forall x : option string,
             match x with
             | Some s => negb (String.eqb s "") && String.eqb s nodeId
             | None => false
             end = bool_decide (x = Some nodeId)).
  { intros [s|]; [|reflexivity].
    destruct (String.eqb_spec s nodeId) as [->|Hs].
    - apply String.eqb_neq in Hne. rewrite Hne. simpl.
      symmetry. apply bool_decide_eq_true. reflexivity.
    - rewrite andb_false_r. symmetry. apply bool_decide_eq_false. congruence. }
  rewrite !Hnode.
  destruct (bool_decide (source = Some nodeId)), (bool_decide (target = Some nodeId));
    reflexivity.
Qed.

Lemma resolveDirection_spec (source target : option string) (nodeId : string) :
  nodeId <> "" ->
  (resolveDirection source target nodeId = Some Bidirectional
     <-> source = Some nodeId /\ target = Some nodeId) /\
  (resolveDirection source target nodeId = Some Out
     <-> source = Some nodeId /\ target <> Some nodeId) /\
  (resolveDirection source target nodeId = Some In_
     <-> target = Some nodeId /\ source <> Some nodeId) /\
  (resolveDirection source target nodeId = None
     <-> source <> Some nodeId /\ target <> Some nodeId).
Proof.
  clear numberToString trim toLowerCase numberAdd dateParse stringToNumber handler options
        callbackUnsubscribes.
  intros Hne. rewrite (resolveDirection_cases _ _ _ Hne).
  destruct (bool_decide_reflect (source = Some nodeId)) as [Hs|Hs],
           (bool_decide_reflect (target = Some nodeId)) as [Ht|Ht];
    repeat split; try tauto; try discriminate; intros [? ?]; tauto.
Qed.

Lemma normalizeEdgeRecord_direction (edge : value) (nodeId : string) (r : Edge.t) :
  normalizeEdgeRecord edge nodeId = Some r ->
  Edge.direction r = resolveDirection (Edge.sourceId r) (Edge.targetId r) nodeId.
Proof.
  unfold normalizeEdgeRecord.
  destruct (negb (truthy edge) || negb (typeofObject edge)); [discriminate|].
  intros [= <-]. reflexivity.
Qed.

(** C3. For every edge record normalised relative to a non-empty node
    id, with [source] and [target] the record's resolved [sourceId] and
    [targetId]: the direction is bidirectional iff both equal the id, out
    iff the source does and the target does not, in iff the target does
    and the source does not, and undefined iff neither does. *)
Theorem edge_direction_spec (edge : value) (nodeId : string) (r : Edge.t) :
  nodeId <> "" ->
  normalizeEdgeRecord edge nodeId = Some r ->
  (Edge.direction r = Some Bidirectional
     <-> Edge.sourceId r = Some nodeId /\ Edge.targetId r = Some nodeId) /\
  (Edge.direction r = Some Out
     <-> Edge.sourceId r = Some nodeId /\ Edge.targetId r <> Some nodeId) /\
  (Edge.direction r = Some In_
     <-> Edge.targetId r = Some nodeId /\ Edge.sourceId r <> Some nodeId) /\
  (Edge.direction r = None
     <-> Edge.sourceId r <> Some nodeId /\ Edge.targetId r <> Some nodeId).
Proof.
  intros Hne Hr. rewrite (normalizeEdgeRecord_direction _ _ _ Hr).
  apply resolveDirection_spec, Hne.
Qed.

(** *** Node detail *)

Lemma normalizeNodeDetail_id_eq (payload : value) (nodeId : string) :
  NodeDetail.id (normalizeNodeDetail payload nodeId) =
  orString (coerceString (get (payload ?? VObj []) "id")) nodeId.
Proof. reflexivity. Qed.

Lemma get_nullish (v : value) (k : string) : nullish v = true -> get v k = VUndefined.
Proof. destruct v; try discriminate; reflexivity. Qed.

(** Reading the source object [payload ?? {}] is an optional read of the
    payload. *)
Lemma get_source (payload : value) (k : string) :
  get (payload ?? VObj []) k = getOpt payload k.
Proof.
  unfold coalesce, coalesce_value, getOpt. destruct (nullish payload); reflexivity.
Qed.

(** C9, as amended. The normalised detail's id is the payload's id
    when that is a non-empty string, and the string form of the payload's
    id when that is a finite number. In every other case it is the id
    used in the request: when the payload has no id (the member is absent,
    null or undefined, or there is no payload object at all), when its id
    is the empty string, and when its id is neither a string nor a finite
    number. *)
Theorem normalizeNodeDetail_id (payload : value) (nodeId : string) :
  (forall s, get payload "id" = VStr s -> s <> "" ->
             NodeDetail.id (normalizeNodeDetail payload nodeId) = s) /\
  (forall n, get payload "id" = VNum n -> isFinite n = true ->
             numberToString n <> "" ->
             NodeDetail.id (normalizeNodeDetail payload nodeId) = numberToString n) /\
  (nullish (getOpt payload "id") = true ->
   NodeDetail.id (normalizeNodeDetail payload nodeId) = nodeId) /\
  (get payload "id" = VStr "" ->
   NodeDetail.id (normalizeNodeDetail payload nodeId) = nodeId) /\
  (coerceString (getOpt payload "id") = None ->
   NodeDetail.id (normalizeNodeDetail payload nodeId) = nodeId).
Proof.
  rewrite normalizeNodeDetail_id_eq, get_source.
  assert (Hget : forall v, v <> VUndefined -> get payload "id" = v -> getOpt payload "id" = v).
  { intros v Hv Hid. unfold getOpt. destruct (nullish payload) eqn:Hn; [|exact Hid].
    rewrite (get_nullish _ _ Hn) in Hid. congruence. }
  split; [|split; [|split; [|split]]].
  - intros s Hid Hs. rewrite (Hget (VStr s) ltac:(discriminate) Hid). simpl.
    apply String.eqb_neq in Hs. rewrite Hs. reflexivity.
  - intros n Hid Hf Hs. rewrite (Hget (VNum n) ltac:(discriminate) Hid). simpl.
    rewrite Hf. simpl.
    apply String.eqb_neq in Hs. rewrite Hs. reflexivity.
  - intros Hid. destruct (getOpt payload "id"); try discriminate; reflexivity.
  - intros Hid. rewrite (Hget (VStr "") ltac:(discriminate) Hid). reflexivity.
  - intros ->. reflexivity.
Qed.

(** The remaining cases: a finite number is used in its string form, and
    every other value (an empty string included) gives way to the request
    id. *)
Lemma normalizeNodeDetail_id_other (payload : value) (nodeId : string) :
  (forall n, getOpt payload "id" = VNum n -> isFinite n = true ->
             numberToString n <> "" ->
             NodeDetail.id (normalizeNodeDetail payload nodeId) = numberToString n) /\
  (coerceString (getOpt payload "id") = None \/ getOpt payload "id" = VStr "" ->
   NodeDetail.id (normalizeNodeDetail payload nodeId) = nodeId).
Proof.
  rewrite normalizeNodeDetail_id_eq, get_source. split.
  - intros n -> Hfin Hs. simpl. rewrite Hfin. simpl.
    apply String.eqb_neq in Hs. rewrite Hs. reflexivity.
  - intros [-> | ->]; reflexivity.
Qed.

Lemma normalizeEdgeRecord_object (edge : value) (nodeId : string) :
  isObject edge = true -> exists r, normalizeEdgeRecord edge nodeId = Some r.
Proof.
  unfold isObject, normalizeEdgeRecord. intros H.
  apply andb_true_iff in H as [-> ->]. simpl. eauto.
Qed.

(** A collection is empty on a nullish input. *)
Lemma normalizeEdgeCollection_nullish (input : value) (id : string) :
  nullish input = true -> normalizeEdgeCollection input id = EdgeCollection.mk [] None.
Proof. destruct input; try discriminate; reflexivity. Qed.

(** An array is read element by element and counted. *)
Lemma normalizeEdgeCollection_array (xs : list value) (id : string) :
  normalizeEdgeCollection (VArr xs) id =
  EdgeCollection.mk (normalizeEdges xs id) (Some (ofNat (length (normalizeEdges xs id)))).
Proof. reflexivity. Qed.

(** An object with neither an [items] nor an [edges] array holds no list. *)
Lemma normalizeEdgeCollection_sections (fs : list (string * value)) (id : string) :
  isArray (field "items" fs) = false -> isArray (field "edges" fs) = false ->
  normalizeEdgeCollection (VObj fs) id = EdgeCollection.mk [] None.
Proof.
  intros Hi He. unfold normalizeEdgeCollection. simpl. rewrite Hi, He. reflexivity.
Qed.

Lemma nonEmpty_false {A : Type} (xs : list A) : nonEmpty xs = false <-> xs = [].
Proof. destruct xs; split; intros H; try discriminate H; reflexivity. Qed.

Lemma length_eqb_0 {A : Type} (xs : list A) : (length xs =? 0)%nat = negb (nonEmpty xs).
Proof. destruct xs; reflexivity. Qed.

(** The suggestions of the normalised detail, in one expression: the
    first candidate is the top-level field, or the nested section when
    that field is absent or null; the nested section is tried again only
    inside the branch taken when the top-level edge list is empty and
    [edges] is an object; the legacy field comes last. *)
Lemma normalizeNodeDetail_suggestions (payload : value) (nodeId : string) :
  let d := normalizeNodeDetail payload nodeId in
  let source := payload ?? VObj [] in
  let id := NodeDetail.id d in
  let first :=
    EdgeCollection.items
      (normalizeEdgeCollection
         (get source "suggestions" ?? getOpt (get source "edges") "suggested") id) in
  NodeDetail.suggestions d =
  if nonEmpty first then first
  else if negb (nonEmpty (topLevelEdges source id)) && isObject (get source "edges")
          && nonEmpty (nestedSuggestions source id)
       then nestedSuggestions source id
       else legacySuggestionItems source id.
Proof.
  cbv zeta. rewrite normalizeNodeDetail_id_eq.
  unfold normalizeNodeDetail. cbn [NodeDetail.suggestions].
  set (source := payload ?? VObj []).
  set (id := orString (coerceString (get source "id")) nodeId).
  unfold topLevelEdges, nestedSuggestions, legacySuggestionItems, isObject.
  set (first := EdgeCollection.items
                  (normalizeEdgeCollection
                     (get source "suggestions" ?? getOpt (get source "edges") "suggested") id)).
  set (tops := EdgeCollection.items (normalizeEdgeCollection (get source "edges") id)).
  unfold legacySuggestions, nestedSections. cbn [v_edges v_suggestions v_edgesTotal
    v_suggestionsTotal].
  rewrite !length_eqb_0.
  assert (Hopt : getOpt (get source "edges") "suggested" = get (get source "edges") "suggested").
  { unfold getOpt. destruct (nullish (get source "edges")) eqn:Hn; [|reflexivity].
    rewrite (get_nullish _ _ Hn). reflexivity. }
  rewrite Hopt in *.
  set (nested := EdgeCollection.items
                   (normalizeEdgeCollection (get (get source "edges") "suggested") id)).
  set (legacy := EdgeCollection.items
                   (normalizeEdgeCollection (get source "suggestedEdges") id)).
  fold (nonEmpty legacy).
  destruct (nonEmpty tops) eqn:Ht, (truthy (get source "edges")) eqn:Htr,
           (typeofObject (get source "edges")) eqn:Hty, (nonEmpty first) eqn:Hf;
    cbn [negb andb v_edges v_suggestions v_edgesTotal v_suggestionsTotal];
    rewrite ?length_eqb_0, ?Hf; cbn [negb andb v_suggestions];
    try reflexivity;
    try (destruct (nonEmpty legacy) eqn:Hl; cbn [v_suggestions];
         [reflexivity | apply nonEmpty_false in Hl, Hf; congruence]).
  fold (nonEmpty nested).
  destruct (nonEmpty nested) eqn:Hn; cbn [negb v_suggestions]; [reflexivity|].
  fold (nonEmpty legacy).
  destruct (nonEmpty legacy) eqn:Hl; cbn [v_suggestions]; [reflexivity|].
  apply nonEmpty_false in Hl, Hn. congruence.
Qed.

Lemma normalizeEdges_objects (xs : list value) (id : string) :
  Forall (fun e => isObject e = true) xs -> length (normalizeEdges xs id) = length xs.
Proof.
  induction 1 as [|e xs He _ IH]; [reflexivity|].
  destruct (normalizeEdgeRecord_object e id He) as [r Hr].
  unfold normalizeEdges in *. cbn [omap list_omap]. rewrite Hr. simpl. f_equal. exact IH.
Qed.

(** The scenario of C4: [edges] is an object holding an [accepted] array
    of two edge objects and a [suggested] array of one, with no list or
    total of its own, and the payload has no [suggestions] member and no
    explicit totals. *)
Lemma normalizeNodeDetail_nested_scenario
    (fs efs : list (string * value)) (a b c : value) (nodeId : string) :
  field "edges" fs = VObj efs ->
  field "accepted" efs = VArr [a; b] -> isObject a = true -> isObject b = true ->
  field "suggested" efs = VArr [c] -> isObject c = true ->
  isArray (field "items" efs) = false -> isArray (field "edges" efs) = false ->
  nullish (field "total" efs) = true ->
  nullish (field "suggestions" fs) = true ->
  nullish (field "edgesTotal" fs) = true ->
  nullish (field "suggestionsTotal" fs) = true ->
  nullish (field "suggestedEdgesTotal" fs) = true ->
  let d := normalizeNodeDetail (VObj fs) nodeId in
  length (NodeDetail.edges d) = 2%nat /\ length (NodeDetail.suggestions d) = 1%nat /\
  NodeDetail.edgesTotal d = ofNat 2 /\ NodeDetail.suggestionsTotal d = ofNat 1.
Proof.
  intros Hedges Hacc Ha Hb Hsug Hc Hitems Hedg Htot Hs Het Hst Hset. cbv zeta.
  unfold normalizeNodeDetail.
  rewrite (coalesce_value_defined (VObj fs)) by reflexivity.
  cbn [get]. rewrite Hedges.
  set (id := orString _ nodeId).
  rewrite (normalizeEdgeCollection_sections efs id Hitems Hedg).
  cbn [getOpt nullish get EdgeCollection.items EdgeCollection.total ofOption].
  rewrite Hsug.
  rewrite (coalesce_value_nullish _ _ Hs), (coalesce_value_nullish _ _ Het),
    (coalesce_value_nullish _ _ Htot), (coalesce_value_nullish _ _ Hst),
    (coalesce_value_nullish _ _ Hset).
  unfold nestedSections, legacySuggestions.
  cbn [get]. rewrite !Hedges.
  cbn [v_edges v_edgesTotal v_suggestions v_suggestionsTotal get length Nat.eqb
       truthy typeofObject typeof andb].
  rewrite Hacc, ?Hsug, !normalizeEdgeCollection_array.
  cbn [EdgeCollection.items EdgeCollection.total ofOption].
  destruct (normalizeEdgeRecord_object a id Ha) as [ra Hra].
  destruct (normalizeEdgeRecord_object b id Hb) as [rb Hrb].
  destruct (normalizeEdgeRecord_object c id Hc) as [rc Hrc].
  assert (Eab : normalizeEdges [a; b] id = [ra; rb])
    by (unfold normalizeEdges; cbn [omap list_omap]; rewrite Hra, Hrb; reflexivity).
  assert (Ec : normalizeEdges [c] id = [rc])
    by (unfold normalizeEdges; cbn [omap list_omap]; rewrite Hrc; reflexivity).
  rewrite Eab, Ec. cbn. auto.
Qed.

Lemma nonEmpty_true {A : Type} (xs : list A) : nonEmpty xs = true <-> xs <> [].
Proof. destruct xs; split; intros H; try discriminate; try reflexivity; congruence. Qed.

Lemma topLevelSuggestions_nullish (source : value) (id : string) :
  nullish (get source "suggestions") = true -> topLevelSuggestions source id = [].
Proof.
  intros H. unfold topLevelSuggestions.
  rewrite (normalizeEdgeCollection_nullish _ _ H). reflexivity.
Qed.

(** C4, as amended. In the scenario (an [edges] object holding an
    [accepted] array of two edge objects and a [suggested] array of one,
    with no [items], [edges] or [total] member of its own, in a payload
    without a [suggestions] member and without explicit totals) the
    detail has 2 edges, 1 suggestion and totals 2 and 1. In general the
    suggestions are: the top-level list when it has items; the nested
    [edges.suggested] section when the top-level field is absent or null,
    or when it yields nothing and the top-level edge list is empty with
    [edges] an object; the legacy [suggestedEdges] list when neither the
    top-level field nor the nested section yields items, and also when
    the top-level field is present, yields nothing and the top-level edge
    list is not empty (the nested section is then not consulted). *)
Theorem normalizeNodeDetail_fallback (payload : value) (nodeId : string) :
  let d := normalizeNodeDetail payload nodeId in
  let source := payload ?? VObj [] in
  let id := NodeDetail.id d in
  (forall fs efs a b c,
      payload = VObj fs ->
      field "edges" fs = VObj efs ->
      field "accepted" efs = VArr [a; b] -> isObject a = true -> isObject b = true ->
      field "suggested" efs = VArr [c] -> isObject c = true ->
      isArray (field "items" efs) = false -> isArray (field "edges" efs) = false ->
      nullish (field "total" efs) = true ->
      nullish (field "suggestions" fs) = true ->
      nullish (field "edgesTotal" fs) = true ->
      nullish (field "suggestionsTotal" fs) = true ->
      nullish (field "suggestedEdgesTotal" fs) = true ->
      length (NodeDetail.edges d) = 2%nat /\ length (NodeDetail.suggestions d) = 1%nat /\
      NodeDetail.edgesTotal d = ofNat 2 /\ NodeDetail.suggestionsTotal d = ofNat 1) /\
  (topLevelSuggestions source id <> [] ->
   NodeDetail.suggestions d = topLevelSuggestions source id) /\
  (nullish (get source "suggestions") = true -> nestedSuggestions source id <> [] ->
   NodeDetail.suggestions d = nestedSuggestions source id) /\
  (topLevelSuggestions source id = [] -> topLevelEdges source id = [] ->
   isObject (get source "edges") = true -> nestedSuggestions source id <> [] ->
   NodeDetail.suggestions d = nestedSuggestions source id) /\
  (topLevelSuggestions source id = [] -> nestedSuggestions source id = [] ->
   NodeDetail.suggestions d = legacySuggestionItems source id) /\
  (nullish (get source "suggestions") = false -> topLevelSuggestions source id = [] ->
   topLevelEdges source id <> [] ->
   NodeDetail.suggestions d = legacySuggestionItems source id).
Proof.
  cbv zeta. split.
  { intros fs efs a b c ->. apply normalizeNodeDetail_nested_scenario. }
  pose proof (normalizeNodeDetail_suggestions payload nodeId) as Hsug. cbv zeta in Hsug.
  set (d := normalizeNodeDetail payload nodeId) in *.
  set (source := payload ?? VObj []) in *.
  set (id := NodeDetail.id d) in *.
  set (first := EdgeCollection.items
                  (normalizeEdgeCollection
                     (get source "suggestions" ?? getOpt (get source "edges") "suggested") id))
    in *.
  assert (Hfirst : first = if nullish (get source "suggestions")
                           then nestedSuggestions source id
                           else topLevelSuggestions source id).
  { unfold first, nestedSuggestions, topLevelSuggestions, coalesce, coalesce_value.
    destruct (nullish (get source "suggestions")); reflexivity. }
  pose proof (topLevelSuggestions_nullish source id) as Htop.
  repeat split.
  - intros Hne. destruct (nullish (get source "suggestions")) eqn:Hn.
    + rewrite Htop in Hne by reflexivity. congruence.
    + rewrite Hsug, Hfirst. apply nonEmpty_true in Hne. rewrite Hne. reflexivity.
  - intros Hn Hne. rewrite Hn in Hfirst. rewrite Hsug, Hfirst.
    apply nonEmpty_true in Hne. rewrite Hne. reflexivity.
  - intros Ht He Ho Hne. rewrite Hsug, Hfirst. apply nonEmpty_true in Hne.
    destruct (nullish (get source "suggestions")).
    + rewrite Hne. reflexivity.
    + rewrite Ht, He, Ho, Hne. reflexivity.
  - intros Ht Hn. rewrite Hsug, Hfirst, Ht, Hn.
    destruct (nullish (get source "suggestions")); cbn [nonEmpty length Nat.ltb Nat.leb];
      rewrite andb_false_r; reflexivity.
  - intros Hn Ht He. rewrite Hsug, Hfirst, Hn, Ht. apply nonEmpty_true in He.
    rewrite He. reflexivity.
Qed.

(** *** Request methods and caches *)

Lemma truthy_id (id : string) : id <> "" -> negb (truthy (VStr id)) = false.
Proof. intros H. simpl. apply String.eqb_neq in H. rewrite H. reflexivity. Qed.

Lemma listNodes_throws (payload : value) :
  listNodes payload = Throw (Error (VStr "Unexpected response shape from /nodes endpoint"))
  <-> isArray payload = false /\ isArray (get payload "items") = false
      /\ isArray (get payload "nodes") = false.
Proof.
  clear numberToString trim toLowerCase numberAdd dateParse stringToNumber handler options
        callbackUnsubscribes.
  unfold listNodes.
  destruct (isArray payload) eqn:Ha.
  { split; [discriminate | intros (? & _); discriminate]. }
  destruct (isArray (get payload "items")) eqn:Hi.
  { assert (truthy payload = true) as -> by (destruct payload; try discriminate; reflexivity).
    split; [discriminate | intros (_ & ? & _); discriminate]. }
  destruct (isArray (get payload "nodes")) eqn:Hn.
  { assert (truthy payload = true) as -> by (destruct payload; try discriminate; reflexivity).
    split; [discriminate | intros (_ & _ & ?); discriminate]. }
  rewrite !andb_false_r. tauto.
Qed.

Lemma listTags_throws (payload : value) :
  listTags payload = Throw (Error (VStr "Unexpected response shape from /tags endpoint"))
  <-> isArray payload = false /\ isArray (get payload "items") = false
      /\ isArray (get payload "tags") = false.
Proof.
  clear numberToString trim toLowerCase numberAdd dateParse stringToNumber handler options
        callbackUnsubscribes.
  unfold listTags.
  destruct (isArray payload) eqn:Ha.
  { split; [discriminate | intros (? & _); discriminate]. }
  destruct (isArray (get payload "items")) eqn:Hi.
  { assert (truthy payload = true) as -> by (destruct payload; try discriminate; reflexivity).
    split; [discriminate | intros (_ & ? & _); discriminate]. }
  destruct (isArray (get payload "tags")) eqn:Hn.
  { assert (truthy payload = true) as -> by (destruct payload; try discriminate; reflexivity).
    split; [discriminate | intros (_ & _ & ?); discriminate]. }
  rewrite !andb_false_r. tauto.
Qed.

(** C6, as amended. The request methods that raise a shape error are
    the content and detail fetches when the node id is empty, and also
    [listNodes] and [listTags], which reject exactly the payloads that
    are neither an array nor an object with an array under [items] or
    under [nodes] (for tags: [tags]). On every payload the stats fetch
    and a detail or content fetch with a non-empty id return a result. *)
Theorem shape_errors :
  (forall payload,
      listNodes payload
        = Throw (Error (VStr "Unexpected response shape from /nodes endpoint"))
      <-> isArray payload = false /\ isArray (get payload "items") = false
          /\ isArray (get payload "nodes") = false) /\
  (forall payload,
      listTags payload
        = Throw (Error (VStr "Unexpected response shape from /tags endpoint"))
      <-> isArray payload = false /\ isArray (get payload "items") = false
          /\ isArray (get payload "tags") = false) /\
  (forall force response c,
      getNodeContent "" force response c = (Throw nodeIdRequired, c) /\
      getNodeDetail "" force response c = (Throw nodeIdRequired, c)) /\
  (forall payload c, fst (getStats (Ok payload) c) = Ok (normalizeStats payload)) /\
  (forall id force payload c, id <> "" ->
      (exists d, fst (getNodeDetail id force (Ok payload) c) = Ok d) /\
      (exists v, fst (getNodeContent id force (Ok payload) c) = Ok v)).
Proof.
  split; [exact listNodes_throws|]. split; [exact listTags_throws|].
  split; [intros; split; reflexivity|]. split; [reflexivity|].
  intros id force payload c Hid. split.
  - unfold getNodeDetail. rewrite (truthy_id _ Hid). unfold bind.
    destruct force; cbn [negb ret getCachedNodeDetail].
    + eexists. reflexivity.
    + destruct (detailCache c !! id); eexists; reflexivity.
  - unfold getNodeContent. rewrite (truthy_id _ Hid). unfold bind.
    destruct force; cbn [negb ret getCachedNodeContent].
    + eexists. reflexivity.
    + destruct (truthy (default VUndefined (contentCache c !! id))); eexists; reflexivity.
Qed.

(** C7. In both caches, for every id and value: storing a value under
    an id and then reading the id returns that value; evicting an id and
    then reading it returns absent ([undefined]); and evicting or reading
    never throws. *)
Theorem cache_laws (c : client) (id : string) (v : value) (d : NodeDetail.t) :
  fst ((storeNodeContent id v ;;; getCachedNodeContent id) c) = Ok v /\
  fst ((evictNodeContent id ;;; getCachedNodeContent id) c) = Ok VUndefined /\
  fst ((storeNodeDetail id d ;;; getCachedNodeDetail id) c) = Ok (Some d) /\
  fst ((evictNodeDetail id ;;; getCachedNodeDetail id) c) = Ok None /\
  fst (evictNodeContent id c) = Ok tt /\
  fst (evictNodeDetail id c) = Ok tt /\
  (exists r, fst (getCachedNodeContent id c) = Ok r) /\
  (exists r, fst (getCachedNodeDetail id c) = Ok r).
Proof.
  unfold bind, storeNodeContent, evictNodeContent, getCachedNodeContent,
    storeNodeDetail, evictNodeDetail, getCachedNodeDetail.
  cbn [fst contentCache detailCache].
  rewrite !lookup_insert_eq, !lookup_delete_eq.
  repeat split; eexists; reflexivity.
Qed.

(** A successful fetch leaves its result in the cache, where the cached
    read finds it. *)
Lemma fetch_populates_cache (c : client) (id : string) (payload : value) :
  id <> "" ->
  (let '(r, c') := getNodeContent id true (Ok payload) c in
   r = Ok payload /\ fst (getCachedNodeContent id c') = Ok payload) /\
  (let '(r, c') := getNodeDetail id true (Ok payload) c in
   r = Ok (normalizeNodeDetail payload id) /\
   fst (getCachedNodeDetail id c') = Ok (Some (normalizeNodeDetail payload id))).
Proof.
  intros Hid. unfold getNodeContent, getNodeDetail. rewrite (truthy_id _ Hid).
  unfold bind. cbn. rewrite !lookup_insert_eq. auto.
Qed.

(** *** The event subscription *)

Lemma onMessage_actions (frame : result value) :
  Forall (fun a => isDelivery a = true) (snd (onMessage frame)).
Proof.
  unfold onMessage, messageBody, optionalCall.
  destruct frame as [parsed|e]; [destruct (unwrap parsed) as [event|e]|].
  - destruct (isEvent event); [destruct (handler event)|]; cbn [snd app];
      destruct (onError options); repeat constructor.
  - cbn [snd app]. destruct (onError options); repeat constructor.
  - cbn [snd app]. destruct (onError options); repeat constructor.
Qed.

Lemma onMessage_returns (frame : result value) : fst (onMessage frame) = Ok tt.
Proof.
  unfold onMessage.
  destruct (messageBody frame) as [[[]|e] acts]; reflexivity.
Qed.

Lemma filter_sublist {A : Type} (f : A -> bool) (l : list A) :
  sublist (List.filter f l) l.
Proof.
  induction l as [|x l IH]; simpl; [constructor|].
  destruct (f x); [apply sublist_skip | apply sublist_cons]; exact IH.
Qed.

Lemma Forall_of_sublist {A : Type} (P : A -> Prop) (l1 l2 : list A) :
  sublist l1 l2 -> Forall P l2 -> Forall P l1.
Proof.
  induction 1 as [|x l1 l2 _ IH|x l1 l2 _ IH]; intros H; [constructor| |].
  - inversion H; subst. constructor; auto.
  - inversion H; subst. auto.
Qed.

Lemma existsb_of_sublist {A : Type} (f : A -> bool) (l1 l2 : list A) :
  sublist l1 l2 -> existsb f l2 = false -> existsb f l1 = false.
Proof.
  induction 1 as [|x l1 l2 _ IH|x l1 l2 _ IH]; simpl; intros H; [reflexivity| |].
  - apply orb_false_iff in H as [Hx H]. rewrite Hx, (IH H). reflexivity.
  - apply orb_false_iff in H as [_ H]. exact (IH H).
Qed.

(** **** Calls to the caller's callbacks *)

Lemma filter_no_reconnect (rest : list action) :
  Forall (fun a => isReconnect a = false) rest ->
  List.filter isAttempt rest = [] /\ List.filter isSchedule rest = [].
Proof.
  induction 1 as [|a rest Ha _ [IH1 IH2]]; [auto|].
  unfold isReconnect in Ha. apply orb_false_iff in Ha as [H1 H2].
  simpl. rewrite H1, H2. auto.
Qed.

Lemma callbacksOnly_refl (s : subscription) : callbacksOnly s s.
Proof.
  unfold callbacksOnly. repeat split; auto.
  exists []. split; [symmetry; apply app_nil_r | constructor].
Qed.

Lemma callbacksOnly_trans (s1 s2 s3 : subscription) :
  callbacksOnly s1 s2 -> callbacksOnly s2 s3 -> callbacksOnly s1 s3.
Proof.
  intros (Hc & Hs & Hr & Hl & Hn & Hw & Ht & r1 & Hlog & Hq)
         (Hc' & Hs' & Hr' & Hl' & Hn' & Hw' & Ht' & r2 & Hlog' & Hq').
  unfold callbacksOnly. repeat split; try congruence; auto.
  - etrans; eassumption.
  - exists (r1 ++ r2). split.
    + rewrite Hlog', Hlog, app_assoc. reflexivity.
    + apply Forall_app. split; assumption.
Qed.

Lemma callbacksOnly_log (s s' : subscription) :
  callbacksOnly s s' ->
  List.filter isAttempt (log s') = List.filter isAttempt (log s) /\
  List.filter isSchedule (log s') = List.filter isSchedule (log s).
Proof.
  intros (_ & _ & _ & _ & _ & _ & _ & rest & -> & Hq).
  destruct (filter_no_reconnect rest Hq) as [H1 H2].
  rewrite !List.filter_app, H1, H2, !app_nil_r. auto.
Qed.

Lemma callbacksOnly_counts (s s' : subscription) :
  callbacksOnly s s' ->
  attempts s' = attempts s /\ schedules s' = schedules s /\
  (length (timers s') <= length (timers s))%nat.
Proof.
  intros H. destruct (callbacksOnly_log s s' H) as [H1 H2].
  unfold attempts, schedules. rewrite H1, H2. repeat split.
  destruct H as (_ & _ & _ & _ & _ & _ & Ht & _). apply sublist_length, Ht.
Qed.

Lemma callbacksOnly_socketIsLatest (s s' : subscription) :
  callbacksOnly s s' -> socketIsLatest s -> socketIsLatest s'.
Proof.
  intros H (k & Hk & Hlen & Hlast). destruct (callbacksOnly_log s s' H) as [H1 _].
  destruct H as (_ & Hs & _ & Hl & _). exists k.
  rewrite Hs, Hl, H1. auto.
Qed.

Lemma emit_callbacksOnly (acts : list action) (s : subscription) :
  Forall (fun a => isReconnect a = false) acts -> callbacksOnly s (emit acts s).
Proof.
  intros H. unfold callbacksOnly, emit. cbn [closed socket reconnectTimer sockets
    timers nextTimer now log]. repeat split; auto. exists acts. auto.
Qed.

Lemma emit_emit (a : action) (acts : list action) (s : subscription) :
  emit acts (emit [a] s) = emit (a :: acts) s.
Proof.
  unfold emit. cbn [closed socket reconnectTimer sockets timers nextTimer now log].
  rewrite <- app_assoc. reflexivity.
Qed.

Lemma emit_nil (s : subscription) : emit [] s = s.
Proof. unfold emit. rewrite app_nil_r. destruct s; reflexivity. Qed.

Lemma unsubscribe_closed (s : subscription) : closed (unsubscribe s) = true.
Proof.
  unfold unsubscribe, cancelTimer, emit, setReadyState.
  cbn [reconnectTimer socket sockets].
  destruct (reconnectTimer s), (socket s) as [k|]; cbn [socket sockets closed];
    try destruct (sockets s !! k) as [[]|]; reflexivity.
Qed.

(** What [unsubscribe] calls on the platform: [clearTimeout] on the
    reconnect timer if one was ever set, then [close()] on the socket if
    it is open and [terminate()] on it otherwise. *)
Lemma unsubscribe_log (s : subscription) :
  log (unsubscribe s) =
  log s
    ++ match reconnectTimer s with Some t => [ClearTimeout t] | None => [] end
    ++ match socket s with
       | Some k =>
           match sockets s !! k with
           | Some OPEN => [SocketClose k]
           | _ => [SocketTerminate k]
           end
       | None => []
       end.
Proof.
  unfold unsubscribe, cancelTimer, emit, setReadyState.
  cbn [reconnectTimer socket sockets].
  destruct (reconnectTimer s) as [t|], (socket s) as [k|];
    cbn [socket sockets log];
    try destruct (sockets s !! k) as [[]|];
    cbn [log]; rewrite <- ?app_assoc, ?app_nil_r; reflexivity.
Qed.

Lemma unsubscribe_timers (s : subscription) :
  timers (unsubscribe s) =
  match reconnectTimer s with
  | Some t => List.filter (fun p => negb (Nat.eqb (fst p) t)) (timers s)
  | None => timers s
  end.
Proof.
  unfold unsubscribe, cancelTimer, emit, setReadyState.
  cbn [reconnectTimer socket sockets].
  destruct (reconnectTimer s) as [t|], (socket s) as [k|];
    cbn [socket sockets timers];
    try destruct (sockets s !! k) as [[]|]; reflexivity.
Qed.

Lemma unsubscribe_variables (s : subscription) :
  socket (unsubscribe s) = socket s /\ reconnectTimer (unsubscribe s) = reconnectTimer s /\
  length (sockets (unsubscribe s)) = length (sockets s) /\
  nextTimer (unsubscribe s) = nextTimer s /\ now (unsubscribe s) = now s.
Proof.
  unfold unsubscribe, cancelTimer, emit, setReadyState.
  cbn [reconnectTimer socket sockets].
  destruct (reconnectTimer s), (socket s) as [k|];
    cbn [socket sockets reconnectTimer nextTimer now];
    try destruct (sockets s !! k) as [[]|];
    cbn [socket sockets reconnectTimer nextTimer now];
    rewrite ?length_insert; repeat split; reflexivity.
Qed.

Lemma unsubscribe_callbacksOnly (s : subscription) : callbacksOnly s (unsubscribe s).
Proof.
  destruct (unsubscribe_variables s) as (Hs & Hr & Hl & Hn & Hw).
  unfold callbacksOnly. repeat split; auto.
  - intros _. apply unsubscribe_closed.
  - rewrite unsubscribe_timers. destruct (reconnectTimer s); [apply filter_sublist|reflexivity].
  - eexists. split; [apply unsubscribe_log|].
    apply Forall_app. split.
    + destruct (reconnectTimer s); repeat constructor.
    + destruct (socket s) as [k|]; [|constructor].
      destruct (sockets s !! k) as [[]|]; repeat constructor.
Qed.

Lemma invoke_callbacksOnly (returned : bool) (a : action) (s : subscription) :
  isReconnect a = false -> callbacksOnly s (invoke returned a s).
Proof.
  intros Ha. unfold invoke. cbv zeta.
  assert (H1 : callbacksOnly s (emit [a] s)).
  { apply emit_callbacksOnly. repeat constructor. exact Ha. }
  destruct (returned && callbackUnsubscribes (log (emit [a] s))); [|exact H1].
  eapply callbacksOnly_trans; [exact H1 | apply unsubscribe_callbacksOnly].
Qed.

Lemma invokeAll_cons (returned : bool) (a : action) (acts : list action) (s : subscription) :
  invokeAll returned (a :: acts) s = invokeAll returned acts (invoke returned a s).
Proof. reflexivity. Qed.

Lemma invokeAll_callbacksOnly (returned : bool) (acts : list action) (s : subscription) :
  Forall (fun a => isReconnect a = false) acts ->
  callbacksOnly s (invokeAll returned acts s).
Proof.
  intros H. revert s. induction H as [|a acts Ha _ IH]; intros s.
  - apply callbacksOnly_refl.
  - rewrite invokeAll_cons. eapply callbacksOnly_trans.
    + apply invoke_callbacksOnly, Ha.
    + apply IH.
Qed.

(** Before [subscribeToEvents] returns, and whenever no callback
    unsubscribes, the calls are all that happens. *)
Lemma invokeAll_false (acts : list action) (s : subscription) :
  invokeAll false acts s = emit acts s.
Proof.
  revert s. induction acts as [|a acts IH]; intros s; [symmetry; apply emit_nil|].
  rewrite invokeAll_cons. change (invoke false a s) with (emit [a] s).
  rewrite IH. apply emit_emit.
Qed.

Lemma invokeAll_noneUnsubscribes (returned : bool) (acts : list action) (s : subscription) :
  noneUnsubscribes (log s) acts = true -> invokeAll returned acts s = emit acts s.
Proof.
  revert s. induction acts as [|a acts IH]; intros s H; [symmetry; apply emit_nil|].
  cbn [noneUnsubscribes] in H. apply andb_true_iff in H as [Ha H].
  apply negb_true_iff in Ha.
  rewrite invokeAll_cons. unfold invoke. cbv zeta.
  change (log (emit [a] s)) with (log s ++ [a]). rewrite Ha, andb_false_r.
  rewrite IH; [apply emit_emit | exact H].
Qed.

(** A subscription that is still open after the calls was not
    unsubscribed by any of them. *)
Lemma invokeAll_open (returned : bool) (acts : list action) (s : subscription) :
  Forall (fun a => isReconnect a = false) acts ->
  closed (invokeAll returned acts s) = false ->
  invokeAll returned acts s = emit acts s.
Proof.
  intros H. revert s. induction H as [|a acts Ha Hq IH]; intros s Hc;
    [symmetry; apply emit_nil|].
  rewrite invokeAll_cons in *.
  assert (Hi : invoke returned a s = emit [a] s).
  { unfold invoke in *. cbv zeta in *.
    destruct (returned && callbackUnsubscribes (log (emit [a] s))); [|reflexivity].
    destruct (invokeAll_callbacksOnly returned acts (unsubscribe (emit [a] s)) Hq)
      as (Hmono & _).
    rewrite (Hmono (unsubscribe_closed _)) in Hc. discriminate Hc. }
  rewrite Hi in *. rewrite (IH _ Hc). apply emit_emit.
Qed.

Lemma invoke_log (returned : bool) (a : action) (s : subscription) :
  exists rest, log (invoke returned a s) = log s ++ a :: rest.
Proof.
  unfold invoke. cbv zeta.
  destruct (returned && callbackUnsubscribes (log (emit [a] s))).
  - rewrite unsubscribe_log. change (log (emit [a] s)) with (log s ++ [a]).
    rewrite <- app_assoc. eexists. reflexivity.
  - exists []. reflexivity.
Qed.

Lemma invokeAll_log (returned : bool) (acts : list action) (s : subscription) :
  exists rest, log (invokeAll returned acts s) = log s ++ rest.
Proof.
  revert s. induction acts as [|a acts IH]; intros s.
  - exists []. symmetry. apply app_nil_r.
  - rewrite invokeAll_cons.
    destruct (IH (invoke returned a s)) as [r2 ->].
    destruct (invoke_log returned a s) as [r1 ->].
    rewrite <- app_assoc. eexists. reflexivity.
Qed.

Lemma optionalCall_callback (present : bool) (a : action) :
  isReconnect a = false ->
  Forall (fun a => isReconnect a = false) (optionalCall present a).
Proof. intros H. destruct present; repeat constructor; exact H. Qed.

Lemma onSocketOpen_callbacks : Forall (fun a => isReconnect a = false) onSocketOpen.
Proof. apply Forall_app. split; apply optionalCall_callback; reflexivity. Qed.

Lemma closeCallbacks_callbacks : Forall (fun a => isReconnect a = false) closeCallbacks.
Proof. apply Forall_app. split; apply optionalCall_callback; reflexivity. Qed.

Lemma onSocketError_callbacks (e : exn) :
  Forall (fun a => isReconnect a = false) (onSocketError e).
Proof. apply optionalCall_callback. reflexivity. Qed.

Lemma onMessage_callbacks (frame : result value) :
  Forall (fun a => isReconnect a = false) (snd (onMessage frame)).
Proof.
  eapply Forall_impl; [apply onMessage_actions|].
  intros [] Ha; try discriminate Ha; reflexivity.
Qed.

(** **** The listeners and [connect] *)

(** The close listener: its callbacks, then one timer unless [closed]
    is set by then. *)
Lemma onSocketClose_spec (s : subscription) :
  let s1 := invokeAll true closeCallbacks s in
  callbacksOnly s s1 /\
  onSocketClose s =
    if closed s1 then s1
    else mkSub false (socket s1) (Some (nextTimer s1)) (sockets s1)
               (timers s1 ++ [(nextTimer s1, (now s1 + retryDelay)%N)])
               (S (nextTimer s1)) (now s1) (log s1 ++ [SetTimeout (nextTimer s1) retryDelay]).
Proof.
  cbv zeta. split; [apply invokeAll_callbacksOnly, closeCallbacks_callbacks|].
  unfold onSocketClose. cbv zeta.
  destruct (closed (invokeAll true closeCallbacks s)); reflexivity.
Qed.

(** [connect] past its test of [closed]: the status callback, then the
    socket, whatever the callback did. *)
Lemma connect_spec (returned : bool) (s : subscription) :
  closed s = false ->
  let s1 := invokeAll returned
              (optionalCall (onStatusChange options) (CallStatusChange Connecting)) s in
  callbacksOnly s s1 /\
  connect returned s =
    mkSub (closed s1) (Some (length (sockets s1))) (reconnectTimer s1)
          (sockets s1 ++ [CONNECTING]) (timers s1) (nextTimer s1) (now s1)
          (log s1 ++ [NewWebSocket (length (sockets s1)) wsPath]).
Proof.
  intros Hc. cbv zeta. split.
  - apply invokeAll_callbacksOnly, optionalCall_callback. reflexivity.
  - unfold connect. rewrite Hc. reflexivity.
Qed.

Lemma attempts_snoc (l : list action) (a : action) :
  length (List.filter isAttempt (l ++ [a]))
  = (length (List.filter isAttempt l) + if isAttempt a then 1 else 0)%nat.
Proof. rewrite List.filter_app, length_app. simpl. destruct (isAttempt a); reflexivity. Qed.

Lemma schedules_snoc (l : list action) (a : action) :
  length (List.filter isSchedule (l ++ [a]))
  = (length (List.filter isSchedule l) + if isSchedule a then 1 else 0)%nat.
Proof. rewrite List.filter_app, length_app. simpl. destruct (isSchedule a); reflexivity. Qed.

Lemma dueTimer_filter_shorter (t : nat) (pending : list (nat * N)) (clock : N) :
  existsb (fun p => Nat.eqb (fst p) t && (snd p <=? clock)%N) pending = true ->
  (length (List.filter (fun p => negb (Nat.eqb (fst p) t)) pending) < length pending)%nat.
Proof.
  induction pending as [|p pending IH]; [discriminate|].
  simpl. pose proof (List.filter_length_le (fun p => negb (Nat.eqb (fst p) t)) pending) as Hle.
  destruct (Nat.eqb (fst p) t) eqn:E; simpl.
  - intros _. lia.
  - intros H. specialize (IH H). lia.
Qed.

(** What one input does to the counts: attempts, timers scheduled and
    timers pending. *)
Lemma step_counts (i : input) (s : subscription) :
  let s' := step i s in
  (closed s = true -> closed s' = true /\ attempts s' = attempts s) /\
  (attempts s + length (timers s) <= 1 + schedules s ->
   attempts s' + length (timers s') <= 1 + schedules s')%nat /\
  (schedules s' <= schedules s + match i with SocketClosed _ => 1 | _ => 0 end)%nat /\
  (timersFresh s -> timersFresh s') /\
  (socketIsLatest s -> socketIsLatest s').
Proof.
  cbv zeta.
  assert (Hcb : forall s0 s1, callbacksOnly s0 s1 ->
            attempts s0 = attempts s -> schedules s0 = schedules s ->
            closed s0 = closed s -> timers s0 = timers s -> nextTimer s0 = nextTimer s ->
            (socketIsLatest s -> socketIsLatest s0) ->
            (closed s = true -> closed s1 = true /\ attempts s1 = attempts s) /\
            (attempts s + length (timers s) <= 1 + schedules s ->
             attempts s1 + length (timers s1) <= 1 + schedules s1)%nat /\
            (schedules s1 <= schedules s + 0)%nat /\
            (timersFresh s -> timersFresh s1) /\
            (socketIsLatest s -> socketIsLatest s1)).
  { intros s0 s1 H Ha Hs Hc Ht Hn HJ.
    destruct (callbacksOnly_counts s0 s1 H) as (Ha1 & Hs1 & Hl1).
    pose proof (callbacksOnly_socketIsLatest s0 s1 H) as HJ1.
    destruct H as (Hmono & _ & _ & _ & Hn1 & _ & Hsub & _).
    rewrite Ht in Hl1. repeat split.
    - apply Hmono. congruence.
    - congruence.
    - lia.
    - lia.
    - unfold timersFresh. rewrite Hn1, Hn. intros Hf.
      eapply Forall_of_sublist; [exact Hsub|]. rewrite Ht. exact Hf.
    - auto. }
  destruct i as [k|k frame|k e|k|t|ms|]; cbn [step].
  - destruct (isSocket k s); [|repeat split; auto; lia].
    apply (Hcb (setReadyState k OPEN s));
      [apply invokeAll_callbacksOnly, onSocketOpen_callbacks|reflexivity..|].
    intros (j & Hj & Hlen & Hlast). exists j.
    unfold setReadyState. cbn [socket sockets log]. rewrite length_insert. auto.
  - destruct (isSocket k s); [|repeat split; auto; lia].
    apply (Hcb s); [apply invokeAll_callbacksOnly, onMessage_callbacks|reflexivity..|auto].
  - destruct (isSocket k s); [|repeat split; auto; lia].
    apply (Hcb s); [apply invokeAll_callbacksOnly, onSocketError_callbacks|reflexivity..|auto].
  - destruct (isSocket k s); [|repeat split; auto; lia].
    destruct (onSocketClose_spec (setReadyState k CLOSED s)) as [H ->].
    set (s1 := invokeAll true closeCallbacks (setReadyState k CLOSED s)) in *.
    assert (HJ0 : socketIsLatest s -> socketIsLatest (setReadyState k CLOSED s)).
    { intros (j & Hj & Hlen & Hlast). exists j.
      unfold setReadyState. cbn [socket sockets log]. rewrite length_insert. auto. }
    destruct (Hcb _ s1 H eq_refl eq_refl eq_refl eq_refl eq_refl HJ0)
      as (H1 & H2 & H3 & H4 & H5).
    destruct (closed s1) eqn:Hc1;
      [split; [intros Hc; split; [exact Hc1 | exact (proj2 (H1 Hc))]|];
       split; [exact H2|]; split; [lia|]; split; assumption|].
    split; [|split; [|split; [|split]]].
    + intros Hc. destruct (H1 Hc) as [Hc' _]. discriminate Hc'.
    + intros Hb. specialize (H2 Hb). unfold attempts, schedules in *. cbn [log timers].
      rewrite attempts_snoc, schedules_snoc, length_app. simpl. lia.
    + unfold schedules in *. cbn [log]. rewrite schedules_snoc. simpl. lia.
    + intros Hf. specialize (H4 Hf). unfold timersFresh in *. cbn [timers nextTimer].
      apply Forall_app. split.
      * eapply Forall_impl; [exact H4|]. intros p Hp. simpl in *. lia.
      * repeat constructor.
    + intros HJ. destruct (H5 HJ) as (j & Hj & Hlen & Hlast). exists j.
      cbn [socket sockets log]. rewrite List.filter_app. simpl. rewrite app_nil_r. auto.
  - destruct (dueTimer t s) eqn:Hd; [|repeat split; auto; lia].
    pose proof (dueTimer_filter_shorter t (timers s) (now s) Hd) as Hshort.
    set (s0 := mkSub (closed s) (socket s) (reconnectTimer s) (sockets s)
                     (List.filter (fun p => negb (Nat.eqb (fst p) t)) (timers s))
                     (nextTimer s) (now s) (log s)).
    assert (Hf0 : timersFresh s -> timersFresh s0).
    { unfold timersFresh, s0. cbn [timers nextTimer]. intros Hf.
      eapply Forall_of_sublist; [apply filter_sublist | exact Hf]. }
    destruct (closed s) eqn:Hc.
    + change (connect true s0) with s0.
      split; [|split; [|split; [|split]]]; auto.
      * unfold attempts, schedules, s0 in *. cbn [log timers]. lia.
      * change (schedules s0) with (schedules s). lia.
    + destruct (connect_spec true s0 eq_refl) as [H ->].
      set (s1 := invokeAll true _ s0) in *.
      destruct (callbacksOnly_counts s0 s1 H) as (Ha1 & Hs1 & Hl1).
      pose proof (callbacksOnly_socketIsLatest s0 s1 H) as HJ1.
      destruct H as (Hmono & _ & _ & Hlen1 & Hn1 & _ & Hsub & _).
      change (attempts s0) with (attempts s) in Ha1.
      change (schedules s0) with (schedules s) in Hs1.
      change (length (timers s0))
        with (length (List.filter (fun p => negb (Nat.eqb (fst p) t)) (timers s))) in Hl1.
      split; [|split; [|split; [|split]]].
      * discriminate.
      * intros Hb. unfold attempts, schedules in *. cbn [log timers].
        rewrite attempts_snoc, schedules_snoc. simpl. lia.
      * unfold schedules in *. cbn [log]. rewrite schedules_snoc. simpl. lia.
      * intros Hf. specialize (Hf0 Hf). unfold timersFresh in *. cbn [timers nextTimer].
        rewrite Hn1. eapply Forall_of_sublist; [exact Hsub | exact Hf0].
      * intros _. exists (length (sockets s1)). cbn [socket sockets log].
        rewrite length_app, List.filter_app. simpl. rewrite last_snoc.
        repeat split. lia.
  - split; [intros Hc; split; [exact Hc | reflexivity]|].
    split; [intros Hb; exact Hb|].
    split; [unfold schedules; cbn [log]; lia|].
    split; intros H; exact H.
  - destruct (Hcb s (unsubscribe s) (unsubscribe_callbacksOnly s)
                eq_refl eq_refl eq_refl eq_refl eq_refl (fun H => H))
      as (H1 & H2 & H3 & H4 & H5).
    split; [exact H1|]. split; [exact H2|]. split; [lia|]. split; assumption.
Qed.

(** Once [closed] is set, no input unsets it and none opens a socket. *)
Lemma step_closed (i : input) (s : subscription) :
  closed s = true ->
  closed (step i s) = true /\ attempts (step i s) = attempts s.
Proof. exact (proj1 (step_counts i s)). Qed.

Lemma run_closed (ins : list input) (s : subscription) :
  closed s = true ->
  closed (run ins s) = true /\ attempts (run ins s) = attempts s.
Proof.
  revert s. induction ins as [|i ins IH]; intros s Hc; [auto|].
  cbn [run fold_left]. destruct (step_closed i s Hc) as [Hc' Ha].
  destruct (IH (step i s) Hc') as [Hc'' Ha']. split; [exact Hc''|].
  unfold run in Ha'. rewrite Ha'. exact Ha.
Qed.

Lemma step_timersFresh (i : input) (s : subscription) :
  timersFresh s -> timersFresh (step i s).
Proof. exact (proj1 (proj2 (proj2 (proj2 (step_counts i s))))). Qed.

Lemma run_timersFresh (ins : list input) (s : subscription) :
  timersFresh s -> timersFresh (run ins s).
Proof.
  revert s. induction ins as [|i ins IH]; intros s H; [exact H|].
  cbn [run fold_left]. apply IH, step_timersFresh, H.
Qed.

(** The state [subscribeToEvents] returns in: one socket, connecting. *)
Lemma subscribeToEvents_state :
  subscribeToEvents =
  mkSub false (Some 0%nat) None [CONNECTING] [] 0 0%N
        (optionalCall (onStatusChange options) (CallStatusChange Connecting)
           ++ [NewWebSocket 0 wsPath]).
Proof.
  unfold subscribeToEvents, connect. cbn [closed]. rewrite invokeAll_false. reflexivity.
Qed.

Lemma reachable_timersFresh (s : subscription) : reachable s -> timersFresh s.
Proof.
  intros [ins ->]. apply run_timersFresh.
  rewrite subscribeToEvents_state. unfold timersFresh. cbn. constructor.
Qed.

Lemma run_socketIsLatest (ins : list input) (s : subscription) :
  socketIsLatest s -> socketIsLatest (run ins s).
Proof.
  revert s. induction ins as [|i ins IH]; intros s H; [exact H|].
  cbn [run fold_left]. apply IH. exact (proj2 (proj2 (proj2 (proj2 (step_counts i s)))) H).
Qed.

Lemma reachable_socketIsLatest (s : subscription) : reachable s -> socketIsLatest s.
Proof.
  intros [ins ->]. apply run_socketIsLatest.
  rewrite subscribeToEvents_state. exists 0%nat. cbn [socket sockets log length].
  rewrite List.filter_app.
  assert (List.filter isAttempt
            (optionalCall (onStatusChange options) (CallStatusChange Connecting)) = []) as ->
    by (destruct (onStatusChange options); reflexivity).
  repeat split.
Qed.

(** A fired timer is gone: its handle is no longer pending. *)
Lemma dueTimer_cancelled (t : nat) (pending : list (nat * N)) (clock : N) :
  existsb (fun p => Nat.eqb (fst p) t && (snd p <=? clock)%N)
          (List.filter (fun p => negb (Nat.eqb (fst p) t)) pending) = false.
Proof.
  induction pending as [|p pending IH]; [reflexivity|].
  simpl. destruct (Nat.eqb (fst p) t) eqn:E; simpl; [exact IH|].
  rewrite E. exact IH.
Qed.

Lemma dueTimer_fresh (t : nat) (pending : list (nat * N)) (clock : N) :
  Forall (fun p => (fst p < t)%nat) pending ->
  existsb (fun p => Nat.eqb (fst p) t && (snd p <=? clock)%N) pending = false.
Proof.
  induction 1 as [|p pending Hp _ IH]; [reflexivity|].
  simpl. rewrite IH, orb_false_r.
  assert (Nat.eqb (fst p) t = false) as -> by (apply Nat.eqb_neq; lia). reflexivity.
Qed.

(** C5, as amended. A frame whose text fails to parse, and a frame that
    parses to an envelope reporting a failure, is not handed to the
    handler and the failure is passed to the error callback when one was
    supplied; a frame that parses and whose content, once unwrapped, is
    not an object with a string [type] is dropped without any call at
    all, the error callback included, and leaves the subscription exactly
    as it was. For every frame the listener returns normally, and unless
    one of the callbacks it calls unsubscribes, the subscription keeps
    its socket, its timers and its open/closed state: the only calls a
    message can cause are to the handler and to the error callback. *)
Theorem malformed_frame_dropped :
  (forall e, onMessage (Throw e) = (Ok tt, optionalCall (onError options) (CallOnError e))) /\
  (forall parsed e,
      unwrap parsed = Throw e ->
      onMessage (Ok parsed) = (Ok tt, optionalCall (onError options) (CallOnError e))) /\
  (forall parsed event,
      unwrap parsed = Ok event -> isEvent event = false ->
      onMessage (Ok parsed) = (Ok tt, []) /\
      forall k s, step (SocketMessage k (Ok parsed)) s = s) /\
  (forall frame, fst (onMessage frame) = Ok tt) /\
  (forall k frame s,
      noneUnsubscribes (log s) (snd (onMessage frame)) = true ->
      let s' := step (SocketMessage k frame) s in
      closed s' = closed s /\ socket s' = socket s /\
      reconnectTimer s' = reconnectTimer s /\ sockets s' = sockets s /\
      timers s' = timers s /\
      exists acts, log s' = log s ++ acts /\ Forall (fun a => isDelivery a = true) acts).
Proof.
  split; [reflexivity|]. split.
  { intros parsed e Hu. unfold onMessage, messageBody. rewrite Hu. reflexivity. }
  split.
  { intros parsed event Hu He.
    assert (Hm : onMessage (Ok parsed) = (Ok tt, [])).
    { unfold onMessage, messageBody. rewrite Hu, He. reflexivity. }
    split; [exact Hm|]. intros k s. cbn [step]. rewrite Hm.
    destruct (isSocket k s); reflexivity. }
  split; [exact onMessage_returns|].
  intros k frame s Hq. cbv zeta. cbn [step]. destruct (isSocket k s).
  - rewrite (invokeAll_noneUnsubscribes _ _ _ Hq). unfold emit.
    cbn [closed socket reconnectTimer sockets timers log].
    repeat split. eexists. split; [reflexivity | apply onMessage_actions].
  - repeat split. exists []. split; [symmetry; apply app_nil_r | constructor].
Qed.

(** The reconnection law, as far as it holds. While the subscription
    is not unsubscribed, also not by the close callbacks, a close of one
    of its sockets schedules exactly one reconnect timer, makes no
    connection attempt itself, and that timer cannot fire before
    [retryDelay] ms have passed; if the close callbacks unsubscribe, no
    timer is scheduled. A timer that fires makes exactly one connection
    attempt and is used up, and [socket] is the socket just created.
    Once [unsubscribe] has run and returned to the platform, no sequence
    of later events makes a connection attempt; [unsubscribe] marks the
    subscription closed, cancels the reconnect timer, and calls [close()]
    on the socket if it is open and [terminate()] otherwise, where the
    socket is that of the latest connection attempt whenever
    [unsubscribe] is called between events. *)
Theorem reconnection_law :
  (forall s k,
      reachable s -> closed s = false -> isSocket k s = true ->
      let s' := step (SocketClosed k) s in
      let t := nextTimer s in
      (noneUnsubscribes (log s) closeCallbacks = true -> closed s' = false) /\
      (closed s' = false ->
       schedules s' = S (schedules s) /\ attempts s' = attempts s /\
       last (log s') = Some (SetTimeout t retryDelay) /\
       reconnectTimer s' = Some t /\
       timers s' = timers s ++ [(t, (now s + retryDelay)%N)] /\
       (forall ms, dueTimer t (step (Elapse ms) s') = (retryDelay <=? ms)%N)) /\
      (closed s' = true -> schedules s' = schedules s /\ attempts s' = attempts s)) /\
  (forall s t, dueTimer t s = false -> step (TimerFired t) s = s) /\
  (forall s t,
      closed s = false -> dueTimer t s = true ->
      let s' := step (TimerFired t) s in
      attempts s' = S (attempts s) /\ dueTimer t s' = false /\
      exists k, socket s' = Some k /\ sockets s' !! k = Some CONNECTING /\
                last (log s') = Some (NewWebSocket k wsPath)) /\
  (forall s ins, attempts (run ins (unsubscribe s)) = attempts s) /\
  (forall s,
      let s' := unsubscribe s in
      closed s' = true /\
      (forall t ms, reconnectTimer s = Some t ->
                    dueTimer t (step (Elapse ms) s') = false) /\
      log s' =
        log s
          ++ match reconnectTimer s with Some t => [ClearTimeout t] | None => [] end
          ++ match socket s with
             | Some k =>
                 match sockets s !! k with
                 | Some OPEN => [SocketClose k]
                 | _ => [SocketTerminate k]
                 end
             | None => []
             end) /\
  (forall s, reachable s -> socketIsLatest s).
Proof.
  split.
  { intros s k Hr Hc Hk. cbv zeta. cbn [step]. rewrite Hk.
    destruct (onSocketClose_spec (setReadyState k CLOSED s)) as [H ->].
    set (s0 := setReadyState k CLOSED s) in *.
    set (s1 := invokeAll true closeCallbacks s0) in *.
    split; [|split].
    - intros Hq. unfold s1. rewrite (invokeAll_noneUnsubscribes true closeCallbacks s0 Hq).
      unfold emit, s0, setReadyState. cbn [closed]. rewrite Hc. reflexivity.
    - destruct (closed s1) eqn:Hc1; [intros Hc'; congruence|]. intros _.
      assert (He : s1 = emit closeCallbacks s0)
        by (apply invokeAll_open; [apply closeCallbacks_callbacks | exact Hc1]).
      clearbody s1. subst s1.
      destruct (filter_no_reconnect _ closeCallbacks_callbacks) as [Hfa Hfs].
      unfold emit, s0, setReadyState, schedules, attempts.
      cbn [closed nextTimer now timers log reconnectTimer].
      rewrite attempts_snoc, schedules_snoc, !List.filter_app, Hfa, Hfs, !app_nil_r.
      rewrite last_snoc.
      repeat split; try (simpl; lia).
      intros ms. unfold dueTimer. cbn [step timers now].
      rewrite existsb_app.
      rewrite (dueTimer_fresh _ _ _ (reachable_timersFresh _ Hr)).
      cbn [existsb fst snd orb]. rewrite Nat.eqb_refl, orb_false_r. cbn [andb].
      destruct (N.leb_spec (now s + retryDelay) (now s + ms)),
               (N.leb_spec retryDelay ms); try reflexivity; lia.
    - destruct (closed s1) eqn:Hc1; [intros _|cbn [closed]; discriminate].
      destruct (callbacksOnly_counts s0 s1 H) as (Ha & Hs & _). auto. }
  split.
  { intros s t Hd. cbn [step]. rewrite Hd. reflexivity. }
  split.
  { intros s t Hc Hd. cbv zeta. cbn [step]. rewrite Hd.
    set (s0 := mkSub (closed s) (socket s) (reconnectTimer s) (sockets s)
                     (List.filter (fun p => negb (Nat.eqb (fst p) t)) (timers s))
                     (nextTimer s) (now s) (log s)).
    destruct (connect_spec true s0 Hc) as [H ->].
    set (s1 := invokeAll true _ s0) in *.
    destruct (callbacksOnly_counts s0 s1 H) as (Ha & _ & _).
    destruct H as (_ & _ & _ & _ & _ & _ & Hsub & _).
    split; [|split].
    - unfold attempts in *. cbn [log]. rewrite attempts_snoc. simpl.
      change (log s0) with (log s) in Ha. lia.
    - unfold dueTimer. cbn [timers now].
      eapply existsb_of_sublist; [exact Hsub|]. apply dueTimer_cancelled.
    - exists (length (sockets s1)). cbn [socket sockets log].
      rewrite last_snoc. repeat split. apply list_lookup_middle. reflexivity. }
  split.
  { intros s ins.
    destruct (run_closed ins _ (unsubscribe_closed s)) as [_ ->].
    apply (callbacksOnly_counts s (unsubscribe s)), unsubscribe_callbacksOnly. }
  split; [|exact reachable_socketIsLatest].
  intros s. cbv zeta. split; [|split].
  - apply unsubscribe_closed.
  - intros t ms Ht. unfold dueTimer. cbn [step timers now].
    rewrite unsubscribe_timers, Ht. apply dueTimer_cancelled.
  - apply unsubscribe_log.
Qed.

(** ** Further properties of the normalisers *)

Lemma toRecord_not_object (v : value) : isObject v = false -> toRecord v = VUndefined.
Proof. unfold toRecord, isObject. intros ->. reflexivity. Qed.

Lemma toRecord_object (v : value) : isObject v = true -> toRecord v = v.
Proof. unfold toRecord, isObject. intros ->. reflexivity. Qed.

(** A stats payload that is not an object (absent as after a 204, null,
    a number, a string, a boolean) normalises to the empty statistics:
    every count undefined and every list empty. *)
Theorem normalizeStats_not_object (source : value) :
  isObject source = false ->
  normalizeStats source = Stats.mk None None None None None None [] [] [] [].
Proof.
  intros H. unfold normalizeStats. rewrite (toRecord_not_object _ H). reflexivity.
Qed.

(** Precedence of the flat and [counts] shapes: a finite top-level
    number is the count whatever else the payload holds, and when the
    top-level member is not a finite number a finite member of the
    [counts] object is the count, before any nested section is looked
    at. [suggestedEdges] reads [counts.suggested]. *)
Theorem normalizeStats_flat_counts (fs : list (string * value)) :
  let r := normalizeStats (VObj fs) in
  let counts := field "counts" fs in
  (forall n, coerceNumber (field "nodes" fs) = Some n -> Stats.nodes r = Some n) /\
  (forall n, coerceNumber (field "edges" fs) = Some n -> Stats.edges r = Some n) /\
  (forall n, coerceNumber (field "tags" fs) = Some n -> Stats.tags r = Some n) /\
  (forall n, coerceNumber (field "suggestedEdges" fs) = Some n ->
             Stats.suggestedEdges r = Some n) /\
  (isObject counts = true ->
   (forall n, coerceNumber (field "nodes" fs) = None ->
              coerceNumber (get counts "nodes") = Some n -> Stats.nodes r = Some n) /\
   (forall n, coerceNumber (field "edges" fs) = None ->
              coerceNumber (get counts "edges") = Some n -> Stats.edges r = Some n) /\
   (forall n, coerceNumber (field "tags" fs) = None ->
              coerceNumber (get counts "tags") = Some n -> Stats.tags r = Some n) /\
   (forall n, coerceNumber (field "suggestedEdges" fs) = None ->
              coerceNumber (get counts "suggested") = Some n ->
              Stats.suggestedEdges r = Some n)).
Proof.
  cbv zeta. unfold normalizeStats.
  rewrite (toRecord_object (VObj fs)) by reflexivity.
  rewrite (coalesce_value_defined (VObj fs)) by reflexivity.
  cbn [get Stats.nodes Stats.edges Stats.tags Stats.suggestedEdges].
  repeat split; try (intros n ->; reflexivity).
  all: intros n Hflat Hcounts; rewrite Hflat;
    rewrite (toRecord_object _ H); unfold getOpt;
    assert (nullish (field "counts" fs) = false) as ->
      by (destruct (field "counts" fs); try discriminate H; reflexivity);
    rewrite Hcounts; reflexivity.
Qed.

Lemma normalizeEdgeRecord_not_object (edge : value) (nodeId : string) :
  isObject edge = false -> normalizeEdgeRecord edge nodeId = None.
Proof.
  unfold isObject, normalizeEdgeRecord. intros H.
  rewrite <- negb_andb, H. reflexivity.
Qed.

(** An array of edges keeps exactly its object entries, in order, and
    its total is the number kept: entries that are not objects (null,
    numbers, strings) are dropped and not counted. *)
Theorem normalizeEdgeCollection_array_count (xs : list value) (nodeId : string) :
  let c := normalizeEdgeCollection (VArr xs) nodeId in
  length (EdgeCollection.items c) = length (List.filter isObject xs) /\
  EdgeCollection.total c = Some (ofNat (length (List.filter isObject xs))).
Proof.
  cbv zeta. rewrite normalizeEdgeCollection_array.
  cbn [EdgeCollection.items EdgeCollection.total].
  assert (H : length (normalizeEdges xs nodeId) = length (List.filter isObject xs)).
  { unfold normalizeEdges. induction xs as [|e xs IH]; [reflexivity|].
    cbn [omap list_omap List.filter]. destruct (isObject e) eqn:He.
    - destruct (normalizeEdgeRecord_object e nodeId He) as [r ->]. simpl. f_equal. exact IH.
    - rewrite (normalizeEdgeRecord_not_object e nodeId He). exact IH. }
  rewrite H. auto.
Qed.

Lemma finiteOpt_coerceNumber (v : value) : finiteOpt (coerceNumber v).
Proof.
  destruct v as [| |b|n|s|xs|fs]; simpl; trivial.
  destruct (isFinite n) eqn:E; simpl; trivial.
Qed.

Lemma finiteOpt_coalesce (a b : option number) :
  finiteOpt a -> finiteOpt b -> finiteOpt (a ?? b).
Proof. destruct a; simpl; trivial. Qed.

Lemma finiteOpt_collection_total (input : value) (id : string) :
  finiteOpt (EdgeCollection.total (normalizeEdgeCollection input id)).
Proof.
  unfold normalizeEdgeCollection.
  destruct (negb (truthy input)); [exact I|].
  destruct (isArray input); [reflexivity|].
  destruct (typeofObject input); [|exact I].
  destruct (isArray (get input "items")).
  - cbn [EdgeCollection.total]. apply finiteOpt_coalesce;
      [apply finiteOpt_coerceNumber | reflexivity].
  - destruct (isArray (get input "edges")); [reflexivity | exact I].
Qed.

Lemma totalOrLength_finite {A : Type} (total : option number) (xs : list A) :
  finiteOpt total -> isFinite (totalOrLength total xs) = true.
Proof. destruct total; simpl; auto. Qed.

Lemma nestedSections_totals (source : value) (id : string) (vars : detailVars) :
  finiteOpt (v_edgesTotal vars) -> finiteOpt (v_suggestionsTotal vars) ->
  finiteOpt (v_edgesTotal (nestedSections source id vars)) /\
  finiteOpt (v_suggestionsTotal (nestedSections source id vars)).
Proof.
  intros He Hs. unfold nestedSections.
  destruct ((length (v_edges vars) =? 0)%nat && truthy (get source "edges")
            && typeofObject (get source "edges")); [|auto].
  destruct (length (v_suggestions vars) =? 0)%nat;
    cbn [v_edgesTotal v_suggestionsTotal]; split;
    try assumption; apply finiteOpt_coalesce;
    try assumption; apply finiteOpt_collection_total.
Qed.

Lemma legacySuggestions_totals (source : value) (id : string) (vars : detailVars) :
  finiteOpt (v_edgesTotal vars) -> finiteOpt (v_suggestionsTotal vars) ->
  finiteOpt (v_edgesTotal (legacySuggestions source id vars)) /\
  finiteOpt (v_suggestionsTotal (legacySuggestions source id vars)).
Proof.
  intros He Hs. unfold legacySuggestions.
  destruct (length (v_suggestions vars) =? 0)%nat; [|auto].
  destruct (0 <? length _)%nat; [|auto].
  cbn [v_edgesTotal v_suggestionsTotal]. split; [assumption|].
  apply finiteOpt_coalesce; [assumption | apply finiteOpt_collection_total].
Qed.

(** Whatever the payload, the two totals of a normalised detail are
    finite numbers: a total that is missing, not a number, NaN or
    infinite is replaced, in the end by the length of the list. *)
Theorem normalizeNodeDetail_totals_finite (payload : value) (nodeId : string) :
  let d := normalizeNodeDetail payload nodeId in
  isFinite (NodeDetail.edgesTotal d) = true /\
  isFinite (NodeDetail.suggestionsTotal d) = true.
Proof.
  cbv zeta. unfold normalizeNodeDetail.
  cbn [NodeDetail.edgesTotal NodeDetail.suggestionsTotal].
  match goal with
  | |- context [legacySuggestions ?s ?i (nestedSections ?s ?i ?v)] =>
      destruct (nestedSections_totals s i v) as [H1 H2];
        [apply finiteOpt_coerceNumber | apply finiteOpt_coerceNumber |];
      destruct (legacySuggestions_totals s i (nestedSections s i v) H1 H2) as [H3 H4]
  end.
  split; apply totalOrLength_finite; assumption.
Qed.

(** An explicit finite [edgesTotal] or [suggestionsTotal] in the payload
    is returned as it is: it is never recomputed from, or checked
    against, the number of items extracted. *)
Theorem normalizeNodeDetail_explicit_totals (payload : value) (nodeId : string) :
  let d := normalizeNodeDetail payload nodeId in
  (forall n, coerceNumber (get payload "edgesTotal") = Some n ->
             NodeDetail.edgesTotal d = n) /\
  (forall n, coerceNumber (get payload "suggestionsTotal") = Some n ->
             NodeDetail.suggestionsTotal d = n).
Proof.
  cbv zeta.
  assert (Hsrc : forall k n, coerceNumber (get payload k) = Some n ->
                   payload ?? VObj [] = payload /\ get payload k = VNum n /\ isFinite n = true).
  { intros k n H. apply coerceNumber_Some in H as [Hv Hf]. repeat split; try assumption.
    apply coalesce_value_defined. destruct payload; try reflexivity; discriminate Hv. }
  split; intros n H; destruct (Hsrc _ _ H) as (Hp & Hv & Hf);
    unfold normalizeNodeDetail; rewrite Hp;
    cbn [NodeDetail.edgesTotal NodeDetail.suggestionsTotal];
    unfold legacySuggestions, nestedSections;
    rewrite Hv; rewrite (coalesce_value_defined (VNum n)) by reflexivity;
    cbn [coerceNumber]; rewrite Hf;
    repeat match goal with
           | |- context [if ?b then _ else _] => destruct b
           end; reflexivity.
Qed.

Lemma normalizeEdges_directed (xs : list value) (id : string) :
  Forall (directedFrom id) (normalizeEdges xs id).
Proof.
  unfold normalizeEdges. induction xs as [|x xs IH]; [constructor|].
  cbn [omap list_omap]. destruct (normalizeEdgeRecord x id) as [r|] eqn:E; [|exact IH].
  constructor; [exact (normalizeEdgeRecord_direction _ _ _ E) | exact IH].
Qed.

Lemma collection_directed (input : value) (id : string) :
  Forall (directedFrom id) (EdgeCollection.items (normalizeEdgeCollection input id)).
Proof.
  unfold normalizeEdgeCollection.
  destruct (negb (truthy input)); [constructor|].
  destruct (isArray input); [apply normalizeEdges_directed|].
  destruct (typeofObject input); [|constructor].
  destruct (isArray (get input "items")); [apply normalizeEdges_directed|].
  destruct (isArray (get input "edges")); [apply normalizeEdges_directed | constructor].
Qed.

(** Every edge and every suggestion of a normalised detail has the
    direction computed from its own endpoints relative to the id of the
    detail, which is the payload's id when it has one and the request id
    otherwise; no direction sent by the server is kept. *)
Theorem normalizeNodeDetail_directions (payload : value) (nodeId : string) :
  let d := normalizeNodeDetail payload nodeId in
  Forall (directedFrom (NodeDetail.id d)) (NodeDetail.edges d) /\
  Forall (directedFrom (NodeDetail.id d)) (NodeDetail.suggestions d).
Proof.
  cbv zeta. unfold normalizeNodeDetail.
  cbn [NodeDetail.id NodeDetail.edges NodeDetail.suggestions].
  set (source := payload ?? VObj []).
  set (id := orString (coerceString (get source "id")) nodeId).
  unfold legacySuggestions, nestedSections.
  cbn [v_edges v_suggestions v_edgesTotal v_suggestionsTotal].
  repeat match goal with
         | |- context [if ?b then _ else _] => destruct b
         end;
    cbn [v_edges v_suggestions]; split; apply collection_directed.
Qed.

(** Relative to an empty node id no edge has a direction, whatever its
    endpoints are. *)
Theorem resolveDirection_empty_id (source target : option string) :
  resolveDirection source target "" = None.
Proof.
  unfold resolveDirection.
  assert (H : forall x : option string,
             match x with
             | Some s => negb (String.eqb s "") && String.eqb s ""
             | None => false
             end = false).
  { intros [s|]; [|reflexivity]. destruct (String.eqb s ""); reflexivity. }
  rewrite !H. reflexivity.
Qed.

Lemma titleCandidate_not_blank (v : value) (s : string) :
  titleCandidate v = Some s -> (0 < String.length (trim s))%nat.
Proof.
  destruct v as [| |b|n|t|xs|fs]; simpl; try discriminate.
  destruct (0 <? String.length (trim t))%nat eqn:E; [|discriminate].
  intros [= <-]. apply Nat.ltb_lt. exact E.
Qed.

Lemma extractTitle_not_blank (record : value) (key s : string) :
  extractTitle record key = Some s -> (0 < String.length (trim s))%nat.
Proof.
  unfold extractTitle.
  destruct (titleCandidate (get record (key ++ "Title"))) as [t|] eqn:E1.
  { intros [= <-]. exact (titleCandidate_not_blank _ _ E1). }
  destruct (truthy (get record key) && typeofObject (get record key)); [|discriminate].
  destruct (titleCandidate (get (get record key) "title")) as [t|] eqn:E2.
  { intros [= <-]. exact (titleCandidate_not_blank _ _ E2). }
  apply titleCandidate_not_blank.
Qed.

(** What every normalised edge record satisfies: a score that is
    defined is a finite number, and a title that is defined is not
    blank (it has a character left after trimming). *)
Theorem normalizeEdgeRecord_invariants (edge : value) (nodeId : string) (r : Edge.t) :
  normalizeEdgeRecord edge nodeId = Some r ->
  finiteOpt (Edge.score r) /\
  (forall s, Edge.toTitle r = Some s -> (0 < String.length (trim s))%nat) /\
  (forall s, Edge.fromTitle r = Some s -> (0 < String.length (trim s))%nat).
Proof.
  unfold normalizeEdgeRecord.
  destruct (negb (truthy edge) || negb (typeofObject edge)); [discriminate|].
  intros [= <-]. cbn [Edge.score Edge.toTitle Edge.fromTitle]. split; [|split].
  - repeat apply finiteOpt_coalesce; apply finiteOpt_coerceNumber.
  - intros s. unfold coalesce, coalesce_option.
    destruct (extractTitle edge "target") as [t|] eqn:E.
    + intros [= <-]. exact (extractTitle_not_blank _ _ _ E).
    + apply extractTitle_not_blank.
  - intros s. unfold coalesce, coalesce_option.
    destruct (extractTitle edge "source") as [t|] eqn:E.
    + intros [= <-]. exact (extractTitle_not_blank _ _ _ E).
    + apply extractTitle_not_blank.
Qed.

(** [unwrap] throws exactly on an object that has a [data] key and whose
    [success] is [false]; every other payload comes back as a value. *)
Theorem unwrap_throws_iff (payload : value) :
  (exists e, unwrap payload = Throw e)
  <-> isObject payload = true /\ hasProperty "data" payload = true
      /\ get payload "success" = VBool false.
Proof.
  unfold unwrap, isObject.
  destruct (truthy payload && typeofObject payload) eqn:Ho;
    [destruct (hasProperty "data" payload) eqn:Hd|]; cbn [andb].
  - split.
    + intros [e He]. repeat split.
      destruct (get payload "success") as [| |[]| | | |]; try discriminate He. reflexivity.
    + intros (_ & _ & ->). eexists. reflexivity.
  - split; [intros [e He]; discriminate He | intros (_ & H & _); discriminate H].
  - split; [intros [e He]; discriminate He | intros (H & _); discriminate H].
Qed.

(** ** Further properties of the caches *)

(** A content fetch is served from the cache exactly when the cached
    value is truthy: then the response is not consulted and the caches
    are left as they are; a cached value that is falsy (the [undefined]
    a 204 leaves behind, null) counts as a miss and is replaced by the
    response. A cached detail is always served. *)
Theorem cache_hits (c : client) (id : string) :
  id <> "" ->
  (forall v response, contentCache c !! id = Some v -> truthy v = true ->
     getNodeContent id false response c = (Ok v, c)) /\
  (forall v w, contentCache c !! id = Some v -> truthy v = false ->
     getNodeContent id false (Ok w) c
     = (Ok w, mkClient (<[id := w]> (contentCache c)) (detailCache c))) /\
  (forall d response, detailCache c !! id = Some d ->
     getNodeDetail id false response c = (Ok d, c)).
Proof.
  intros Hid. unfold getNodeContent, getNodeDetail. rewrite (truthy_id _ Hid).
  unfold bind, getCachedNodeContent, getCachedNodeDetail, ret, await, storeNodeContent.
  cbn [negb]. repeat split.
  - intros v response -> Hv. cbn. rewrite Hv. reflexivity.
  - intros v w -> Hv. cbn. rewrite Hv. reflexivity.
  - intros d response ->. reflexivity.
Qed.

(** A fetch whose request fails leaves both caches as they were, with
    or without [forceRefresh], and rethrows the failure whenever the
    request is made: under [forceRefresh], and without it when the cache
    has nothing to serve. A stale entry survives a failed refresh. *)
Theorem failed_fetch_keeps_cache (c : client) (id : string) (e : exn) (forceRefresh : bool) :
  snd (getNodeContent id forceRefresh (Throw e) c) = c /\
  snd (getNodeDetail id forceRefresh (Throw e) c) = c /\
  (id <> "" ->
   forceRefresh = true \/ truthy (default VUndefined (contentCache c !! id)) = false ->
   getNodeContent id forceRefresh (Throw e) c = (Throw e, c)) /\
  (id <> "" ->
   forceRefresh = true \/ detailCache c !! id = None ->
   getNodeDetail id forceRefresh (Throw e) c = (Throw e, c)).
Proof.
  unfold getNodeContent, getNodeDetail, bind, getCachedNodeContent, getCachedNodeDetail,
    ret, await, throw.
  split; [|split; [|split]].
  - destruct (truthy (VStr id)); [|reflexivity]. cbn [negb].
    destruct forceRefresh; cbn [negb]; [reflexivity|].
    destruct (truthy (default VUndefined (contentCache c !! id))); reflexivity.
  - destruct (truthy (VStr id)); [|reflexivity]. cbn [negb].
    destruct forceRefresh; cbn [negb]; [reflexivity|].
    destruct (detailCache c !! id); reflexivity.
  - intros Hid H. rewrite (truthy_id _ Hid). cbn [negb].
    destruct forceRefresh; cbn [negb]; [reflexivity|].
    destruct H as [H|H]; [discriminate H|]. rewrite H. reflexivity.
  - intros Hid H. rewrite (truthy_id _ Hid). cbn [negb].
    destruct forceRefresh; cbn [negb]; [reflexivity|].
    destruct H as [H|H]; [discriminate H|]. rewrite H. reflexivity.
Qed.

(** The two caches are independent and eviction is per id: evicting an
    id from one cache leaves the other cache and every other id of the
    same cache as they were; clearing one cache empties it and leaves the
    other one alone. *)
Theorem eviction_is_local (c : client) (id : string) :
  (let c' := snd (evictNodeContent id c) in
   detailCache c' = detailCache c /\
   forall other, other <> id -> contentCache c' !! other = contentCache c !! other) /\
  (let c' := snd (evictNodeDetail id c) in
   contentCache c' = contentCache c /\
   forall other, other <> id -> detailCache c' !! other = detailCache c !! other) /\
  (let c' := snd (clearNodeContentCache c) in
   detailCache c' = detailCache c /\ forall other, contentCache c' !! other = None) /\
  (let c' := snd (clearNodeDetailCache c) in
   contentCache c' = contentCache c /\ forall other, detailCache c' !! other = None).
Proof.
  cbv zeta. unfold evictNodeContent, evictNodeDetail, clearNodeContentCache,
    clearNodeDetailCache. cbn [snd contentCache detailCache].
  repeat split; intros; try apply lookup_empty; apply lookup_delete_ne; congruence.
Qed.

(** ** Further properties of the event subscription *)

(** A frame that carries a well-formed event, bare or inside an
    envelope, is handed to the handler exactly once; if the handler
    throws, the exception goes to the error callback and the listener
    still returns normally. A frame whose envelope reports a failure is
    not delivered: the envelope's error goes to the error callback. *)
Theorem event_delivery (parsed : value) :
  (forall event, unwrap parsed = Ok event -> isEvent event = true ->
     onMessage (Ok parsed)
     = (Ok tt,
        CallHandler event
          :: match handler event with
             | Some e => optionalCall (onError options) (CallOnError e)
             | None => []
             end)) /\
  (forall e, unwrap parsed = Throw e ->
     onMessage (Ok parsed) = (Ok tt, optionalCall (onError options) (CallOnError e))).
Proof.
  unfold onMessage, messageBody. split.
  - intros event -> ->. destruct (handler event); reflexivity.
  - intros e ->. reflexivity.
Qed.

(** Unsubscribing does not silence the message listener: a well-formed
    event that still arrives on one of the subscription's sockets after
    [unsubscribe] is delivered to the handler. *)
Theorem delivery_after_unsubscribe (s : subscription) (k : nat) (parsed event : value) :
  isSocket k s = true -> unwrap parsed = Ok event -> isEvent event = true ->
  exists rest,
    log (step (SocketMessage k (Ok parsed)) (unsubscribe s))
    = log (unsubscribe s) ++ CallHandler event :: rest.
Proof.
  intros Hk Hu He. cbn [step].
  assert (isSocket k (unsubscribe s) = true) as ->.
  { unfold isSocket in *.
    destruct (unsubscribe_variables s) as (_ & _ & -> & _). exact Hk. }
  assert (exists more, snd (onMessage (Ok parsed)) = CallHandler event :: more) as [more ->].
  { unfold onMessage, messageBody. rewrite Hu, He.
    destruct (handler event); cbn [snd app]; eauto. }
  rewrite invokeAll_cons.
  destruct (invokeAll_log true more (invoke true (CallHandler event) (unsubscribe s)))
    as [r2 ->].
  destruct (invoke_log true (CallHandler event) (unsubscribe s)) as [r1 ->].
  rewrite <- app_assoc. eexists. reflexivity.
Qed.

(** Reconnection is never spontaneous. Whatever the platform does, the
    connection attempts made so far and the reconnect timers still
    pending together number at most one more than the timers ever
    scheduled, and no more timers were scheduled than sockets closed: the
    subscription has opened at most one socket more than it has seen
    close. *)
Theorem attempts_bounded (ins : list input) :
  let s := run ins subscribeToEvents in
  (attempts s + length (timers s) <= 1 + schedules s)%nat /\
  (schedules s <= closes ins)%nat /\
  (attempts s <= 1 + closes ins)%nat.
Proof.
  cbv zeta.
  assert (H : forall ins s0,
             (attempts s0 + length (timers s0) <= 1 + schedules s0)%nat ->
             (attempts (run ins s0) + length (timers (run ins s0))
              <= 1 + schedules (run ins s0))%nat
             /\ (schedules (run ins s0) <= schedules s0 + closes ins)%nat).
  { clear ins. induction ins as [|i ins IH]; intros s0 H0; [unfold closes; simpl; lia|].
    cbn [run fold_left].
    destruct (step_counts i s0) as (_ & Hb & Hs & _).
    destruct (IH (step i s0) (Hb H0)) as [H1 H2].
    split; [exact H1|].
    unfold run in H2. unfold closes in *. cbn [List.filter].
    destruct i; cbn [length] in *; lia. }
  assert (H0 : (attempts subscribeToEvents + length (timers subscribeToEvents)
                <= 1 + schedules subscribeToEvents)%nat
               /\ schedules subscribeToEvents = 0%nat).
  { rewrite subscribeToEvents_state. unfold attempts, schedules. cbn [log timers].
    rewrite !List.filter_app, !length_app. destruct (onStatusChange options); simpl; lia. }
  destruct H0 as [H0 Hz]. destruct (H ins _ H0) as [H1 H2]. lia.
Qed.

(** ** Health, paths and requests *)

(** The [ok] flag of a health payload: an explicit boolean [ok] is
    returned as it is, whatever [status] says; without one, a payload
    with no status text (or an empty one) counts as healthy; and a
    payload that is not an object normalises to a healthy status with
    every other member undefined. *)
Theorem normalizeHealth_ok (source : value) :
  (forall b, isObject source = true -> get source "ok" = VBool b ->
     Health.ok (normalizeHealth source) = b) /\
  (isObject source = true -> typeof (get source "ok") <> TBoolean ->
   truthyString (coerceString (get source "status")) = false ->
   Health.ok (normalizeHealth source) = true) /\
  (isObject source = false ->
   normalizeHealth source = Health.mk true None None None None None).
Proof.
  unfold normalizeHealth, isObject. repeat split.
  - intros b -> Hok. cbn [Health.ok]. rewrite Hok. reflexivity.
  - intros -> Hok Hst. cbn [Health.ok]. rewrite Hst.
    destruct (get source "ok"); try reflexivity. contradiction Hok. reflexivity.
  - intros ->. reflexivity.
Qed.

Lemma stripTrailingSlashes_no_slash (s s' : string) :
  stripTrailingSlashes s <> (s' ++ "/")%string.
Proof.
  revert s'. induction s as [|c rest IH]; intros s'.
  - destruct s'; discriminate.
  - cbn [stripTrailingSlashes].
    destruct (stripTrailingSlashes rest) as [|k ks] eqn:E.
    + destruct (Ascii.eqb_spec c "/") as [->|Hc].
      * destruct s'; discriminate.
      * destruct s' as [|a s'']; cbn [String.append].
        -- intros [= ->]. contradiction.
        -- intros [= _ H]. destruct s''; discriminate H.
    + destruct s' as [|a s'']; cbn [String.append].
      * discriminate.
      * intros [= _ H]. exact (IH s'' H).
Qed.

Lemma stripTrailingSlashes_head (c : ascii) (rest : string) :
  stripTrailingSlashes (String c rest) = ""
  \/ exists rest', stripTrailingSlashes (String c rest) = String c rest'.
Proof.
  cbn [stripTrailingSlashes].
  destruct (stripTrailingSlashes rest); [destruct (Ascii.eqb c "/")|]; eauto.
Qed.

Lemma stripTrailingSlashes_idempotent (s : string) :
  stripTrailingSlashes (stripTrailingSlashes s) = stripTrailingSlashes s.
Proof.
  induction s as [|c rest IH]; [reflexivity|].
  cbn [stripTrailingSlashes].
  destruct (stripTrailingSlashes rest) as [|k ks] eqn:E.
  - destruct (Ascii.eqb c "/") eqn:Ec; [reflexivity|].
    cbn [stripTrailingSlashes]. rewrite Ec. reflexivity.
  - cbn [stripTrailingSlashes] in *. rewrite IH. reflexivity.
Qed.

Lemma stripTrailingSlashes_prefix (a b : string) :
  stripTrailingSlashes a = a ->
  String.prefix a (stripTrailingSlashes (a ++ b)) = true.
Proof.
  induction a as [|c a' IH]; [intros _; destruct (stripTrailingSlashes _); reflexivity|].
  change (String c a' ++ b)%string with (String c (a' ++ b)%string).
  cbn [stripTrailingSlashes].
  destruct (stripTrailingSlashes a') as [|k ks] eqn:E.
  - destruct (Ascii.eqb c "/") eqn:Ec; [discriminate|].
    intros [= <-]. change ("" ++ b)%string with b.
    destruct (stripTrailingSlashes b); rewrite ?Ec; cbn [String.prefix];
      destruct (ascii_dec c c); try contradiction; reflexivity.
  - intros [= <-]. specialize (IH eq_refl).
    destruct (stripTrailingSlashes (String k ks ++ b)) as [|k' ks'] eqn:E'.
    + cbn [String.prefix] in IH. discriminate IH.
    + cbn [String.prefix]. destruct (ascii_dec c c); [exact IH | contradiction].
Qed.

Lemma startsWith_slash (s : string) :
  startsWith s "/" = true -> exists rest, s = String "/" rest.
Proof.
  unfold startsWith. destruct s as [|c rest]; cbn [String.prefix]; [discriminate|].
  destruct (ascii_dec "/" c) as [<-|]; [eauto | discriminate].
Qed.

Lemma normalizeApiPrefix_stripped (prefix : string) :
  stripTrailingSlashes (normalizeApiPrefix prefix) = normalizeApiPrefix prefix.
Proof.
  unfold normalizeApiPrefix.
  destruct (String.eqb prefix ""); [reflexivity|].
  destruct (String.eqb (trim prefix) "/" || String.eqb (trim prefix) ""); [reflexivity|].
  apply stripTrailingSlashes_idempotent.
Qed.

(** The shape of [this.apiPrefix]: whatever the configured prefix, the
    normalised one is empty or starts with a slash, and it never ends
    with one. *)
Theorem normalizeApiPrefix_shape (prefix : string) :
  (normalizeApiPrefix prefix = ""
   \/ exists rest, normalizeApiPrefix prefix = String "/" rest) /\
  (forall s, normalizeApiPrefix prefix <> (s ++ "/")%string).
Proof.
  unfold normalizeApiPrefix.
  destruct (String.eqb prefix "");
    [repeat split; [left; reflexivity | intros []; discriminate]|].
  destruct (String.eqb (trim prefix) "/" || String.eqb (trim prefix) "");
    [repeat split; [left; reflexivity | intros []; discriminate]|].
  cbv zeta.
  assert (Hlead : exists rest,
             (if startsWith (trim prefix) "/" then trim prefix
              else ("/" ++ trim prefix)%string) = String "/" rest).
  { destruct (startsWith (trim prefix) "/") eqn:E; [apply startsWith_slash, E | eauto]. }
  destruct Hlead as [rest ->]. repeat split.
  - exact (stripTrailingSlashes_head "/" rest).
  - intros s. apply stripTrailingSlashes_no_slash.
Qed.

(** How [buildApiPath] treats its argument: an absolute [http(s)://] URL
    is passed through; a single leading slash of a relative path makes no
    difference; and under a prefix produced by [normalizeApiPrefix] that
    is not empty, the path built for a relative resource starts with the
    prefix and does not end with a slash. *)
Theorem buildApiPath_spec (apiPrefix path : string) :
  (isAbsoluteUrl path = true -> buildApiPath apiPrefix path = path) /\
  (isAbsoluteUrl path = false -> startsWith path "/" = false ->
   buildApiPath apiPrefix ("/" ++ path)%string = buildApiPath apiPrefix path) /\
  (forall configured,
     apiPrefix = normalizeApiPrefix configured -> apiPrefix <> "" ->
     isAbsoluteUrl path = false ->
     startsWith (buildApiPath apiPrefix path) apiPrefix = true /\
     forall s, buildApiPath apiPrefix path <> (s ++ "/")%string).
Proof.
  unfold buildApiPath. repeat split.
  - intros ->. reflexivity.
  - intros Habs Hslash. rewrite Habs, Hslash.
    change ("/" ++ path)%string with (String "/" path).
    assert (isAbsoluteUrl (String "/" path) = false) as -> by reflexivity.
    assert (startsWith (String "/" path) "/" = true) as ->.
    { unfold startsWith. cbn [String.prefix].
      destruct (ascii_dec "/" "/"); [destruct path; reflexivity | contradiction]. }
    reflexivity.
  - rewrite H1. apply String.eqb_neq in H0. rewrite H0.
    unfold startsWith. apply stripTrailingSlashes_prefix.
    rewrite H. apply normalizeApiPrefix_stripped.
  - rewrite H1. apply String.eqb_neq in H0. rewrite H0.
    intros s. apply stripTrailingSlashes_no_slash.
Qed.

(** When a request yields a value: exactly when the response has a 2xx
    status and either is a 204, for which the value is [undefined] and
    the body is not read, or has a body that parses and that [unwrap]
    accepts, for which the value is the unwrapped payload. *)
Theorem request_succeeds_iff (timeoutMs : number) (outcome : fetchOutcome) (v : value) :
  request timeoutMs outcome = Ok v
  <-> exists status statusText text json,
        outcome = FetchResolved status statusText text json /\
        responseOk status = true /\
        ((status = 204%Z /\ v = VUndefined)
         \/ (status <> 204%Z /\ exists body, json = inl body /\ unwrap body = Ok v)).
Proof.
  split.
  - destruct outcome as [[|e]|status statusText text json]; cbn [request requestCatch];
      try discriminate.
    destruct (responseOk status) eqn:Hok; cbn [negb requestCatch]; [|discriminate].
    destruct (Z.eqb_spec status 204) as [->|Hne].
    + intros [= <-]. repeat eexists; auto.
    + destruct json as [body|[|e]]; cbn [requestCatch]; try discriminate.
      destruct (unwrap body) as [payload|e] eqn:Hu; cbn [requestCatch]; [|discriminate].
      intros [= <-]. exists status, statusText, text, (inl body).
      repeat split; auto. right. eauto.
  - intros (status & statusText & text & json & -> & Hok & Hcase).
    cbn [request]. rewrite Hok. cbn [negb].
    destruct Hcase as [[-> ->] | (Hne & body & -> & Hu)]; [reflexivity|].
    apply Z.eqb_neq in Hne. rewrite Hne, Hu. reflexivity.
Qed.

(** The failures of a request. An abort, of the fetch or of the reading
    of the body, is reported as a timeout that names the configured
    duration; a status outside 200-299 is reported with the status and
    the body text whatever the body is, so the envelope is never looked
    at; any other rejection is rethrown unchanged. *)
Theorem request_failures (timeoutMs : number) :
  let timedOut :=
    Throw (Error (VStr ("Forest request timed out after "
                          ++ numberToString timeoutMs ++ "ms")%string)) in
  request timeoutMs (FetchRejected AbortError) = timedOut /\
  (forall status statusText text,
     responseOk status = true -> status <> 204%Z ->
     request timeoutMs (FetchResolved status statusText text (inr AbortError)) = timedOut) /\
  (forall status statusText text json,
     responseOk status = false ->
     request timeoutMs (FetchResolved status statusText text json)
     = Throw (Error (VStr ("Forest request failed ("
                             ++ numberToString (Finite (inject_Z status)) ++ " "
                             ++ statusText ++ "): " ++ default "" text)%string))) /\
  (forall e, request timeoutMs (FetchRejected (OtherError e)) = Throw e).
Proof.
  cbv zeta. repeat split.
  - intros status statusText text Hok Hne. cbn [request]. rewrite Hok.
    apply Z.eqb_neq in Hne. rewrite Hne. reflexivity.
  - intros status statusText text json Hok. cbn [request]. rewrite Hok. reflexivity.
Qed.

(** A 204 No Content answer, followed through each method: the stats are
    empty, both list methods reject it as an unexpected shape, and a
    detail fetch yields a detail that carries the request id, no edges
    and totals of zero. *)
Theorem no_content_responses (timeoutMs : number) (statusText : string)
    (text : option string) (json : value + rejection) (id : string) (c : client) :
  let response := request timeoutMs (FetchResolved 204 statusText text json) in
  id <> "" ->
  fst (getStats response c) = Ok (Stats.mk None None None None None None [] [] [] []) /\
  (exists e, (payload <- await response ;; await (listNodes payload)) c = (Throw e, c)) /\
  (exists e, (payload <- await response ;; await (listTags payload)) c = (Throw e, c)) /\
  fst (getNodeDetail id true response c)
  = Ok (NodeDetail.mk id None None [] None [] (ofNat 0) [] (ofNat 0)).
Proof.
  cbv zeta. intros Hid. cbn [request responseOk Z.leb Z.compare Pos.compare
    Pos.compare_cont andb negb Z.eqb Pos.eqb].
  unfold getNodeDetail. rewrite (truthy_id _ Hid).
  repeat split; try (eexists; reflexivity).
Qed.

(** ** Edge events *)

Lemma existsb_eqb_false (x : string) (ids : list string) :
  existsb (String.eqb x) ids = false -> x ∉ ids.
Proof.
  induction ids as [|y ids IH]; [intros _; apply not_elem_of_nil|].
  simpl. intros H. apply orb_false_iff in H as [Hxy Hrest].
  apply not_elem_of_cons. split; [apply String.eqb_neq, Hxy | exact (IH Hrest)].
Qed.

Lemma addIfDefined_spec (v : value) (ids : list string) :
  NoDup ids -> Forall (fun id => id <> "") ids ->
  let ids' := addIfDefined (normalizePossibleId v) ids in
  NoDup ids' /\ Forall (fun id => id <> "") ids' /\
  (length ids' <= S (length ids))%nat /\
  (forall id, id ∈ ids -> id ∈ ids') /\
  (forall id, normalizePossibleId v = Some id -> id ∈ ids').
Proof.
  intros Hnd Hne. cbv zeta.
  destruct (normalizePossibleId v) as [s|] eqn:E; cbn [addIfDefined].
  - assert (Hs : s <> "").
    { destruct v; try discriminate E. simpl in E.
      destruct (String.eqb_spec s0 ""); [discriminate|]. injection E as <-. assumption. }
    unfold setAdd. destruct (existsb (String.eqb s) ids) eqn:Hex.
    + repeat split; auto. intros id [= <-].
      apply existsb_exists in Hex as (y & Hy & Heq).
      apply String.eqb_eq in Heq as ->. apply list_elem_of_In, Hy.
    + repeat split.
      * apply NoDup_app. repeat split; [assumption | | apply NoDup_singleton].
        intros y Hy Hy'. apply list_elem_of_singleton in Hy' as ->.
        exact (existsb_eqb_false _ _ Hex Hy).
      * apply Forall_app. split; [assumption | repeat constructor; assumption].
      * rewrite length_app. simpl. lia.
      * intros id Hid. apply elem_of_app. left. exact Hid.
      * intros id [= <-]. apply elem_of_app. right. apply list_elem_of_singleton. reflexivity.
  - repeat split; auto. discriminate.
Qed.

(** The node ids an edge event touches: at most three, each a non-empty
    string, none listed twice (an edge from a node to itself, or one
    whose endpoint is also the event's [nodeId], yields that id once),
    with the event's own [nodeId] among them when it is a non-empty
    string; an event with neither an [edge] object nor such a [nodeId]
    touches no node. *)
Theorem extractEdgeNodeIds_spec (event : value) :
  let ids := extractEdgeNodeIds event in
  NoDup ids /\ Forall (fun id => id <> "") ids /\ (length ids <= 3)%nat /\
  (forall id, normalizePossibleId (get event "nodeId") = Some id -> id ∈ ids) /\
  (isObject (get event "edge") = false ->
   normalizePossibleId (get event "nodeId") = None -> ids = []).
Proof.
  cbv zeta. unfold extractEdgeNodeIds, isObject.
  destruct (truthy (get event "edge") && typeofObject (get event "edge")).
  - match goal with
    | |- context [addIfDefined ?n (addIfDefined ?t (addIfDefined ?s []))] =>
        destruct (addIfDefined_spec
                    (get (get event "edge") "sourceId" ?? get (get event "edge") "fromId"
                       ?? getOpt (get (get event "edge") "source") "id")
                    [] (NoDup_nil_2) (Forall_nil_2 _))
          as (N1 & F1 & L1 & _ & _);
        destruct (addIfDefined_spec
                    (get (get event "edge") "targetId" ?? get (get event "edge") "toId"
                       ?? getOpt (get (get event "edge") "target") "id")
                    _ N1 F1)
          as (N2 & F2 & L2 & _ & _);
        destruct (addIfDefined_spec (get event "nodeId") _ N2 F2)
          as (N3 & F3 & L3 & _ & I3)
    end.
    cbv zeta in *. simpl length in *. repeat split; auto; try lia.
  - destruct (addIfDefined_spec (get event "nodeId") [] (NoDup_nil_2) (Forall_nil_2 _))
      as (N3 & F3 & L3 & _ & I3).
    cbv zeta in *. simpl length in *. repeat split; auto; try lia.
    intros _ ->. reflexivity.
Qed.

(** ** Tags and favourites *)

Lemma dedupeLoop_spec (tags : list string) :
  forall (seen : gset string) (result : list string),
    (forall x, x ∈ seen <-> In x (map normalizeTagName result)) ->
    NoDup (map normalizeTagName result) ->
    Forall (fun t => normalizeTagName t <> "") result ->
    exists extra,
      dedupeLoop tags seen result = result ++ extra /\
      sublist extra (map trim tags) /\
      NoDup (map normalizeTagName (result ++ extra)) /\
      Forall (fun t => normalizeTagName t <> "") (result ++ extra).
Proof.
  induction tags as [|tag rest IH]; intros seen result Hseen Hnd Hne.
  - exists []. rewrite app_nil_r. repeat split; [constructor | assumption | assumption].
  - cbn [dedupeLoop map].
    destruct (String.eqb_spec (normalizeTagName (trim tag)) "") as [Hempty|Hnonempty];
      cbn [orb].
    { destruct (IH seen result Hseen Hnd Hne) as (extra & -> & Hsub & Hnd' & Hne').
      exists extra. repeat split; try assumption. apply sublist_cons, Hsub. }
    destruct (bool_decide_reflect (normalizeTagName (trim tag) ∈ seen)) as [Hin|Hnotin].
    { destruct (IH seen result Hseen Hnd Hne) as (extra & -> & Hsub & Hnd' & Hne').
      exists extra. repeat split; try assumption. apply sublist_cons, Hsub. }
    destruct (IH ({[normalizeTagName (trim tag)]} ∪ seen) (result ++ [trim tag]))
      as (extra & -> & Hsub & Hnd' & Hne').
    + intros x. rewrite List.map_app, List.in_app_iff, elem_of_union, elem_of_singleton, Hseen.
      simpl. split; intros [H|H]; auto; try (right; left; congruence).
      destruct H as [H|[]]. left. congruence.
    + rewrite List.map_app. apply NoDup_app. repeat split; [assumption | | apply NoDup_singleton].
      intros x Hx Hx'. apply list_elem_of_singleton in Hx' as ->.
      apply Hnotin, Hseen, list_elem_of_In, Hx.
    + apply Forall_app. split; [assumption | repeat constructor; assumption].
    + exists (trim tag :: extra). rewrite <- app_assoc in *. repeat split; try assumption.
      apply sublist_skip, Hsub.
Qed.

(** What deduplication returns: the trimmed form of some of the given
    tags, in their original order, no two of which have the same
    normalised name and none of which normalises to the empty name. *)
Theorem dedupeTagsCaseInsensitive_spec (tags : list string) :
  let r := dedupeTagsCaseInsensitive tags in
  sublist r (map trim tags) /\
  NoDup (map normalizeTagName r) /\
  Forall (fun t => normalizeTagName t <> "") r.
Proof.
  cbv zeta. unfold dedupeTagsCaseInsensitive.
  destruct (dedupeLoop_spec tags ∅ []) as (extra & -> & Hsub & Hnd & Hne).
  - intros x. simpl. split; [intros H; exact (not_elem_of_empty _ H) | contradiction].
  - constructor.
  - constructor.
  - auto.
Qed.

Lemma split_length (sep : ascii) (s : string) :
  length (split sep s) = S (countChar sep s).
Proof.
  induction s as [|c rest IH]; [reflexivity|].
  cbn [split countChar]. destruct (Ascii.eqb c sep).
  - cbn [length]. rewrite IH. reflexivity.
  - destruct (split sep rest) as [|piece pieces]; [discriminate IH|].
    cbn [length] in *. exact IH.
Qed.

(** Reading a draft of tags: the draft is cut at its commas, so there is
    always a token being typed (one token more than there are commas,
    never none); and the tags parsed from a draft are pairwise different
    by normalised name, with no blank name among them. *)
Theorem tag_draft_spec (input : string) :
  length (getDraftTagTokens input) = S (countChar "," input) /\
  NoDup (map normalizeTagName (parseTags input)) /\
  Forall (fun t => normalizeTagName t <> "") (parseTags input).
Proof.
  split.
  - unfold getDraftTagTokens. destruct input as [|c rest]; [reflexivity|].
    cbn [String.length Nat.eqb]. rewrite length_map. apply split_length.
  - unfold parseTags, dedupeTagsCaseInsensitive.
    destruct (dedupeLoop_spec (getDraftTagTokens input) ∅ [])
      as (extra & -> & _ & Hnd & Hne).
    + intros x. simpl. split; [intros H; exact (not_elem_of_empty _ H) | contradiction].
    + constructor.
    + constructor.
    + auto.
Qed.

Lemma tagsEqualLoop_spec (a : list string) :
  forall b, length a = length b ->
    (tagsEqualLoop a b = true <-> map normalizeTagName a = map normalizeTagName b).
Proof.
  induction a as [|x a IH]; intros [|y b] Hlen; try discriminate Hlen.
  - split; reflexivity.
  - cbn [tagsEqualLoop map].
    destruct (String.eqb_spec (normalizeTagName x) (normalizeTagName y)) as [Heq|Hne];
      cbn [negb].
    + rewrite Heq. rewrite IH by (simpl in Hlen; lia).
      split; [intros ->; reflexivity | intros [= H]; exact H].
    + split; [discriminate | intros [= H _]; contradiction].
Qed.

(** Two tag arrays are equal for [areTagArraysEqual] exactly when they
    have the same normalised names position by position; and arrays that
    are equal in this sense have the same favourite key. *)
Theorem areTagArraysEqual_spec (a b : list string) :
  (areTagArraysEqual a b = true <-> map normalizeTagName a = map normalizeTagName b) /\
  (areTagArraysEqual a b = true -> favoriteKey a = favoriteKey b).
Proof.
  assert (H : areTagArraysEqual a b = true
              <-> map normalizeTagName a = map normalizeTagName b).
  { unfold areTagArraysEqual. destruct (Nat.eqb_spec (length a) (length b)) as [Hlen|Hlen];
      cbn [negb].
    - apply tagsEqualLoop_spec, Hlen.
    - split; [discriminate|]. intros Hmap. exfalso. apply Hlen.
      rewrite <- (length_map normalizeTagName a), <- (length_map normalizeTagName b), Hmap.
      reflexivity. }
  split; [exact H|]. intros Heq. unfold favoriteKey. apply H in Heq. rewrite Heq. reflexivity.
Qed.

Lemma findIndex_Some {A : Type} (f : A -> bool) (xs : list A) (i : nat) :
  findIndex f xs = Some i -> exists x, xs !! i = Some x /\ f x = true.
Proof.
  revert i. induction xs as [|x xs IH]; intros i; [discriminate|].
  cbn [findIndex]. destruct (f x) eqn:E.
  - intros [= <-]. eauto.
  - destruct (findIndex f xs) as [j|]; [|discriminate].
    intros [= <-]. exact (IH j eq_refl).
Qed.

Lemma findIndex_None {A : Type} (f : A -> bool) (xs : list A) :
  findIndex f xs = None <-> Forall (fun x => f x = false) xs.
Proof.
  induction xs as [|x xs IH]; [split; [constructor | reflexivity]|].
  cbn [findIndex]. destruct (f x) eqn:E.
  - split; [discriminate | intros H; inversion H; congruence].
  - destruct (findIndex f xs) as [j|].
    + split; [discriminate|]. intros H. inversion H as [|? ? _ Hxs]; subst.
      apply IH in Hxs. discriminate Hxs.
    + split; [|reflexivity]. intros _. constructor; [exact E | apply IH; reflexivity].
Qed.

Lemma truncateFavorites_spec (favorites : list Favorite.t) :
  (length (truncateFavorites favorites) <= MAX_FAVORITES)%nat /\
  truncateFavorites favorites = take MAX_FAVORITES favorites.
Proof.
  unfold truncateFavorites.
  destruct (Nat.leb_spec (length favorites) MAX_FAVORITES) as [H|H].
  - split; [exact H | symmetry; apply take_ge; exact H].
  - split; [rewrite length_take; lia | reflexivity].
Qed.

Lemma NoDup_map_take {A B : Type} (f : A -> B) (n : nat) (xs : list A) :
  NoDup (map f xs) -> NoDup (map f (take n xs)).
Proof.
  intros H. rewrite <- (take_drop n xs), List.map_app in H.
  apply NoDup_app in H as (H & _). exact H.
Qed.

(** Recording the use of a tag set. The result is [null] exactly when
    only a bump was asked for and no favourite has the key of the tags;
    otherwise the list returned has the given tags in front, stamped
    with the current time, holds at most [MAX_FAVORITES] entries and at
    most one more than before, and if no two favourites shared a key
    before, none do afterwards. *)
Theorem upsertFavoriteRecords_spec (now : string) (current : list Favorite.t)
    (tags : list string) (onlyBump : bool) :
  (upsertFavoriteRecords now current tags onlyBump = None
   <-> onlyBump = true /\
       Forall (fun f => favoriteKeyOf f <> favoriteKey tags) current) /\
  (forall r, upsertFavoriteRecords now current tags onlyBump = Some r ->
     (exists count rest, r = Favorite.mk tags now count :: rest) /\
     (length r <= MAX_FAVORITES)%nat /\ (length r <= S (length current))%nat /\
     (NoDup (map favoriteKeyOf current) -> NoDup (map favoriteKeyOf r))).
Proof.
  unfold upsertFavoriteRecords. cbv zeta.
  set (hasKey := fun favorite : Favorite.t =>
                   String.eqb (favoriteKey (Favorite.tags favorite)) (favoriteKey tags)).
  destruct (findIndex hasKey current) as [i|] eqn:Hfind.
  - destruct (findIndex_Some _ _ _ Hfind) as (existing & Hi & Hkey).
    rewrite Hi. unfold hasKey in Hkey. apply String.eqb_eq in Hkey. split.
    + split; [discriminate|]. intros [_ Hall]. exfalso.
      rewrite Forall_forall in Hall.
      apply (Hall existing); [apply list_elem_of_lookup; eauto | exact Hkey].
    + intros r [= <-].
      destruct (truncateFavorites_spec
                  (Favorite.mk tags now (numberAdd (Favorite.usageCount existing) (Finite 1))
                     :: without i current)) as [Hlen ->].
      pose proof (take_drop_middle _ _ _ Hi) as Hmid.
      assert (Hwl : S (length (without i current)) = length current).
      { rewrite <- Hmid at 2. unfold without. rewrite !length_app. simpl. lia. }
      repeat split.
      * eexists _, _. reflexivity.
      * rewrite length_take. unfold MAX_FAVORITES. lia.
      * rewrite length_take. cbn [length]. lia.
      * intros Hnd. apply (NoDup_map_take favoriteKeyOf). cbn [map].
        rewrite <- Hmid, List.map_app in Hnd. cbn [map] in Hnd.
        apply NoDup_ListNoDup in Hnd.
        apply List.NoDup_remove in Hnd as [Hnd Hnotin].
        unfold without. rewrite List.map_app.
        apply NoDup_ListNoDup, List.NoDup_cons; [|exact Hnd].
        unfold favoriteKeyOf at 1. cbn [Favorite.tags].
        unfold favoriteKeyOf in Hnotin at 1. rewrite Hkey in Hnotin. exact Hnotin.
  - apply findIndex_None in Hfind as Hall. split.
    + destruct onlyBump.
      * split; [|reflexivity]. intros _. split; [reflexivity|].
        eapply Forall_impl; [exact Hall|]. intros f Hf. unfold hasKey in Hf.
        apply String.eqb_neq in Hf. exact Hf.
      * split; [discriminate | intros [H _]; discriminate H].
    + destruct onlyBump; [discriminate|]. intros r [= <-].
      destruct (truncateFavorites_spec (Favorite.mk tags now (Finite 1) :: current))
        as [Hlen ->].
      repeat split.
      * eexists _, _. reflexivity.
      * rewrite length_take. unfold MAX_FAVORITES. lia.
      * rewrite length_take. cbn [length]. lia.
      * intros Hnd. apply (NoDup_map_take favoriteKeyOf). cbn [map].
        apply NoDup_ListNoDup, List.NoDup_cons; [|apply NoDup_ListNoDup, Hnd].
        intros Hin. apply List.in_map_iff in Hin as (f & Hf & Hfin).
        rewrite Forall_forall in Hall.
        specialize (Hall f (proj2 (list_elem_of_In _ _) Hfin)).
        unfold hasKey in Hall. apply String.eqb_neq in Hall. apply Hall.
        exact Hf.
Qed.

(** Removing a favourite: [null] exactly when the index is out of range;
    otherwise the list is one shorter, the entries before the index stay
    where they were and the entries after it move up by one. *)
Theorem removeFavoriteAtIndex_spec (current : list Favorite.t) (index : Z) :
  (removeFavoriteAtIndex current index = None
   <-> (index < 0 \/ Z.of_nat (length current) <= index)%Z) /\
  (forall r, removeFavoriteAtIndex current index = Some r ->
     S (length r) = length current /\
     forall j : nat,
       r !! j = if (Z.of_nat j <? index)%Z then current !! j else current !! S j).
Proof.
  unfold removeFavoriteAtIndex.
  destruct (Z.ltb_spec index 0) as [Hneg|Hnonneg]; cbn [orb].
  { split; [split; auto | discriminate]. }
  destruct (Z.leb_spec (Z.of_nat (length current)) index) as [Hge|Hlt].
  { split; [split; auto | discriminate]. }
  split; [split; [discriminate | lia]|].
  intros r [= <-]. unfold without.
  assert (Hi : (Z.to_nat index < length current)%nat) by lia.
  split.
  - rewrite length_app, length_take, length_drop. lia.
  - intros j. destruct (Z.ltb_spec (Z.of_nat j) index) as [Hj|Hj].
    + rewrite lookup_app_l by (rewrite length_take; lia).
      apply lookup_take_lt. lia.
    + rewrite lookup_app_r by (rewrite length_take; lia).
      rewrite lookup_drop, length_take. f_equal. lia.
Qed.

(** ** Configuration and the favourites file *)

(** Whatever the environment variable holds, the request timeout is a
    finite number greater than zero. *)
Theorem getRequestTimeoutMs_positive (fromEnv : option string) :
  isFinite (getRequestTimeoutMs fromEnv) = true /\
  numberPositive (getRequestTimeoutMs fromEnv) = true.
Proof.
  unfold getRequestTimeoutMs.
  destruct (negb (truthyString fromEnv)); [split; reflexivity|].
  destruct (isFinite (stringToNumber (default "" fromEnv))) eqn:Hf,
           (numberPositive (stringToNumber (default "" fromEnv))) eqn:Hp;
    cbn [andb]; split; auto.
Qed.

Lemma strings_of_strings (tags : list string) :
  omap (fun tag => match tag with VStr s => Some s | _ => None end) (map VStr tags) = tags.
Proof. induction tags as [|t tags IH]; [reflexivity|]. cbn. rewrite IH. reflexivity. Qed.

Lemma normalizeFavorite_wellFormed (now : string) (f : Favorite.t) :
  wellFormedFavorite f -> normalizeFavorite now (favoriteToValue f) = Some f.
Proof.
  intros (Htags & Hdate & Hfin & Hnn). destruct f as [tags d n].
  cbn [Favorite.tags Favorite.lastUsedAt Favorite.usageCount] in *.
  unfold normalizeFavorite, favoriteToValue.
  cbn [truthy typeofObject typeof negb orb get field String.eqb Ascii.eqb Bool.eqb
       isArray elements Favorite.tags Favorite.lastUsedAt Favorite.usageCount].
  rewrite strings_of_strings.
  destruct tags as [|t tags]; [contradiction|]. cbn [length Nat.eqb].
  rewrite Hdate, Hfin, Hnn. reflexivity.
Qed.

(** Loading the favourites. Every favourite that is loaded has at least
    one tag and a usage count that is finite and not negative; a file
    that cannot be read or parsed, or that does not hold an array, loads
    as no favourites; and an array of well-formed favourites, as
    [saveTagFavorites] writes it, loads as exactly those favourites. *)
Theorem loadTagFavorites_spec (clock : nat -> string) :
  (forall contents,
     Forall (fun f => Favorite.tags f <> [] /\ isFinite (Favorite.usageCount f) = true
                      /\ numberNonNegative (Favorite.usageCount f) = true)
            (loadTagFavorites clock contents)) /\
  (forall e, loadTagFavorites clock (Throw e) = []) /\
  (forall parsed, isArray parsed = false -> loadTagFavorites clock (Ok parsed) = []) /\
  (forall favorites,
     Forall wellFormedFavorite favorites ->
     loadTagFavorites clock (Ok (VArr (map favoriteToValue favorites))) = favorites).
Proof.
  repeat split.
  - intros [parsed|e]; cbn [loadTagFavorites]; [|constructor].
    destruct (negb (isArray parsed)); [constructor|].
    generalize (elements parsed) as xs. intros xs. revert clock.
    induction xs as [|x xs IH]; intros clock; [constructor|].
    cbn [imap omap list_omap].
    destruct (normalizeFavorite (clock 0%nat) x) as [f|] eqn:E; [|apply IH].
    constructor; [|apply IH].
    unfold normalizeFavorite in E.
    destruct (negb (truthy x) || negb (typeofObject x)); [discriminate|].
    destruct (negb (isArray (get x "tags"))); [discriminate|].
    destruct (omap _ (elements (get x "tags"))) as [|t ts]; [discriminate|].
    cbn [length Nat.eqb] in E. injection E as <-.
    cbn [Favorite.tags Favorite.usageCount]. split; [discriminate|].
    destruct (get x "usageCount") as [| |b|n|s|ys|fs]; try (split; reflexivity).
    destruct (isFinite n) eqn:Hf, (numberNonNegative n) eqn:Hn; cbn [andb];
      split; auto.
  - intros parsed H. cbn [loadTagFavorites]. rewrite H. reflexivity.
  - intros favorites Hwf. cbn [loadTagFavorites isArray negb elements].
    revert clock. induction Hwf as [|f favorites Hf _ IH]; intros clock; [reflexivity|].
    cbn [map imap omap list_omap]. rewrite (normalizeFavorite_wellFormed _ _ Hf).
    f_equal. apply IH.
Qed.

End Client.

(** ** Worked instances

    The theorems above at concrete payloads, run with [showNumber] and
    [trimAscii], and the concrete inputs on which the behaviour differs
    from what a reader of the interface might expect. *)

(** [unwrap] on a failure envelope that has a [data] key. *)
Lemma unwrap_failure_envelope_witness :
  let fs := [("success", VBool false); ("data", VNull); ("error", VStr "boom")] in
  hasField "data" fs = true /\ field "success" fs = VBool false /\
  unwrap (VObj fs) = Throw (Error (VStr "boom")).
Proof.
  cbv zeta. split; [reflexivity|]. split; [reflexivity|].
  apply (proj1 (unwrap_failure_envelope _)); reflexivity.
Defined.

(** A payload that says [success: false] but has no [data] key is not an
    envelope: [unwrap] returns it and nothing is thrown. *)
Lemma unwrap_failure_without_data :
  let payload := VObj [("success", VBool false); ("error", VStr "boom")] in
  get payload "success" = VBool false /\
  unwrap payload = Ok payload /\
  ~ (exists e, unwrap payload = Throw e).
Proof.
  cbv zeta. split; [reflexivity|]. split; [reflexivity|].
  intros [e He]. discriminate He.
Qed.

(** An edge from the queried node to another one points out. *)
Lemma edge_direction_spec_witness :
  let edge := VObj [("id", VStr "e1"); ("sourceId", VStr "n1"); ("targetId", VStr "n2")] in
  exists r,
    normalizeEdgeRecord showNumber trimAscii edge "n1" = Some r /\
    (Edge.direction r = Some Out
       <-> Edge.sourceId r = Some "n1" /\ Edge.targetId r <> Some "n1").
Proof.
  cbv zeta.
  exists (Edge.mk (Some "e1") (Some "n1") (Some "n2") (Some Out)
                  None None None None None None).
  split; [reflexivity|].
  refine (proj1 (proj2
    (edge_direction_spec showNumber trimAscii
       (VObj [("id", VStr "e1"); ("sourceId", VStr "n1"); ("targetId", VStr "n2")])
       "n1" _ _ eq_refl))).
  discriminate.
Defined.

(** The id of the payload wins over the request id. *)
Lemma normalizeNodeDetail_id_witness :
  NodeDetail.id
    (normalizeNodeDetail showNumber trimAscii (VObj [("id", VStr "n7")]) "n1") = "n7".
Proof.
  apply (proj1 (normalizeNodeDetail_id showNumber trimAscii _ "n1") "n7");
    [reflexivity | discriminate].
Defined.

(** A payload can carry an id and still get the request id: an id that
    is the empty string, or one that is not a string or a number, is not
    kept. *)
Lemma payload_id_not_kept :
  let blank := VObj [("id", VStr "")] in
  let flag := VObj [("id", VBool true)] in
  hasProperty "id" blank = true /\ get blank "id" = VStr "" /\
  NodeDetail.id (normalizeNodeDetail showNumber trimAscii blank "n1") = "n1" /\
  hasProperty "id" flag = true /\ get flag "id" = VBool true /\
  NodeDetail.id (normalizeNodeDetail showNumber trimAscii flag "n1") = "n1" /\
  "n1" <> "".
Proof. cbv zeta. repeat split; try reflexivity. discriminate. Qed.

(** The scenario payload: two accepted edges and one suggested edge under
    [edges]. *)
Lemma normalizeNodeDetail_fallback_witness :
  let a := VObj [("sourceId", VStr "n1"); ("targetId", VStr "n2")] in
  let b := VObj [("sourceId", VStr "n3"); ("targetId", VStr "n1")] in
  let c := VObj [("sourceId", VStr "n1"); ("targetId", VStr "n4")] in
  let d :=
    normalizeNodeDetail showNumber trimAscii
      (VObj [("id", VStr "n1");
             ("edges", VObj [("accepted", VArr [a; b]); ("suggested", VArr [c])])]) "n1" in
  length (NodeDetail.edges d) = 2%nat /\ length (NodeDetail.suggestions d) = 1%nat /\
  NodeDetail.edgesTotal d = ofNat 2 /\ NodeDetail.suggestionsTotal d = ofNat 1.
Proof.
  cbv zeta.
  eapply (proj1 (normalizeNodeDetail_fallback showNumber trimAscii _ "n1"));
    reflexivity.
Defined.

(** An empty top-level [suggestions] list next to an [edges] object with
    items of its own: the nested [edges.suggested] section holds a
    suggestion, yet the detail has none, so extraction did not stop at the
    first non-empty source. *)
Lemma suggestions_fallback_skips_nested :
  let e := VObj [("id", VStr "e1"); ("sourceId", VStr "n1"); ("targetId", VStr "n2")] in
  let g := VObj [("id", VStr "e2"); ("sourceId", VStr "n3"); ("targetId", VStr "n1")] in
  let payload :=
    VObj [("id", VStr "n1");
          ("suggestions", VArr []);
          ("edges", VObj [("items", VArr [e]); ("suggested", VArr [g])])] in
  let d := normalizeNodeDetail showNumber trimAscii payload "n1" in
  topLevelSuggestions showNumber trimAscii payload "n1" = [] /\
  length (nestedSuggestions showNumber trimAscii payload "n1") = 1%nat /\
  legacySuggestionItems showNumber trimAscii payload "n1" = [] /\
  NodeDetail.suggestions d = [] /\
  NodeDetail.suggestions d <> nestedSuggestions showNumber trimAscii payload "n1".
Proof.
  cbv zeta. repeat split; try reflexivity.
  vm_compute. discriminate.
Qed.

(** A frame that parses to an object without a [type] causes no call;
    one whose envelope reports a failure reaches the error callback and
    not the handler, and the subscription stays open. *)
Lemma malformed_frame_dropped_witness :
  let options := mkOptions None None true true true true in
  let handler := fun _ : value => @None exn in
  let never := fun _ : list action => false in
  let typeless := VObj [("nodeId", VStr "n5")] in
  let failure := VObj [("success", VBool false); ("data", VNull); ("error", VStr "boom")] in
  let s := subscribeToEvents options never in
  (unwrap typeless = Ok typeless /\ isEvent typeless = false /\
   onMessage handler options (Ok typeless) = (Ok tt, [])) /\
  (unwrap failure = Throw (Error (VStr "boom")) /\
   onMessage handler options (Ok failure) = (Ok tt, [CallOnError (Error (VStr "boom"))])) /\
  (noneUnsubscribes never (log s) (snd (onMessage handler options (Ok failure))) = true /\
   closed (step handler options never (SocketMessage 0 (Ok failure)) s) = closed s).
Proof.
  cbv zeta.
  destruct (malformed_frame_dropped
              (fun _ : value => @None exn)
              (mkOptions None None true true true true)
              (fun _ : list action => false)) as (_ & Hfailure & Htypeless & _ & Hstate).
  split; [|split].
  - split; [reflexivity|]. split; [reflexivity|].
    exact (proj1 (Htypeless (VObj [("nodeId", VStr "n5")]) (VObj [("nodeId", VStr "n5")])
                    eq_refl eq_refl)).
  - split; [reflexivity|].
    exact (Hfailure (VObj [("success", VBool false); ("data", VNull); ("error", VStr "boom")])
             (Error (VStr "boom")) eq_refl).
  - split; [reflexivity|].
    exact (proj1 (Hstate 0%nat
                    (Ok (VObj [("success", VBool false); ("data", VNull);
                               ("error", VStr "boom")]))
                    (subscribeToEvents (mkOptions None None true true true true)
                                       (fun _ : list action => false))
                    eq_refl)).
Defined.

(** A frame that parses but carries no [type] is dropped without a call
    to the error callback, although one is supplied. *)
Lemma typeless_frame_not_reported :
  let options := mkOptions None None true true true true in
  let handler := fun _ : value => @None exn in
  let parsed := VObj [("nodeId", VStr "n5")] in
  onError options = true /\
  typeofString (get parsed "type") = false /\
  ~ (exists e, In (CallOnError e) (snd (onMessage handler options (Ok parsed)))).
Proof.
  cbv zeta. split; [reflexivity|]. split; [reflexivity|].
  intros [e He]. exact He.
Qed.

(** A detail fetch with a non-empty id resolves on an arbitrary object. *)
Lemma shape_errors_witness :
  "n1" <> "" /\
  exists d,
    fst (getNodeDetail showNumber trimAscii "n1" true (Ok (VObj [("count", VNum (Finite 3))]))
           newClient) = Ok d.
Proof.
  split; [discriminate|].
  apply (proj2 (proj2 (proj2 (proj2 (shape_errors showNumber trimAscii))))).
  discriminate.
Defined.

(** An object with neither an [items] nor a [nodes] (or [tags]) array is
    rejected by both list methods. *)
Lemma list_methods_reject_objects :
  let payload := VObj [("count", VNum (Finite 3))] in
  listNodes payload
    = Throw (Error (VStr "Unexpected response shape from /nodes endpoint")) /\
  listTags payload
    = Throw (Error (VStr "Unexpected response shape from /tags endpoint")).
Proof. split; reflexivity. Qed.

(** One run of a subscription: the socket closes, the timer comes due
    after the default delay and a second socket is opened. *)
Lemma reconnection_law_witness :
  let options := mkOptions None None true true true true in
  let handler := fun _ : value => @None exn in
  let never := fun _ : list action => false in
  let s := run handler options never [SocketOpened 0] (subscribeToEvents options never) in
  let s' := step handler options never (SocketClosed 0) s in
  closed s = false /\ isSocket 0 s = true /\
  schedules s' = S (schedules s) /\
  last (log s') = Some (SetTimeout 0 5000%N) /\
  attempts (run handler options never [TimerFired 0; Elapse 5000; TimerFired 0] s') = 2%nat.
Proof.
  cbv zeta. split; [reflexivity|]. split; [reflexivity|].
  pose proof (proj1 (reconnection_law (fun _ => None)
                       (mkOptions None None true true true true)
                       (fun _ => false))
                _ 0%nat (ex_intro _ [SocketOpened 0] eq_refl) eq_refl eq_refl) as H.
  cbv zeta in H. destruct H as (Hopen & Hlaw & _).
  destruct (Hlaw (Hopen eq_refl)) as (Hs & _ & Hl & _).
  split; [exact Hs|]. split; [exact Hl|]. reflexivity.
Defined.

(** C8. The failing run: the caller's status callback calls the
    unsubscribe function when it is told ['connecting'] on a reconnect.
    The socket opens, closes, the reconnect timer comes due and fires;
    [connect] finds [closed] unset and calls the callback, which
    unsubscribes: the timer is cleared and [terminate()] is called on the
    old socket. Back in [connect], a second socket is created although
    the subscription is closed, and nothing has shut it down: it is
    connecting, and it opens and delivers events like any other. *)
Theorem unsubscribe_inside_connect :
  let options := mkOptions None None false false false true in
  let handler := fun _ : value => @None exn in
  let unsubscribeOnConnecting :=
    fun calls : list action =>
      match last calls with
      | Some (CallStatusChange Connecting) => true
      | _ => false
      end in
  let s :=
    run handler options unsubscribeOnConnecting
        [SocketOpened 0; SocketClosed 0; Elapse 5000; TimerFired 0]
        (subscribeToEvents options unsubscribeOnConnecting) in
  log s =
    [CallStatusChange Connecting; NewWebSocket 0 "/ws"; CallStatusChange Connected;
     CallStatusChange Disconnected; SetTimeout 0 5000%N;
     CallStatusChange Connecting; ClearTimeout 0; SocketTerminate 0;
     NewWebSocket 1 "/ws"] /\
  closed s = true /\ socket s = Some 1%nat /\ sockets s = [CLOSED; CONNECTING] /\
  attempts s = 2%nat /\
  log (run handler options unsubscribeOnConnecting
           [SocketOpened 1; SocketMessage 1 (Ok (VObj [("type", VStr "node:created")]))] s)
  = log s ++ [CallStatusChange Connected;
              CallHandler (VObj [("type", VStr "node:created")])].
Proof. cbv zeta. repeat split; vm_compute; reflexivity. Qed.

(** A section whose [count] stands in for a missing [total]. *)
Lemma extractSection_aliases_witness :
  let fs := [("count", VNum (Finite 5)); ("pending", VNum (Finite 2))] in
  nullish (field "total" fs) = true /\
  coerceNumber (field "count" fs) = Some (Finite 5) /\
  StatsSection.total (extractSection (VObj fs)) = Some (Finite 5).
Proof.
  cbv zeta. split; [reflexivity|]. split; [reflexivity|].
  apply (proj1 (extractSection_aliases showNumber _)); reflexivity.
Defined.

(** A [total] that is present but not a number hides a finite [count]:
    the section has no total. *)
Lemma extractSection_total_hides_count :
  let fs := [("total", VStr "12"); ("count", VNum (Finite 5))] in
  coerceNumber (field "total" fs) = None /\
  coerceNumber (field "count" fs) = Some (Finite 5) /\
  StatsSection.total (extractSection (VObj fs)) = None /\
  StatsSection.total (extractSection (VObj fs)) <> Some (Finite 5).
Proof. cbv zeta. repeat split; try reflexivity. discriminate. Qed.

(** The two cases of [__tests__/forestClient.spec.ts], replayed on the
    embedding. *)
Example spec_structured_payload :
  let r :=
    normalizeStats showNumber
      (VObj [("nodes", VObj [("total", VNum (Finite 524)); ("recentCount", VNum (Finite 3));
                             ("recent", VArr [VObj [("id", VStr "n1"); ("title", VStr "First node")];
                                              VObj [("id", VStr "n2"); ("title", VStr "Second node")]])]);
             ("edges", VObj [("accepted", VNum (Finite 1200)); ("suggested", VNum (Finite 42));
                             ("total", VNum (Finite 1242))]);
             ("tags", VObj [("total", VNum (Finite 87));
                            ("topTags", VArr [VObj [("name", VStr "research"); ("count", VNum (Finite 12))];
                                              VObj [("tag", VStr "ideas"); ("count", VNum (Finite 9))]])]);
             ("suggestions", VObj [("highScoreCount", VNum (Finite 4));
                                   ("topSuggestions",
                                    VArr [VObj [("ref", VStr "edge-1"); ("sourceId", VStr "n1");
                                                ("targetId", VStr "n3"); ("score", VNum (Finite 0.82))];
                                          VObj [("code", VStr "edge-2"); ("fromId", VStr "n2");
                                                ("toId", VStr "n4"); ("weight", VNum (Finite 0.7))]])]);
             ("highDegreeNodes", VArr [VObj [("id", VStr "n5"); ("title", VStr "Hub");
                                             ("edgeCount", VNum (Finite 18))];
                                       VObj [("id", VStr "n6"); ("title", VStr "Connector");
                                             ("degree", VNum (Finite 12))]])]) in
  (Stats.nodes r, Stats.edges r, Stats.suggestedEdges r, Stats.tags r)
    = (Some (Finite 524), Some (Finite 1242), Some (Finite 42), Some (Finite 87)) /\
  (Stats.recentCount r, Stats.highScoreSuggestionCount r) = (Some (Finite 3), Some (Finite 4)) /\
  map RecentNode.id (Stats.recentNodes r) = ["n1"; "n2"] /\
  Stats.topTags r = [TopTag.mk "research" (Some (Finite 12)); TopTag.mk "ideas" (Some (Finite 9))] /\
  map TopSuggestion.ref (Stats.topSuggestions r) = [Some "edge-1"; Some "edge-2"] /\
  map HighDegreeNode.edgeCount (Stats.highDegreeNodes r) = [Some (Finite 18); Some (Finite 12)].
Proof. cbv zeta. repeat split; reflexivity. Qed.

Example spec_flat_payload :
  normalizeStats showNumber
    (VObj [("nodes", VNum (Finite 10)); ("edges", VNum (Finite 20));
           ("suggestedEdges", VNum (Finite 2)); ("tags", VNum (Finite 5))])
  = Stats.mk (Some (Finite 10)) (Some (Finite 20)) (Some (Finite 2)) (Some (Finite 5))
             None None [] [] [] [].
Proof. reflexivity. Qed.

(** ** Further worked instances *)

Lemma normalizeStats_not_object_witness :
  normalizeStats showNumber VNull = Stats.mk None None None None None None [] [] [] [].
Proof. apply normalizeStats_not_object. reflexivity. Defined.

Lemma normalizeStats_flat_counts_witness :
  let fs := [("nodes", VObj [("total", VNum (Finite 7))]);
             ("counts", VObj [("nodes", VNum (Finite 5))])] in
  coerceNumber (field "nodes" fs) = None /\
  Stats.nodes (normalizeStats showNumber (VObj fs)) = Some (Finite 5).
Proof.
  cbv zeta. split; [reflexivity|].
  refine (proj1 (proj2 (proj2 (proj2 (proj2
            (normalizeStats_flat_counts showNumber
               [("nodes", VObj [("total", VNum (Finite 7))]);
                ("counts", VObj [("nodes", VNum (Finite 5))])]))))
            eq_refl) _ eq_refl eq_refl).
Defined.

Lemma normalizeNodeDetail_explicit_totals_witness :
  let payload := VObj [("edges", VArr [VObj [("id", VStr "e1")]]);
                       ("edgesTotal", VNum (Finite 40))] in
  NodeDetail.edgesTotal (normalizeNodeDetail showNumber trimAscii payload "n1") = Finite 40.
Proof.
  cbv zeta.
  refine (proj1 (normalizeNodeDetail_explicit_totals showNumber trimAscii
                   (VObj [("edges", VArr [VObj [("id", VStr "e1")]]);
                          ("edgesTotal", VNum (Finite 40))]) "n1") _ eq_refl).
Defined.

Lemma normalizeEdgeRecord_invariants_witness :
  let edge := VObj [("score", VNum PosInfinity); ("weight", VNum (Finite 0.5));
                    ("targetTitle", VStr "   "); ("target", VObj [("title", VStr "Hub")])] in
  exists r,
    normalizeEdgeRecord showNumber trimAscii edge "n1" = Some r /\
    Edge.score r = Some (Finite 0.5) /\ Edge.toTitle r = Some "Hub" /\
    finiteOpt (Edge.score r).
Proof.
  cbv zeta. eexists. split; [reflexivity|]. split; [reflexivity|]. split; [reflexivity|].
  refine (proj1 (normalizeEdgeRecord_invariants showNumber trimAscii
                   (VObj [("score", VNum PosInfinity); ("weight", VNum (Finite 0.5));
                          ("targetTitle", VStr "   ");
                          ("target", VObj [("title", VStr "Hub")])])
                   "n1" _ eq_refl)).
Defined.

Lemma unwrap_throws_iff_witness :
  exists e, unwrap (VObj [("success", VBool false); ("data", VNull)]) = Throw e.
Proof. apply unwrap_throws_iff. repeat split. Defined.

Lemma cache_hits_witness :
  let c := mkClient {["n1" := VObj [("id", VStr "n1")]]} ∅ in
  getNodeContent "n1" false (Throw (Error (VStr "offline"))) c
  = (Ok (VObj [("id", VStr "n1")]), c).
Proof.
  cbv zeta.
  apply (proj1 (cache_hits showNumber trimAscii _ "n1" ltac:(discriminate)));
    reflexivity.
Defined.

Lemma failed_fetch_keeps_cache_witness :
  let c := mkClient {["n1" := VStr "stale"]} ∅ in
  let offline := Error (VStr "offline") in
  getNodeContent "n1" true (Throw offline) c = (Throw offline, c) /\
  getNodeContent "n2" false (Throw offline) c = (Throw offline, c) /\
  getNodeDetail showNumber trimAscii "n1" false (Throw offline) c = (Throw offline, c).
Proof.
  cbv zeta. split; [|split].
  - apply (proj1 (proj2 (proj2 (failed_fetch_keeps_cache showNumber trimAscii _ "n1" _ true)))).
    + discriminate.
    + left. reflexivity.
  - apply (proj1 (proj2 (proj2 (failed_fetch_keeps_cache showNumber trimAscii _ "n2" _ false)))).
    + discriminate.
    + right. reflexivity.
  - apply (proj2 (proj2 (proj2 (failed_fetch_keeps_cache showNumber trimAscii _ "n1" _ false)))).
    + discriminate.
    + right. reflexivity.
Defined.

Lemma eviction_is_local_witness :
  let c := mkClient {["n1" := VStr "a"]} ∅ in
  contentCache (snd (evictNodeContent "n2" c)) !! "n1" = contentCache c !! "n1".
Proof.
  cbv zeta.
  apply (proj2 (proj1 (eviction_is_local _ "n2"))). discriminate.
Defined.

Lemma event_delivery_witness :
  let options := mkOptions None None true true true true in
  let failing := fun _ : value => Some (Error (VStr "handler failed")) in
  let event := VObj [("type", VStr "node:deleted"); ("nodeId", VStr "n5")] in
  onMessage failing options (Ok (VObj [("data", event)]))
  = (Ok tt, [CallHandler event; CallOnError (Error (VStr "handler failed"))]).
Proof.
  cbv zeta.
  exact (proj1 (event_delivery
                  (fun _ => Some (Error (VStr "handler failed")))
                  (mkOptions None None true true true true)
                  (VObj [("data", VObj [("type", VStr "node:deleted");
                                        ("nodeId", VStr "n5")])]))
           (VObj [("type", VStr "node:deleted"); ("nodeId", VStr "n5")])
           eq_refl eq_refl).
Defined.

Lemma delivery_after_unsubscribe_witness :
  let options := mkOptions None None true true true true in
  let handler := fun _ : value => @None exn in
  let never := fun _ : list action => false in
  let event := VObj [("type", VStr "node:updated")] in
  let s := run handler options never [SocketOpened 0] (subscribeToEvents options never) in
  exists rest,
    log (step handler options never (SocketMessage 0 (Ok event)) (unsubscribe s))
    = log (unsubscribe s) ++ CallHandler event :: rest.
Proof.
  cbv zeta. apply delivery_after_unsubscribe; reflexivity.
Defined.

Lemma attempts_bounded_witness :
  let options := mkOptions None (Some 10%N) false false false false in
  let handler := fun _ : value => @None exn in
  let never := fun _ : list action => false in
  let s := run handler options never
             [SocketClosed 0; Elapse 10; TimerFired 0; SocketClosed 1]
             (subscribeToEvents options never) in
  (attempts s <= 1 + 2)%nat.
Proof.
  cbv zeta.
  exact (proj2 (proj2 (attempts_bounded (fun _ => None)
                         (mkOptions None (Some 10%N) false false false false)
                         (fun _ => false)
                         [SocketClosed 0; Elapse 10; TimerFired 0; SocketClosed 1]))).
Defined.

Lemma normalizeHealth_ok_witness :
  Health.ok (normalizeHealth showNumber lowerAscii
               (VObj [("ok", VBool false); ("status", VStr "healthy")])) = false.
Proof.
  apply (proj1 (normalizeHealth_ok showNumber lowerAscii _) false); reflexivity.
Defined.

Lemma buildApiPath_spec_witness :
  let apiPrefix := normalizeApiPrefix trimAscii " api/v1// " in
  apiPrefix = "/api/v1" /\
  startsWith (buildApiPath apiPrefix "/nodes/") apiPrefix = true /\
  buildApiPath apiPrefix "/nodes/" = "/api/v1/nodes".
Proof.
  cbv zeta. split; [reflexivity|]. split; [|reflexivity].
  refine (proj1 (proj2 (proj2 (buildApiPath_spec trimAscii _ "/nodes/"))
                   " api/v1// " eq_refl _ eq_refl)).
  discriminate.
Defined.

Lemma request_succeeds_iff_witness :
  request showNumber (Finite 5000)
    (FetchResolved 200 "OK" None (inl (VObj [("data", VNum (Finite 3))])))
  = Ok (VNum (Finite 3)).
Proof.
  apply request_succeeds_iff. exists 200%Z, "OK", None, (inl (VObj [("data", VNum (Finite 3))])).
  split; [reflexivity|]. split; [reflexivity|]. right. split; [discriminate|].
  eexists. split; reflexivity.
Defined.

Lemma request_failures_witness :
  request showNumber (Finite 5000)
    (FetchResolved 500 "Internal Server Error" (Some "boom")
       (inl (VObj [("success", VBool true); ("data", VNum (Finite 3))])))
  = Throw (Error (VStr "Forest request failed (500 Internal Server Error): boom")).
Proof.
  apply (proj1 (proj2 (proj2 (request_failures showNumber (Finite 5000))))). reflexivity.
Defined.

Lemma no_content_responses_witness :
  fst (getNodeDetail showNumber trimAscii "n1" true
         (request showNumber (Finite 5000) (FetchResolved 204 "No Content" None (inr AbortError)))
         newClient)
  = Ok (NodeDetail.mk "n1" None None [] None [] (ofNat 0) [] (ofNat 0)).
Proof.
  apply (no_content_responses showNumber trimAscii (Finite 5000) "No Content" None
           (inr AbortError) "n1" newClient).
  discriminate.
Defined.

Lemma extractEdgeNodeIds_spec_witness :
  let event := VObj [("type", VStr "edge:created"); ("nodeId", VStr "n1");
                     ("edge", VObj [("sourceId", VStr "n1"); ("toId", VStr "n2")])] in
  extractEdgeNodeIds event = ["n1"; "n2"] /\ "n1" ∈ extractEdgeNodeIds event.
Proof.
  cbv zeta. split; [reflexivity|].
  apply (proj1 (proj2 (proj2 (proj2 (extractEdgeNodeIds_spec _))))). reflexivity.
Defined.

Lemma areTagArraysEqual_spec_witness :
  areTagArraysEqual trimAscii lowerAscii ["#Research"; " ideas "] ["research"; "IDEAS"] = true /\
  favoriteKey trimAscii lowerAscii ["#Research"; " ideas "] = "research|ideas".
Proof.
  split; [|reflexivity].
  apply (proj1 (areTagArraysEqual_spec trimAscii lowerAscii _ _)). reflexivity.
Defined.

Lemma upsertFavoriteRecords_spec_witness :
  let current := [Favorite.mk ["ideas"] "2025-10-17T08:00:00.000Z" (Finite 2);
                  Favorite.mk ["Research"] "2025-10-16T08:00:00.000Z" (Finite 1)] in
  upsertFavoriteRecords trimAscii lowerAscii exactAdd "2025-10-18T10:00:00.000Z"
    current ["research"] true
  = Some [Favorite.mk ["research"] "2025-10-18T10:00:00.000Z" (Finite 2);
          Favorite.mk ["ideas"] "2025-10-17T08:00:00.000Z" (Finite 2)] /\
  upsertFavoriteRecords trimAscii lowerAscii exactAdd "2025-10-18T10:00:00.000Z"
    current ["todo"] true = None.
Proof.
  cbv zeta. split; [reflexivity|].
  apply (proj1 (upsertFavoriteRecords_spec trimAscii lowerAscii exactAdd _ _ _ _)).
  split; [reflexivity|]. repeat constructor; discriminate.
Defined.

Lemma removeFavoriteAtIndex_spec_witness :
  let current := [Favorite.mk ["a"] "d1" (Finite 1); Favorite.mk ["b"] "d2" (Finite 1)] in
  removeFavoriteAtIndex current 2 = None /\
  removeFavoriteAtIndex current 0 = Some [Favorite.mk ["b"] "d2" (Finite 1)].
Proof.
  cbv zeta. split; [|reflexivity].
  apply (proj1 (removeFavoriteAtIndex_spec _ 2)). right. simpl. lia.
Defined.

Lemma loadTagFavorites_spec_witness :
  let favorites := [Favorite.mk ["research"; "ideas"] "2025-10-18T10:00:00.000Z" (Finite 3)] in
  loadTagFavorites exampleDateParse (fun _ => "2025-10-19T00:00:00.000Z")
    (Ok (VArr (map favoriteToValue favorites))) = favorites.
Proof.
  cbv zeta.
  apply (proj2 (proj2 (proj2 (loadTagFavorites_spec exampleDateParse _)))).
  repeat constructor; discriminate.
Defined.

Lemma fetch_populates_cache_witness :
  let payload := VObj [("id", VStr "n1"); ("body", VStr "text")] in
  fst (getCachedNodeContent "n1" (snd (getNodeContent "n1" true (Ok payload) newClient)))
  = Ok payload.
Proof.
  cbv zeta.
  pose proof (proj1 (fetch_populates_cache showNumber trimAscii newClient "n1"
                       (VObj [("id", VStr "n1"); ("body", VStr "text")])
                       ltac:(discriminate))) as H.
  exact (proj2 H).
Defined.

Lemma normalizeNodeDetail_id_other_witness :
  NodeDetail.id (normalizeNodeDetail showNumber trimAscii (VObj [("id", VStr "")]) "n1") = "n1".
Proof.
  apply (proj2 (normalizeNodeDetail_id_other showNumber trimAscii _ "n1")).
  right. reflexivity.
Defined.
